(** * The runtime-lifecycle coordinator of the container engine

    A shallow embedding of
    - [libcontainerd/client_windows.go]: [Create] (payload translation,
      port-binding validation, the TP4 retry loop, the deferred delete) and
      [Signal];
    - [daemon/monitor.go]: [StateChanged] and [AttachStreams].

    Calls that leave these two files (the HCS shim, the container package,
    the logger) are recorded as events of a trace, in program order; what
    such a call answers is read from an oracle that the caller of the model
    supplies.  Debug-level log lines are left out of the trace; warnings and
    errors are kept. *)

From stdpp Require Import gmap strings list pretty.
From Stdlib Require Import ZArith String Ascii Lia.

Local Open Scope string_scope.
Local Open Scope Z_scope.
Local Open Scope list_scope.

(** ** Go's [int] on a 64-bit target *)

Module GoInt.

Definition min_int : Z := - 2 ^ 63.
Definition max_int : Z := 2 ^ 63 - 1.

(** Two's complement wrap-around of a signed 64-bit result. *)
Definition wrap (z : Z) : Z := (z + 2 ^ 63) mod 2 ^ 64 - 2 ^ 63.

(** [x++] on an [int]. *)
Definition incr (x : Z) : Z := wrap (x + 1).

Definition in_range (z : Z) : Prop := min_int <= z <= max_int.

End GoInt.

(** ** Errors

    One type for every [error] value the two files build or pass on. *)

Inductive NumError : Type :=
| ErrSyntax
| ErrRange.

Inductive error : Type :=
(* *hcsshim.HcsError, with its Win32 code [Err] *)
| HcsError (Err : Z)
(* fmt.Errorf("invalid protocol %s", i.Proto()) *)
| ErrInvalidProtocol (proto : string)
(* "Windows does not support more than one host port in NAT settings" *)
| ErrMoreThanOneHostPort
(* "Windows does not support host IP addresses in NAT settings" *)
| ErrHostIP
(* fmt.Errorf("invalid container port %s: %s", v2.HostPort, err) *)
| ErrInvalidContainerPort (HostPort : string) (err : NumError)
(* fmt.Errorf("invalid internal port %s: %s", i.Port(), err) *)
| ErrInvalidInternalPort (Port : string) (err : NumError)
(* "specified NAT port is not in allowed range" *)
| ErrPortRange
(* the client's table has no container of that id *)
| ErrNotFound (id : string)
(* fmt.Errorf("no such container: %s", id) *)
| ErrNoSuchContainer (id : string)
(* fmt.Errorf("no such exec/container: %s", id) *)
| ErrNoSuchExecOrContainer (id : string)
(* "Received StateOOM from libcontainerd on Windows. This should never happen." *)
| ErrOOMOnWindows
(* any other error value handed over by a collaborator *)
| ErrOther (msg : string).

(** The value of a decimal digit, [None] for any other byte. *)
Definition Z_of_digit (a : ascii) : option Z :=
  let n := Z.of_N (N_of_ascii a) in
  if (48 <=? n) && (n <=? 57) then Some (n - 48) else None.

(** ** [strconv.Atoi] *)

Module strconv.

(** The digits of [s] read in base 10 onto [acc]; [None] at the first byte
    that is no digit. *)
Fixpoint digits (s : string) (acc : Z) : option Z :=
  match s with
  | EmptyString => Some acc
  | String a s' =>
      match Z_of_digit a with
      | Some d => digits s' (10 * acc + d)
      | None => None
      end
  end.

(** [ParseUint(s, 10, 64)]: the value, or the error kind.  A range error
    still yields the clamped value in Go; [ParseInt] only looks at the
    fact that it is at least the cutoff. *)
Definition ParseUint (s : string) : Z + NumError :=
  match s with
  | EmptyString => inr ErrSyntax
  | _ =>
      match digits s 0 with
      | None => inr ErrSyntax
      | Some n => if n <=? 2 ^ 64 - 1 then inl n else inr ErrRange
      end
  end.

(** [ParseInt(s, 10, 0)] with a 64-bit [int]. *)
Definition ParseInt (s : string) : Z + NumError :=
  match s with
  | EmptyString => inr ErrSyntax
  | String a rest =>
      let neg := Ascii.eqb a "-" in
      let body := if Ascii.eqb a "+" || neg then rest else s in
      match ParseUint body with
      | inr ErrSyntax => inr ErrSyntax
      | inr ErrRange => inr ErrRange
      | inl un =>
          let cutoff := 2 ^ 63 in
          if negb neg && (cutoff <=? un) then inr ErrRange
          else if neg && (cutoff <? un) then inr ErrRange
          else inl (if neg then - un else un)
      end
  end.

Definition Atoi (s : string) : Z + NumError := ParseInt s.

(** [strconv.Itoa] *)
Definition Itoa (z : Z) : string := pretty z.

End strconv.

(** ** [strings.ToUpper], [strings.Replace] *)

Module strings.

(** Upper-casing of one byte.  Only the ASCII letters are mapped; any
    other byte is kept.  Go maps runes, yet no rune other than an ASCII
    letter upper-cases to one of T, C, P, U, D, so the comparison with
    "TCP" and "UDP" below comes out as in Go. *)
Definition upper_byte (a : ascii) : ascii :=
  let n := N_of_ascii a in
  if (97 <=? n)%N && (n <=? 122)%N then ascii_of_N (n - 32) else a.

Fixpoint ToUpper (s : string) : string :=
  match s with
  | EmptyString => EmptyString
  | String a s' => String (upper_byte a) (ToUpper s')
  end.

(** [strings.Replace(s, old, new, -1)] for one-byte [old] and [new]. *)
Fixpoint ReplaceByte (s : string) (old new : ascii) : string :=
  match s with
  | EmptyString => EmptyString
  | String a s' =>
      String (if Ascii.eqb a old then new else a) (ReplaceByte s' old new)
  end.

(** [strings.Split(s, sep)] for a one-byte separator: never empty. *)
Fixpoint SplitByte (s : string) (sep : ascii) : list string :=
  match s with
  | EmptyString => [EmptyString]
  | String a s' =>
      if Ascii.eqb a sep then EmptyString :: SplitByte s' sep
      else
        match SplitByte s' sep with
        | [] => [String a EmptyString]
        | p :: ps => String a p :: ps
        end
  end.

(** [strings.ToLower], on the same terms as [ToUpper]: no rune other than
    an ASCII letter lower-cases to a letter of "default". *)
Definition lower_byte (a : ascii) : ascii :=
  let n := N_of_ascii a in
  if (65 <=? n)%N && (n <=? 90)%N then ascii_of_N (n + 32) else a.

Fixpoint ToLower (s : string) : string :=
  match s with
  | EmptyString => EmptyString
  | String a s' => String (lower_byte a) (ToLower s')
  end.

(** [strings.Join(a, sep)] *)
Definition Join (a : list string) (sep : string) : string :=
  match a with
  | [] => ""
  | x :: rest => fold_left (fun acc s => acc +:+ sep +:+ s) rest x
  end.

(** [strings.SplitN(s, sep, 2)] for a one-byte separator: [s] cut at the
    first separator, or [s] alone when it holds none. *)
Fixpoint SplitN2 (s : string) (sep : ascii) : list string :=
  match s with
  | EmptyString => [EmptyString]
  | String a s' =>
      if Ascii.eqb a sep then [EmptyString; s']
      else
        match SplitN2 s' sep with
        | [] => [String a EmptyString]
        | p :: ps => String a p :: ps
        end
  end.

End strings.

(** ** [nat.Port] *)

Module nat_port.

(** Modelled from the spec: [nat.Port] with its methods [Proto] and
    [Port] (package pkg/nat, not among the sources).  The spec writes a
    container port as "80/tcp": the port number, a slash, the protocol.
    A port written without a protocol counts as tcp, an empty one has
    neither part. *)
Definition SplitProtoPort (rawPort : string) : string * string :=
  let parts := strings.SplitByte rawPort "/" in
  match parts with
  | [] => ("", "")
  | p0 :: rest =>
      if (String.length rawPort =? 0)%nat || (String.length p0 =? 0)%nat
      then ("", "")
      else
        match rest with
        | [] => ("tcp", rawPort)
        | p1 :: _ =>
            if (String.length p1 =? 0)%nat then ("tcp", p0) else (p1, p0)
        end
  end.

Definition Proto (p : string) : string := fst (SplitProtoPort p).
Definition Port (p : string) : string := snd (SplitProtoPort p).

End nat_port.

(** [nat.PortBinding] *)
Record PortBinding : Type := {
  HostIP : string;
  HostPort : string
}.

(** [nat.PortMap], a Go map from container port to host bindings.  Go ranges
    over a map in an order of its own choosing, so the map is given as the
    list of its entries in the order the [range] loop meets them. *)
Definition PortMap : Type := list (string * list PortBinding).

(** ** The engine-side specification handed to [Create]

    The types of package windowsoci, with the fields [Create] reads. *)

Module windowsoci.

Record Root : Type := { Path : string }.

Record Mount : Type := {
  Source : string;
  Destination : string;
  Readonly : bool
}.

(** [Shares] is a pointer that [Create] dereferences as soon as [CPU] is
    set; a CPU block is taken to carry its shares. *)
Record CPU : Type := { Shares : Z }.

Record Resources : Type := { CPU_ : option CPU }.

Record HvRuntime : Type := { ImagePath : string }.

Record Networking : Type := {
  Bridge : string;
  MacAddress : string;
  PortBindings : PortMap
}.

Record Windows : Type := {
  FirstStart : bool;
  LayerFolder : string;
  LayerPaths : list string;
  Resources_ : option Resources;
  HvRuntime_ : option HvRuntime;
  Networking_ : option Networking
}.

Record Process : Type := {
  Terminal : bool;
  Args : list string;
  Env : list string;
  Cwd : string
}.

Record Spec : Type := {
  Root_ : Root;
  Windows_ : Windows;
  Hostname : string;
  Mounts : list Mount;
  Process_ : Process
}.

End windowsoci.

(** ** The runtime client: [libcontainerd/client_windows.go] *)

Module libcontainerd.

Import windowsoci.

Definition defaultContainerNAT : string := "ContainerNAT".
Definition defaultOwner : string := "docker".
Definition initFriendlyName : string := "init".

(** Win32 error codes ([syscall.Errno]). *)
Definition ERROR_FILE_NOT_FOUND : Z := 2.
Definition ERROR_NOT_FOUND : Z := 1168.
Definition CoEClassstring : Z := 0x800401F3.
Definition ErrorNoNetwork : Z := 1222.
Definition ErrorBadPathname : Z := 161.
Definition ErrorInvalidObject : Z := 0x800710D8.

(** [syscall.SIGKILL] *)
Definition SIGKILL : Z := 9.

(** [hcsshim.TimeoutInfinite] *)
Definition TimeoutInfinite : Z := 0xFFFFFFFF.

Record layer : Type := { ID : string; layer_Path : string }.

Record portBinding : Type := {
  Protocol : string;
  InternalPort : Z;
  ExternalPort : Z
}.

Record natSettings : Type := {
  nat_Name : string;
  nat_PortBindings : list portBinding
}.

Record networkConnection : Type := {
  NetworkName : string;
  EnableNat : bool;
  Nat : natSettings
}.

Record networkSettings : Type := { settings_MacAddress : string }.

(** [Connection] and [Settings] are [interface{}] fields; [Create] stores a
    [*networkConnection] in the first and, for a non-empty MAC address, a
    [networkSettings] in the second (nil otherwise). *)
Record device : Type := {
  DeviceType : string;
  Connection : networkConnection;
  Settings : option networkSettings
}.

Record mappedDir : Type := {
  HostPath : string;
  ContainerPath : string;
  ReadOnly : bool
}.

Record containerInit : Type := {
  SystemType : string;
  Name : string;
  Owner : string;
  IsDummy : bool;
  VolumePath : string;
  Devices : list device;
  IgnoreFlushesDuringBoot : bool;
  LayerFolderPath : string;
  Layers : list layer;
  ProcessorWeight : Z;
  HostName : string;
  MappedDirectories : list mappedDir;
  SandboxPath : string;
  HvPartition : bool
}.

(** The container object of the client: what [newContainer] fills in, and
    the system pid that [Signal] reads. *)
Record container : Type := {
  container_id : string;
  friendlyName : string;
  ociProcess : Process;
  processes : gmap string Process;
  systemPid : Z
}.

Record client : Type := { containers : gmap string container }.

(** The text of [context] in [Signal],
    [fmt.Sprintf("kill: sig=%d pid=%d", sig, cont.systemPid)]. *)
Definition killContext (sig pid : Z) : string :=
  "kill: sig=" +:+ strconv.Itoa sig +:+ " pid=" +:+ strconv.Itoa pid.

(** Calls that leave the file, warnings and errors that are logged. *)
Inductive event : Type :=
| CallCreateComputeSystem (id : string) (configuration : containerInit)
| WarnTP4RetryHack (i : Z) (last : Z)
| Sleep (ms : Z)
| CallStart (c : container)
| CallDeleteContainer (id : string)
| CallLock (id : string)
| CallUnlock (id : string)
| CallTerminateComputeSystem (id : string) (timeout : Z) (context : string)
| CallTerminateProcessInComputeSystem (id : string) (pid : Z)
| CallShutdownComputeSystem (id : string) (timeout : Z) (context : string)
| ErrorFailedToTerminate (id : string) (err : error)
| WarnFailedToTerminatePid (pid : Z) (id : string) (err : error)
| ErrorFailedToShutdown (id : string) (err : error).

(** What the HCS shim and [container.start] answer during one call of
    [Create]: [CreateComputeSystem n] is the answer to the creation call
    number [n], counted from 0. *)
Record hcs : Type := {
  IsTP4 : bool;
  CreateComputeSystem : nat -> option error;
  start : option error
}.

(** What the HCS shim answers during one call of [Signal]. *)
Record hcs_signal : Type := {
  TerminateComputeSystem : option error;
  TerminateProcessInComputeSystem : option error;
  ShutdownComputeSystem : option error
}.

Section Create.

(** Pure library functions [Create] calls: the file part of
    [filepath.Split], [filepath.Dir], and [hcsshim.NameToGuid] followed by
    [ToString]. *)
Variable filepath_Split_file : string -> string.
Variable filepath_Dir : string -> string.
Variable NameToGuid : string -> string + error.

(** The loop over [spec.Windows.LayerPaths]. *)
Fixpoint layersLoop (layerPaths : list string) (acc : list layer)
  : list layer + error :=
  match layerPaths with
  | [] => inl acc
  | layerPath :: rest =>
      match NameToGuid (filepath_Split_file layerPath) with
      | inr err => inr err
      | inl g => layersLoop rest (acc ++ [{| ID := g; layer_Path := layerPath |}])
      end
  end.

Definition mappedDirs (mounts : list Mount) : list mappedDir :=
  map (fun mount => {| HostPath := Source mount;
                       ContainerPath := Destination mount;
                       ReadOnly := Readonly mount |}) mounts.

(** The inner loop, [for _, v2 := range v], for the container port [i]
    whose upper-cased protocol is [proto]. *)
Fixpoint hostBindingsLoop (i proto : string) (v : list PortBinding)
  (pbs : list portBinding) : list portBinding + error :=
  match v with
  | [] => inl pbs
  | v2 :: rest =>
      if negb (String.length (HostIP v2) =? 0)%nat then inr ErrHostIP
      else
        match strconv.Atoi (HostPort v2) with
        | inr err => inr (ErrInvalidContainerPort (HostPort v2) err)
        | inl ePort =>
            match strconv.Atoi (nat_port.Port i) with
            | inr err => inr (ErrInvalidInternalPort (nat_port.Port i) err)
            | inl iPort =>
                if (iPort <? 0) || (65535 <? iPort) ||
                   (ePort <? 0) || (65535 <? ePort)
                then inr ErrPortRange
                else
                  hostBindingsLoop i proto rest
                    (pbs ++ [{| Protocol := proto;
                                InternalPort := iPort;
                                ExternalPort := ePort |}])
            end
        end
  end.

(** The outer loop, [for i, v := range spec.Windows.Networking.PortBindings]. *)
Fixpoint portBindingsLoop (m : PortMap) (pbs : list portBinding)
  : list portBinding + error :=
  match m with
  | [] => inl pbs
  | (i, v) :: rest =>
      let proto := strings.ToUpper (nat_port.Proto i) in
      if negb (String.eqb proto "TCP") && negb (String.eqb proto "UDP")
      then inr (ErrInvalidProtocol (nat_port.Proto i))
      else if (1 <? List.length v)%nat then inr ErrMoreThanOneHostPort
      else
        match hostBindingsLoop i proto v pbs with
        | inr err => inr err
        | inl pbs' => portBindingsLoop rest pbs'
        end
  end.

(** The network device built from [spec.Windows.Networking]. *)
Definition networkDevice (n : Networking) : device + error :=
  match portBindingsLoop (PortBindings n) [] with
  | inr err => inr err
  | inl pbs =>
      inl {| DeviceType := "Network";
             Connection :=
               {| NetworkName := Bridge n;
                  EnableNat := false;
                  Nat := {| nat_Name := defaultContainerNAT;
                            nat_PortBindings := pbs |} |};
             Settings :=
               if negb (String.eqb (MacAddress n) "")
               then Some {| settings_MacAddress :=
                              strings.ReplaceByte (MacAddress n) ":" "-" |}
               else None |}
  end.

(** Lines 108 to 216: the payload [cu], or the error of the first [return]
    met on the way.  [json.Marshal(cu)] cannot fail on a value of this
    type, and the payload stands for its JSON text. *)
Definition buildConfiguration (id : string) (spec : Spec)
  : containerInit + error :=
  let w := Windows_ spec in
  let processorWeight :=
    match Resources_ w with
    | Some r => match CPU_ r with Some cpu => Shares cpu | None => 0 end
    | None => 0
    end in
  let hvPartition :=
    match HvRuntime_ w with
    | Some hv => (0 <? String.length (ImagePath hv))%nat
    | None => false
    end in
  match layersLoop (LayerPaths w) [] with
  | inr err => inr err
  | inl layers =>
      let devices :=
        match Networking_ w with
        | Some n =>
            match networkDevice n with
            | inr err => inr err
            | inl dev => inl [dev]
            end
        | None => inl []
        end in
      match devices with
      | inr err => inr err
      | inl devs =>
          inl {| SystemType := "Container";
                 Name := id;
                 Owner := defaultOwner;
                 IsDummy := false;
                 VolumePath := Path (Root_ spec);
                 Devices := devs;
                 IgnoreFlushesDuringBoot := FirstStart w;
                 LayerFolderPath := LayerFolder w;
                 Layers := layers;
                 ProcessorWeight := processorWeight;
                 HostName := Hostname spec;
                 MappedDirectories := mappedDirs (Mounts spec);
                 SandboxPath :=
                   if hvPartition then filepath_Dir (LayerFolder w) else "";
                 HvPartition := hvPartition |}
      end
  end.

(** The error codes the TP4 loop retries on. *)
Definition retriedCode (Err : Z) : bool :=
  negb (negb (Err =? ERROR_NOT_FOUND) &&
        negb (Err =? ERROR_FILE_NOT_FOUND) &&
        negb (Err =? ErrorNoNetwork) &&
        negb (Err =? ErrorBadPathname) &&
        negb (Err =? CoEClassstring) &&
        negb (Err =? ErrorInvalidObject)).

Definition maxAttempts : nat := 5.

(** How the TP4 loop is left: by its [return err], or by falling out of it
    (the [break], or [i < maxAttempts] failing) with the function's [err]
    variable holding [err]. *)
Inductive loop_exit : Type :=
| Returned (err : error)
| FellOut (err : option error).

(** [for i := 0; i < maxAttempts; i++ { ... }], with [n = maxAttempts - i]
    rounds to go. *)
Fixpoint retryLoop (h : hcs) (id : string) (configuration : containerInit)
  (n i : nat) (err : option error) : list event * loop_exit :=
  match n with
  | O => ([], FellOut err)
  | S n' =>
      let call := CallCreateComputeSystem id configuration in
      match CreateComputeSystem h i with
      | None => ([call], FellOut None)
      | Some (HcsError Err) =>
          if retriedCode Err then
            let '(tr, x) :=
              retryLoop h id configuration n' (S i) (Some (HcsError Err)) in
            (call :: WarnTP4RetryHack (Z.of_nat i) (Z.of_nat maxAttempts - 1)
                  :: Sleep 50 :: tr, x)
          else ([call], Returned (HcsError Err))
      | Some e =>
          let '(tr, x) := retryLoop h id configuration n' (S i) (Some e) in
          (call :: tr, x)
      end
  end.

(** The loop over [options] in [newContainer] is commented out in the
    source: the options are not applied, and are left out here. *)
Definition newContainer (id : string) (p : Process) : container :=
  {| container_id := id;
     friendlyName := initFriendlyName;
     ociProcess := p;
     processes := ∅;
     systemPid := 0 |}.

(** Lines 256 to 265: [newContainer], the deferred function, and
    [return container.start()].  [err] is the function's [err] variable as
    the code above leaves it; the deferred function reads it when [Create]
    returns.  The value of [container.start()] goes to the caller and is
    stored nowhere. *)
Definition startContainer (h : hcs) (id : string) (spec : Spec)
  (err : option error) : list event * option error :=
  let container := newContainer id (Process_ spec) in
  let deferred :=
    match err with
    | Some _ => [CallDeleteContainer id]
    | None => []
    end in
  (CallStart container :: deferred, start h).

Definition Create (h : hcs) (id : string) (spec : Spec)
  : list event * option error :=
  match buildConfiguration id spec with
  | inr err => ([], Some err)
  | inl configuration =>
      if negb (IsTP4 h) then
        match CreateComputeSystem h 0 with
        | Some err => ([CallCreateComputeSystem id configuration], Some err)
        | None =>
            let '(tr, r) := startContainer h id spec None in
            (CallCreateComputeSystem id configuration :: tr, r)
        end
      else
        match retryLoop h id configuration maxAttempts 0 None with
        | (tr, Returned err) => (tr, Some err)
        | (tr, FellOut err) =>
            let '(tr', r) := startContainer h id spec err in
            (tr ++ tr', r)
        end
  end.

End Create.

(** Modelled from the spec: [getContainer] of the common client (client.go,
    not among the sources): looks the id up in the client's table and
    "fails with NotFound if absent". *)
Definition getContainer (c : client) (id : string) : container + error :=
  match containers c !! id with
  | Some cont => inl cont
  | None => inr (ErrNotFound id)
  end.

Definition Signal (h : hcs_signal) (c : client) (id : string) (sig : Z)
  : list event * option error :=
  match getContainer c id with
  | inr err => ([CallLock id; CallUnlock id], Some err)
  | inl cont =>
      let context := killContext sig (systemPid cont) in
      let body :=
        if sig =? SIGKILL then
          CallTerminateComputeSystem id TimeoutInfinite context ::
          match TerminateComputeSystem h with
          | Some err => [ErrorFailedToTerminate id err]
          | None => []
          end
        else
          (CallTerminateProcessInComputeSystem id (systemPid cont) ::
           match TerminateProcessInComputeSystem h with
           | Some err => [WarnFailedToTerminatePid (systemPid cont) id err]
           | None => []
           end) ++
          (CallShutdownComputeSystem id TimeoutInfinite context ::
           match ShutdownComputeSystem h with
           | Some err => [ErrorFailedToShutdown id err]
           | None => []
           end)
      in
      (CallLock id :: body ++ [CallUnlock id], None)
  end.

End libcontainerd.

(** ** The daemon side: [daemon/monitor.go] *)

Module daemon.

(** [libcontainerd.StateInfo]: the tag and the fields [StateChanged] reads.
    [ExitCode] and [Pid] are [uint32] values. *)
Inductive State : Type :=
| StateStart
| StateRestore
| StateExit
| StateExitProcess
| StateRestart
| StateOOM
| StatePause
| StateResume.

Record StateInfo : Type := {
  state : State;
  si_ExitCode : Z;
  si_Pid : Z;
  ProcessID : string
}.

(** [libcontainerd.IOPipe]: for each of the three pipes, whether the runtime
    handed one over ([true]) or left it nil ([false]). *)
Record IOPipe : Type := {
  Stdin : bool;
  Stdout : bool;
  Stderr : bool
}.

(** [runconfig.StreamConfig]: whether [s.Stdin()] is non-nil, and the
    counter of the embedded [sync.WaitGroup] that [s.Add] and [s.Done]
    move. *)
Record StreamConfig : Type := {
  has_stdin : bool;
  pending : Z
}.

(** Exec configurations are shared by pointer between the container's exec
    store and the daemon's: the stores hold addresses, the objects live in
    the daemon's heap. *)
Definition ptr : Type := positive.

Record ExecConfig : Type := {
  ec_ID : string;
  ec_ExitCode : option Z;
  ec_Running : bool;
  ec_StreamConfig : StreamConfig
}.

Record Container : Type := {
  ID : string;
  Running : bool;
  Restarting : bool;
  Paused : bool;
  Pid : Z;
  ExitCode : Z;
  FreshStart : bool;
  RestartCount : Z;
  HasBeenManuallyStopped : bool;
  Tty : bool;
  ExecCommands : gmap string ptr;
  StreamConfig_ : StreamConfig
}.

(** The containers are reached through [daemon.containers] only, so the
    table holds the objects themselves and a write to [*c] is a write to
    the table.  [disk] is what [ToDisk] last wrote for each container. *)
Record Daemon : Type := {
  containers : gmap string Container;
  execs : gmap ptr ExecConfig;
  execCommands : gmap string ptr;
  disk : gmap string Container
}.

Definition ExitStatus : Type := Z.

Inductive direction : Type := to_stdout | to_stderr.

(** The stream configuration [s] of [AttachStreams] points into a container
    or into an exec configuration. *)
Inductive owner : Type :=
| OfContainer (id : string)
| OfExec (p : ptr).

(** The goroutines [AttachStreams] starts.
    [CopyStdin]: [io.Copy(iop.Stdin, stdin)], then [iop.Stdin.Close()].
    [CopyOut]: [io.Copy(w, r)], then [s.Done()]. *)
Inductive task : Type :=
| CopyStdin (s : owner)
| CopyOut (s : owner) (d : direction).

Inductive event : Type :=
| Lock (id : string)
| Unlock (id : string)
| Wait (id : string)
| CallReset (c : Container)
| CallSetStopped (c : Container) (exitStatus : ExitStatus)
| CallSetRestarting (c : Container) (exitStatus : ExitStatus)
| CallSetRunning (c : Container) (pid : Z) (initial : bool)
(* LogContainerEvent and LogContainerEventWithAttributes *)
| LogContainerEvent (c : Container) (action : string)
    (attributes : list (string * string))
| CallCleanup (c : Container)
| CallToDisk (c : Container)
| ExecWait (p : ptr)
| CallCloseStreams (p : ptr)
| ErrorCloseStreams (id : string) (e : error)
| WarnIgnoringExitProcess (e : StateInfo)
| CallStartLogging (c : Container)
| StdinClose
| ErrorStreamCopy (id : string) (e : error).

(** What the collaborators answer during one call. *)
Record answers : Type := {
  ToDisk : option error;
  CloseStreams : option error;
  StartLogging : option error
}.

Definition set_state (running restarting : bool) (pid exitCode : Z)
  (fresh : bool) (c : Container) : Container :=
  {| ID := ID c; Running := running; Restarting := restarting;
     Paused := Paused c; Pid := pid; ExitCode := exitCode;
     FreshStart := fresh; RestartCount := RestartCount c;
     HasBeenManuallyStopped := HasBeenManuallyStopped c; Tty := Tty c;
     ExecCommands := ExecCommands c; StreamConfig_ := StreamConfig_ c |}.

Definition set_Paused (b : bool) (c : Container) : Container :=
  {| ID := ID c; Running := Running c; Restarting := Restarting c;
     Paused := b; Pid := Pid c; ExitCode := ExitCode c;
     FreshStart := FreshStart c; RestartCount := RestartCount c;
     HasBeenManuallyStopped := HasBeenManuallyStopped c; Tty := Tty c;
     ExecCommands := ExecCommands c; StreamConfig_ := StreamConfig_ c |}.

Definition set_RestartCount (n : Z) (c : Container) : Container :=
  {| ID := ID c; Running := Running c; Restarting := Restarting c;
     Paused := Paused c; Pid := Pid c; ExitCode := ExitCode c;
     FreshStart := FreshStart c; RestartCount := n;
     HasBeenManuallyStopped := HasBeenManuallyStopped c; Tty := Tty c;
     ExecCommands := ExecCommands c; StreamConfig_ := StreamConfig_ c |}.

Definition set_HasBeenManuallyStopped (b : bool) (c : Container) : Container :=
  {| ID := ID c; Running := Running c; Restarting := Restarting c;
     Paused := Paused c; Pid := Pid c; ExitCode := ExitCode c;
     FreshStart := FreshStart c; RestartCount := RestartCount c;
     HasBeenManuallyStopped := b; Tty := Tty c;
     ExecCommands := ExecCommands c; StreamConfig_ := StreamConfig_ c |}.

Definition set_ExecCommands (m : gmap string ptr) (c : Container) : Container :=
  {| ID := ID c; Running := Running c; Restarting := Restarting c;
     Paused := Paused c; Pid := Pid c; ExitCode := ExitCode c;
     FreshStart := FreshStart c; RestartCount := RestartCount c;
     HasBeenManuallyStopped := HasBeenManuallyStopped c; Tty := Tty c;
     ExecCommands := m; StreamConfig_ := StreamConfig_ c |}.

Definition set_StreamConfig (s : StreamConfig) (c : Container) : Container :=
  {| ID := ID c; Running := Running c; Restarting := Restarting c;
     Paused := Paused c; Pid := Pid c; ExitCode := ExitCode c;
     FreshStart := FreshStart c; RestartCount := RestartCount c;
     HasBeenManuallyStopped := HasBeenManuallyStopped c; Tty := Tty c;
     ExecCommands := ExecCommands c; StreamConfig_ := s |}.

Definition set_containers (m : gmap string Container) (d : Daemon) : Daemon :=
  {| containers := m; execs := execs d; execCommands := execCommands d;
     disk := disk d |}.

Definition set_execs (m : gmap ptr ExecConfig) (d : Daemon) : Daemon :=
  {| containers := containers d; execs := m; execCommands := execCommands d;
     disk := disk d |}.

Definition set_disk (m : gmap string Container) (d : Daemon) : Daemon :=
  {| containers := containers d; execs := execs d;
     execCommands := execCommands d; disk := m |}.

(** Writes through the pointer [c] found under [id]. *)
Definition store (id : string) (c : Container) (d : Daemon) : Daemon :=
  set_containers (<[id := c]> (containers d)) d.

(** Modelled from the spec: [platformConstructExitStatus] (a platform file,
    not among the sources), "the platform-normalized exit status". *)
Definition platformConstructExitStatus (e : StateInfo) : ExitStatus :=
  si_ExitCode e.

(** Modelled from the spec: [Container.Reset] (package container, not among
    the sources).  The spec has it "reset runtime-specific transient fields"
    and, after a failed persist, has the state "rolled back to non-running":
    the running flag and the pid are cleared.  The restart count, the paused
    flag and the exec table are not its to touch. *)
Definition Reset (c : Container) : Container :=
  set_state false (Restarting c) 0 (ExitCode c) (FreshStart c) c.

(** Modelled from the spec: [Container.SetStopped], "record the container as
    stopped with the platform-normalized exit status". *)
Definition SetStopped (exitStatus : ExitStatus) (c : Container) : Container :=
  set_state false false 0 exitStatus (FreshStart c) c.

(** Modelled from the spec: [Container.SetRestarting], which marks the
    container "restarting" (not terminally stopped) and keeps the exit
    status. *)
Definition SetRestarting (exitStatus : ExitStatus) (c : Container) : Container :=
  set_state (Running c) true (Pid c) exitStatus (FreshStart c) c.

(** Modelled from the spec: [Container.SetRunning], which "records the
    runtime-assigned process id and marks the container running"; [initial]
    tells a fresh start from a reattachment. *)
Definition SetRunning (pid : Z) (initial : bool) (c : Container) : Container :=
  set_state true (Restarting c) pid (ExitCode c) initial c.

(** Modelled from the spec: [Container.ToDisk], which "persists container
    state to durable storage"; a failed write leaves the stored copy as it
    was. *)
Definition persist (w : answers) (id : string) (c : Container) (d : Daemon)
  : Daemon :=
  match ToDisk w with
  | None => set_disk (<[id := c]> (disk d)) d
  | Some _ => d
  end.

(** Modelled from the spec: [Get] of the exec store (package exec, not
    among the sources), which "looks up the exec session by id in the
    container's exec table": the pointer stored under [id] and the object
    it points to, nil when the table has no such entry. *)
Definition ExecCommands_Get (d : Daemon) (c : Container) (id : string)
  : option (ptr * ExecConfig) :=
  p ← ExecCommands c !! id; ec ← execs d !! p; Some (p, ec).

(** Modelled from the spec: [daemon.getExecConfig] (not among the sources),
    "the engine's exec-session lookup". *)
Definition getExecConfig (d : Daemon) (id : string)
  : option (ptr * ExecConfig) :=
  p ← execCommands d !! id; ec ← execs d !! p; Some (p, ec).

Definition exitAttributes (e : StateInfo) : list (string * string) :=
  [("exitCode", strconv.Itoa (si_ExitCode e))].

Section StateChanged.

(** [runtime.GOOS] *)
Variable GOOS : string.

(** [daemon.Cleanup], which the Exit branch calls, is not among the sources,
    and the spec has it "run cleanup of runtime-side resources" without
    saying what it writes: the call is recorded in the trace and its writes
    to the daemon are left out.  The statements about the daemon's tables
    leave the Exit event aside. *)
Definition StateChanged (w : answers) (d : Daemon) (id : string)
  (e : StateInfo) : Daemon * list event * option error :=
  match containers d !! id with
  | None => (d, [], Some (ErrNoSuchContainer id))
  | Some c =>
      match state e with
      | StateOOM =>
          if String.eqb GOOS "windows" then (d, [], Some ErrOOMOnWindows)
          else (d, [LogContainerEvent c "oom" []], None)
      | StateExit =>
          let exitStatus := platformConstructExitStatus e in
          let c1 := Reset c in
          let c2 := SetStopped exitStatus c1 in
          (persist w id c2 (store id c2 d),
           [Lock id; Wait id; CallReset c; CallSetStopped c1 exitStatus;
            LogContainerEvent c2 "die" (exitAttributes e);
            CallCleanup c2; CallToDisk c2; Unlock id],
           ToDisk w)
      | StateRestart =>
          let exitStatus := platformConstructExitStatus e in
          let c1 := Reset c in
          let c2 := set_RestartCount (GoInt.incr (RestartCount c1)) c1 in
          let c3 := SetRestarting exitStatus c2 in
          (persist w id c3 (store id c3 d),
           [Lock id; CallReset c; CallSetRestarting c2 exitStatus;
            LogContainerEvent c3 "die" (exitAttributes e);
            CallToDisk c3; Unlock id],
           ToDisk w)
      | StateExitProcess =>
          match ExecCommands_Get d c (ProcessID e) with
          | Some (p, execConfig) =>
              let execConfig' :=
                {| ec_ID := ec_ID execConfig;
                   ec_ExitCode := Some (si_ExitCode e);
                   ec_Running := false;
                   ec_StreamConfig := ec_StreamConfig execConfig |} in
              let c' :=
                set_ExecCommands (delete (ec_ID execConfig) (ExecCommands c)) c in
              (store id c' (set_execs (<[p := execConfig']> (execs d)) d),
               [Lock id; ExecWait p; CallCloseStreams p] ++
               match CloseStreams w with
               | Some err => [ErrorCloseStreams (ID c) err]
               | None => []
               end ++ [Unlock id],
               None)
          | None =>
              (d, [Lock id; WarnIgnoringExitProcess e; Unlock id], None)
          end
      | StateStart | StateRestore =>
          let initial :=
            match state e with StateStart => true | _ => false end in
          let c1 := SetRunning (si_Pid e) initial c in
          let c2 := set_HasBeenManuallyStopped false c1 in
          match ToDisk w with
          | Some err =>
              (store id (Reset c2) d,
               [CallSetRunning c (si_Pid e) initial; CallToDisk c2;
                CallReset c2],
               Some err)
          | None =>
              (persist w id c2 (store id c2 d),
               [CallSetRunning c (si_Pid e) initial; CallToDisk c2],
               None)
          end
      | StatePause =>
          let c' := set_Paused true c in
          (store id c' d, [LogContainerEvent c' "pause" []], None)
      | StateResume =>
          let c' := set_Paused false c in
          (store id c' d, [LogContainerEvent c' "unpause" []], None)
      end
  end.

(** The events of a list handled one after the other, each with the answers
    given for it: the daemon at the end. *)
Fixpoint handle (d : Daemon) (id : string) (evs : list (answers * StateInfo))
  : Daemon :=
  match evs with
  | [] => d
  | (w, e) :: rest => handle (StateChanged w d id e).1.1 id rest
  end.

End StateChanged.

(** The stream configuration [s] points to, if the owner is there. *)
Definition stream_of (d : Daemon) (o : owner) : option StreamConfig :=
  match o with
  | OfContainer id => StreamConfig_ <$> containers d !! id
  | OfExec p => ec_StreamConfig <$> execs d !! p
  end.

(** A write through [s]. *)
Definition set_stream (o : owner) (s : StreamConfig) (d : Daemon) : Daemon :=
  match o with
  | OfContainer id =>
      set_containers (alter (set_StreamConfig s) id (containers d)) d
  | OfExec p =>
      set_execs
        (alter (fun ec => {| ec_ID := ec_ID ec; ec_ExitCode := ec_ExitCode ec;
                             ec_Running := ec_Running ec;
                             ec_StreamConfig := s |}) p (execs d)) d
  end.

(** [s.Add(n)]; [s.Done()] is [s.Add(-1)]. *)
Definition Add (o : owner) (n : Z) (d : Daemon) : Daemon :=
  match stream_of d o with
  | Some s => set_stream o {| has_stdin := has_stdin s; pending := pending s + n |} d
  | None => d
  end.

Definition Done (o : owner) (d : Daemon) : Daemon := Add o (-1) d.

(** Lines 140 to 185, with [s] resolved to [o] and [c] the container, nil
    on the exec path. *)
Definition wire (d : Daemon) (o : owner) (s : StreamConfig)
  (c : option Container) (iop : IOPipe)
  : Daemon * list event * list task :=
  let '(ev_in, t_in) :=
    if has_stdin s then
      (if Stdin iop then ([], [CopyStdin o]) else ([], []))
    else
      match c with
      | Some c' =>
          if negb (Tty c') then
            (if Stdin iop then ([StdinClose], []) else ([], []))
          else ([], [])
      | None => ([], [])
      end in
  let '(d1, t_out) :=
    if Stdout iop then (Add o 1 d, [CopyOut o to_stdout]) else (d, []) in
  let '(d2, t_err) :=
    if Stderr iop then (Add o 1 d1, [CopyOut o to_stderr]) else (d1, []) in
  (d2, ev_in, t_in ++ t_out ++ t_err).

(** [daemon.StartLogging], which the container path calls, is not among the
    sources: the call is recorded in the trace with its answer, and what it
    writes to the container (the log driver and its copier) is left out.
    The stream configuration's counter is moved by [s.Add] and [s.Done]
    only. *)
Definition AttachStreams (w : answers) (d : Daemon) (id : string)
  (iop : IOPipe) : Daemon * list event * list task * option error :=
  match containers d !! id with
  | None =>
      match getExecConfig d id with
      | None => (d, [], [], Some (ErrNoSuchExecOrContainer id))
      | Some (p, ec) =>
          let '(d', evs, ts) := wire d (OfExec p) (ec_StreamConfig ec) None iop in
          (d', evs, ts, None)
      end
  | Some c =>
      match StartLogging w with
      | Some e =>
          (store id (Reset c) d, [CallStartLogging c; CallReset c], [], Some e)
      | None =>
          let '(d', evs, ts) :=
            wire d (OfContainer id) (StreamConfig_ c) (Some c) iop in
          (d', CallStartLogging c :: evs, ts, None)
      end
  end.

(** A goroutine of [AttachStreams] running to its end; [copy_err] is what
    its [io.Copy] returned. *)
Definition finish (id : string) (copy_err : option error) (t : task)
  (d : Daemon) : Daemon * list event :=
  match t with
  | CopyStdin _ => (d, [StdinClose])
  | CopyOut o _ =>
      (Done o d,
       match copy_err with
       | Some e => [ErrorStreamCopy id e]
       | None => []
       end)
  end.

Definition task_owner (t : task) : owner :=
  match t with
  | CopyStdin o => o
  | CopyOut o _ => o
  end.

(** The daemon next to the goroutines that are still running; a step is one
    of them, any one, running to its end. *)
Inductive ends (id : string) :
  Daemon * list task -> Daemon * list task -> Prop :=
| ends_task (d : Daemon) (ts1 ts2 : list task) (t : task)
    (copy_err : option error) :
    ends id (d, ts1 ++ t :: ts2) ((finish id copy_err t d).1, ts1 ++ ts2).

End daemon.

(** ** Helpers of the runtime client: [libcontainerd/utils_windows.go] *)

Module utils_windows.

(** One round of the loop of [setupEnvironmentVariables]. *)
Definition addVariable (r : gmap string string) (s : string)
  : gmap string string :=
  match strings.SplitByte s "=" with
  | [k; v] => <[k := v]> r
  | _ => r
  end.

Definition setupEnvironmentVariables (a : list string) : gmap string string :=
  fold_left addVariable a ∅.

Section ArgsFromSlice.

(** [syscall.EscapeArg] *)
Variable EscapeArg : string -> string.

(** [for i, a := range args { if i != 0 { s += " " }; s += EscapeArg(a) }],
    from index [i] on. *)
Fixpoint escapeLoop (i : nat) (args : list string) (s : string) : string :=
  match args with
  | [] => s
  | a :: rest =>
      let s1 := if negb (i =? 0)%nat then s +:+ " " else s in
      escapeLoop (S i) rest (s1 +:+ EscapeArg a)
  end.

Definition ArgsFromSlice (args : list string) (escaped : bool) : string :=
  if escaped then strings.Join args " " else escapeLoop 0 args "".

End ArgsFromSlice.

End utils_windows.

(** ** Helpers of the runtime client: [libcontainerd/utils_linux.go] *)

Module utils_linux.

(** A [uint32] result. *)
Definition u32 (z : Z) : Z := z mod 2 ^ 32.

(** [specs.IDMapping]; the three fields are [uint32] values. *)
Record IDMapping : Type := {
  HostID : Z;
  ContainerID : Z;
  Size : Z
}.

(** [specs.UserNamespace] *)
Definition UserNamespace : string := "user".

(** [specs.LinuxSpec], with what [getRootIDs] reads: the types of the
    namespaces and the two mapping tables. *)
Record LinuxSpec : Type := {
  Namespaces : list string;
  UIDMappings : list IDMapping;
  GIDMappings : list IDMapping
}.

(** [containerd.Process] and [containerd.Container], with what [systemPid]
    reads. *)
Record Process : Type := {
  Pid : string;
  SystemPid : Z
}.

Record Container : Type := { Processes : list Process }.

(** [id >= m.ContainerID && id <= m.ContainerID+m.Size-1], in [uint32]. *)
Definition covers (m : IDMapping) (id : Z) : bool :=
  (ContainerID m <=? id) && (id <=? u32 (u32 (ContainerID m + Size m) - 1)).

Fixpoint hostIDFromMap (id : Z) (mp : list IDMapping) : Z :=
  match mp with
  | [] => 0
  | m :: rest =>
      if covers m id then u32 (u32 (HostID m + id) - ContainerID m)
      else hostIDFromMap id rest
  end.

(** The first loop of [getRootIDs]. *)
Fixpoint hasUserns (namespaces : list string) : bool :=
  match namespaces with
  | [] => false
  | ns :: rest => if String.eqb ns UserNamespace then true else hasUserns rest
  end.

Definition getRootIDs (s : LinuxSpec) : Z * Z * option error :=
  if negb (hasUserns (Namespaces s)) then (0, 0, None)
  else (hostIDFromMap 0 (UIDMappings s), hostIDFromMap 0 (GIDMappings s), None).

(** The loop of [systemPid], with [pid] as it stands. *)
Fixpoint systemPidLoop (ps : list Process) (pid : Z) : Z :=
  match ps with
  | [] => pid
  | p :: rest =>
      systemPidLoop rest
        (if String.eqb (Pid p) libcontainerd.initFriendlyName
         then SystemPid p else pid)
  end.

Definition systemPid (c : Container) : Z := systemPidLoop (Processes c) 0.

End utils_linux.

(** ** Timestamps: [pkg/system/chtimes.go] *)

Module system.

(** A [time.Time] is taken for its instant, in nanoseconds since the Unix
    epoch; [Before] and [After] compare instants. *)
Definition Time : Type := Z.

(** [time.Unix(sec, nsec)] *)
Definition Unix (sec nsec : Z) : Time := sec * 1000000000 + nsec.

(** [timespec64] is [unsafe.Sizeof(syscall.Timespec{}.Nsec) == 8]. *)
Definition maxTime (timespec64 : bool) : Time :=
  if timespec64 then Unix 0 (2 ^ 63 - 1) else Unix (2 ^ 31 - 1) 0.

(** What [Chtimes] does to each of its two times. *)
Definition clamp (timespec64 : bool) (t : Time) : Time :=
  let unixMinTime := Unix 0 0 in
  let unixMaxTime := maxTime timespec64 in
  if (t <? unixMinTime) || (unixMaxTime <? t) then unixMinTime else t.

(** The call of [os.Chtimes] that [Chtimes] makes. *)
Record os_Chtimes_call : Type := {
  call_name : string;
  call_atime : Time;
  call_mtime : Time
}.

(** [os_Chtimes] is what [os.Chtimes] answers. *)
Definition Chtimes (timespec64 : bool) (os_Chtimes : option error)
  (name : string) (atime mtime : Time) : os_Chtimes_call * option error :=
  ({| call_name := name;
      call_atime := clamp timespec64 atime;
      call_mtime := clamp timespec64 mtime |},
   os_Chtimes).

End system.

(** ** Host configuration: [runconfig/hostconfig.go] *)

Module runconfig.

(** [IsolationLevel], [IpcMode], [UTSMode], [PidMode] and [NetworkMode] are
    string types. *)

Definition IsolationLevel_IsDefault (i : string) : bool :=
  String.eqb (strings.ToLower i) "default" || String.eqb i "".

Definition IpcMode_IsHost (n : string) : bool := String.eqb n "host".

Definition IpcMode_IsContainer (n : string) : bool :=
  match strings.SplitN2 n ":" with
  | p0 :: _ :: _ => String.eqb p0 "container"
  | _ => false
  end.

Definition IpcMode_IsPrivate (n : string) : bool :=
  negb (IpcMode_IsHost n || IpcMode_IsContainer n).

Definition IpcMode_Container (n : string) : string :=
  match strings.SplitN2 n ":" with
  | _ :: p1 :: _ => p1
  | _ => ""
  end.

Definition UTSMode_IsHost (n : string) : bool := String.eqb n "host".
Definition UTSMode_IsPrivate (n : string) : bool := negb (UTSMode_IsHost n).

Definition PidMode_IsHost (n : string) : bool := String.eqb n "host".
Definition PidMode_IsPrivate (n : string) : bool := negb (PidMode_IsHost n).

Record DeviceMapping : Type := {
  PathOnHost : string;
  PathInContainer : string;
  CgroupPermissions : string
}.

Record RestartPolicy : Type := {
  Name : string;
  MaximumRetryCount : Z
}.

Definition IsNone (rp : RestartPolicy) : bool := String.eqb (Name rp) "no".
Definition IsAlways (rp : RestartPolicy) : bool := String.eqb (Name rp) "always".
Definition IsOnFailure (rp : RestartPolicy) : bool :=
  String.eqb (Name rp) "on-failure".
Definition IsUnlessStopped (rp : RestartPolicy) : bool :=
  String.eqb (Name rp) "unless-stopped".

Record LogConfig : Type := {
  Type_ : string;
  Config : gmap string string
}.

(** [ulimit.Ulimit] *)
Record Ulimit : Type := {
  ulimit_Name : string;
  Hard : Z;
  Soft : Z
}.

(** [HostConfig].  A pointer is an [option]; so is [GroupAdd], the one
    slice that the validation compares with nil.  The other slices are only
    asked for their length, which is 0 for nil. *)
Record HostConfig : Type := {
  Binds : list string;
  ContainerIDFile : string;
  Memory : Z;
  MemoryReservation : Z;
  MemorySwap : Z;
  KernelMemory : Z;
  CPUShares : Z;
  CPUPeriod : Z;
  CpusetCpus : string;
  CpusetMems : string;
  CPUQuota : Z;
  BlkioWeight : Z;
  OomKillDisable : bool;
  MemorySwappiness : option Z;
  Privileged : bool;
  PortBindings : PortMap;
  Links : list string;
  PublishAllPorts : bool;
  DNS : list string;
  DNSOptions : list string;
  DNSSearch : list string;
  ExtraHosts : list string;
  VolumesFrom : list string;
  Devices : list DeviceMapping;
  NetworkMode : string;
  IpcMode : string;
  PidMode : string;
  UTSMode : string;
  CapAdd : option (list string);
  CapDrop : option (list string);
  GroupAdd : option (list string);
  RestartPolicy_ : RestartPolicy;
  SecurityOpt : list string;
  ReadonlyRootfs : bool;
  Ulimits : list Ulimit;
  LogConfig_ : LogConfig;
  CgroupParent : string;
  ConsoleSize : Z * Z;
  VolumeDriver : string;
  Isolation : string
}.

(** The names of the fields of [HostConfig] in the order of the declaration,
    which is the order in which [reflect] numbers them. *)
Definition fields : list string :=
  ["Binds"; "ContainerIDFile"; "Memory"; "MemoryReservation"; "MemorySwap";
   "KernelMemory"; "CPUShares"; "CPUPeriod"; "CpusetCpus"; "CpusetMems";
   "CPUQuota"; "BlkioWeight"; "OomKillDisable"; "MemorySwappiness";
   "Privileged"; "PortBindings"; "Links"; "PublishAllPorts"; "DNS";
   "DNSOptions"; "DNSSearch"; "ExtraHosts"; "VolumesFrom"; "Devices";
   "NetworkMode"; "IpcMode"; "PidMode"; "UTSMode"; "CapAdd"; "CapDrop";
   "GroupAdd"; "RestartPolicy"; "SecurityOpt"; "ReadonlyRootfs"; "Ulimits";
   "LogConfig"; "CgroupParent"; "ConsoleSize"; "VolumeDriver"; "Isolation"].

(** The errors of the validation. *)
Inductive field_error : Type :=
(* "HostConfig '%s' has value %#v. Not supported on " + runtime.GOOS *)
| ErrPopulated (name : string)
| ErrInvalidIPCMode
| ErrInvalidPIDMode
| ErrInvalidUTSMode
(* "Unrecognised HostConfig field '%s' has value %#v" *)
| ErrUnrecognised (name : string).

(** [len(l) > 0] and some [l[i]] with [len(l[i]) > 0]. *)
Definition someNonEmpty (l : list string) : bool :=
  (0 <? List.length l)%nat &&
  existsb (fun s => (0 <? String.length s)%nat) l.

Definition is_some {A : Type} (o : option A) : bool :=
  match o with Some _ => true | None => false end.

Section Validation.

(** [runtime.GOOS], and the [Valid] methods of the three mode types, which
    live in the platform files. *)
Variable GOOS : string.
Variable IpcMode_Valid PidMode_Valid UTSMode_Valid : string -> bool.

Definition populated (name : string) (b : bool) : option field_error :=
  if String.eqb GOOS "windows" && b then Some (ErrPopulated name) else None.

Definition invalidMode (name : string) (valid : bool) (e : field_error)
  : option field_error :=
  if negb valid then
    if String.eqb GOOS "windows" then Some (ErrPopulated name) else Some e
  else None.

(** The [switch name] of the validation loop, for the field [name]. *)
Definition checkField (hc : HostConfig) (name : string)
  : option field_error :=
  if String.eqb name "Binds" || String.eqb name "ContainerIDFile" ||
     String.eqb name "CPUShares" || String.eqb name "LogConfig" ||
     String.eqb name "NetworkMode" || String.eqb name "PortBindings" ||
     String.eqb name "RestartPolicy" || String.eqb name "VolumeDriver" ||
     String.eqb name "VolumesFrom" then None
  else if String.eqb name "BlkioWeight" then
    populated name (negb (BlkioWeight hc =? 0))
  else if String.eqb name "CapAdd" then populated name (is_some (CapAdd hc))
  else if String.eqb name "CapDrop" then populated name (is_some (CapDrop hc))
  else if String.eqb name "CgroupParent" then
    populated name (negb (String.eqb (CgroupParent hc) ""))
  else if String.eqb name "CPUPeriod" then
    populated name (negb (CPUPeriod hc =? 0))
  else if String.eqb name "CPUQuota" then
    populated name (negb (CPUQuota hc =? 0))
  else if String.eqb name "CpusetCpus" then
    populated name (negb (String.eqb (CpusetCpus hc) ""))
  else if String.eqb name "CpusetMems" then
    populated name (negb (String.eqb (CpusetMems hc) ""))
  else if String.eqb name "Devices" then
    populated name (0 <? List.length (Devices hc))%nat
  else if String.eqb name "DNS" then populated name (someNonEmpty (DNS hc))
  else if String.eqb name "DNSOptions" then
    populated name (someNonEmpty (DNSOptions hc))
  else if String.eqb name "DNSSearch" then
    populated name (someNonEmpty (DNSSearch hc))
  else if String.eqb name "ExtraHosts" then
    populated name (someNonEmpty (ExtraHosts hc))
  else if String.eqb name "GroupAdd" then
    populated name (is_some (GroupAdd hc))
  else if String.eqb name "IpcMode" then
    invalidMode name (IpcMode_Valid (IpcMode hc)) ErrInvalidIPCMode
  else if String.eqb name "KernelMemory" then
    populated name (negb (KernelMemory hc =? 0))
  else if String.eqb name "Links" then populated name (someNonEmpty (Links hc))
  else if String.eqb name "Memory" then populated name (negb (Memory hc =? 0))
  else if String.eqb name "MemoryReservation" then
    populated name (negb (MemoryReservation hc =? 0))
  else if String.eqb name "MemorySwap" then
    populated name (negb (MemorySwap hc =? 0))
  else if String.eqb name "MemorySwappiness" then
    populated name
      (match MemorySwappiness hc with Some v => 0 <? v | None => false end)
  else if String.eqb name "OomKillDisable" then
    populated name (OomKillDisable hc)
  else if String.eqb name "PidMode" then
    invalidMode name (PidMode_Valid (PidMode hc)) ErrInvalidPIDMode
  else if String.eqb name "Privileged" then populated name (Privileged hc)
  else if String.eqb name "PublishAllPorts" then
    populated name (PublishAllPorts hc)
  else if String.eqb name "ReadonlyRootfs" then
    populated name (ReadonlyRootfs hc)
  else if String.eqb name "SecurityOpt" then
    populated name (someNonEmpty (SecurityOpt hc))
  else if String.eqb name "Ulimits" then
    populated name (0 <? List.length (Ulimits hc))%nat
  else if String.eqb name "UTSMode" then
    invalidMode name (UTSMode_Valid (UTSMode hc)) ErrInvalidUTSMode
  else if String.eqb name "ConsoleSize" then None
  else if String.eqb name "Isolation" then
    if negb (String.eqb GOOS "windows") &&
       negb (IsolationLevel_IsDefault (Isolation hc))
    then Some (ErrPopulated name) else None
  else Some (ErrUnrecognised name).

(** [for i := 0; i < v.NumField(); i++ { ... }] over the fields [names]. *)
Fixpoint validateLoop (hc : HostConfig) (names : list string)
  : option field_error :=
  match names with
  | [] => None
  | name :: rest =>
      match checkField hc name with
      | Some e => Some e
      | None => validateLoop hc rest
      end
  end.

Definition validateHostConfigPlatformFields (hc : HostConfig)
  : option field_error :=
  validateLoop hc fields.

End Validation.

Definition set_NetworkMode (n : string) (hc : HostConfig) : HostConfig :=
  {| Binds := Binds hc; ContainerIDFile := ContainerIDFile hc;
     Memory := Memory hc; MemoryReservation := MemoryReservation hc;
     MemorySwap := MemorySwap hc; KernelMemory := KernelMemory hc;
     CPUShares := CPUShares hc; CPUPeriod := CPUPeriod hc;
     CpusetCpus := CpusetCpus hc; CpusetMems := CpusetMems hc;
     CPUQuota := CPUQuota hc; BlkioWeight := BlkioWeight hc;
     OomKillDisable := OomKillDisable hc;
     MemorySwappiness := MemorySwappiness hc; Privileged := Privileged hc;
     PortBindings := PortBindings hc; Links := Links hc;
     PublishAllPorts := PublishAllPorts hc; DNS := DNS hc;
     DNSOptions := DNSOptions hc; DNSSearch := DNSSearch hc;
     ExtraHosts := ExtraHosts hc; VolumesFrom := VolumesFrom hc;
     Devices := Devices hc; NetworkMode := n; IpcMode := IpcMode hc;
     PidMode := PidMode hc; UTSMode := UTSMode hc; CapAdd := CapAdd hc;
     CapDrop := CapDrop hc; GroupAdd := GroupAdd hc;
     RestartPolicy_ := RestartPolicy_ hc; SecurityOpt := SecurityOpt hc;
     ReadonlyRootfs := ReadonlyRootfs hc; Ulimits := Ulimits hc;
     LogConfig_ := LogConfig_ hc; CgroupParent := CgroupParent hc;
     ConsoleSize := ConsoleSize hc; VolumeDriver := VolumeDriver hc;
     Isolation := Isolation hc |}.

(** [hc] is a pointer: nil is [None]. *)
Definition SetDefaultNetModeIfBlank (hc : option HostConfig)
  : option HostConfig :=
  match hc with
  | Some hc' =>
      if String.eqb (NetworkMode hc') "" then Some (set_NetworkMode "default" hc')
      else Some hc'
  | None => None
  end.

End runconfig.

(** * The vocabulary of the statements *)

(** ** For the runtime client *)

Section ClientVocabulary.

Import windowsoci libcontainerd.

(** A string that [strconv.Atoi] reads as a number from 0 to 65535. *)
Definition port_in_range (s : string) : Prop :=
  exists n, strconv.Atoi s = inl n /\ 0 <= n <= 65535.

(** A string that [strconv.Atoi] reads as a number below 0 or above 65535. *)
Definition port_outside (s : string) : Prop :=
  exists n, strconv.Atoi s = inl n /\ (n < 0 \/ 65535 < n).

(** The protocol of container port [i] is TCP or UDP, in any letter case. *)
Definition known_protocol (i : string) : Prop :=
  strings.ToUpper (nat_port.Proto i) = "TCP" \/
  strings.ToUpper (nat_port.Proto i) = "UDP".

(** What the inner loop demands of a host binding of container port [i]. *)
Definition binding_ok (i : string) (v2 : PortBinding) : Prop :=
  HostIP v2 = "" /\ port_in_range (HostPort v2) /\
  port_in_range (nat_port.Port i).

(** What the outer loop demands of a map entry. *)
Definition entry_ok (iv : string * list PortBinding) : Prop :=
  known_protocol iv.1 /\ (List.length iv.2 <= 1)%nat /\
  Forall (binding_ok iv.1) iv.2.

(** The networking section of [spec] maps container port [i] to the host
    bindings [v]. *)
Definition maps_port (spec : Spec) (i : string) (v : list PortBinding) : Prop :=
  exists n, Networking_ (Windows_ spec) = Some n /\ In (i, v) (PortBindings n).

(** [Create] returns an error for [spec] and has called nothing by then,
    whatever the runtime would have answered. *)
Definition rejected (spec : Spec) : Prop :=
  forall fsplit fdir guid h id,
    exists e, Create fsplit fdir guid h id spec = ([], Some e).

Definition is_create_call (ev : event) : bool :=
  match ev with CallCreateComputeSystem _ _ => true | _ => false end.

Definition is_sleep (ev : event) : bool :=
  match ev with Sleep _ => true | _ => false end.

Definition is_delete_call (ev : event) : bool :=
  match ev with CallDeleteContainer _ => true | _ => false end.

(** The calls of [Signal] into the HCS shim. *)
Definition is_hcs_call (ev : event) : bool :=
  match ev with
  | CallTerminateComputeSystem _ _ _
  | CallTerminateProcessInComputeSystem _ _
  | CallShutdownComputeSystem _ _ _ => true
  | _ => false
  end.

(** The calls into the HCS shim that a trace holds, in order. *)
Definition hcs_calls (tr : list event) : list event :=
  List.filter is_hcs_call tr.

(** *** Inputs *)

(** A specification with no layers, no mounts and the networking section
    [n]. *)
Definition spec_with (n : option Networking) : Spec :=
  {| Root_ := {| Path := "C:\\root" |};
     Windows_ := {| FirstStart := false; LayerFolder := "C:\\layers\\top";
                    LayerPaths := []; Resources_ := None; HvRuntime_ := None;
                    Networking_ := n |};
     Hostname := "host";
     Mounts := [];
     Process_ := {| Terminal := false; Args := ["cmd"]; Env := [];
                    Cwd := "C:\\" |} |}.

Definition nat_with (m : PortMap) : option Networking :=
  Some {| Bridge := "nat"; MacAddress := ""; PortBindings := m |}.

Definition binding (ip port : string) : PortBinding :=
  {| HostIP := ip; HostPort := port |}.

(** The payload [Create] builds for [spec_with None] and the id "c1". *)
Definition cu1 : containerInit :=
  {| SystemType := "Container"; Name := "c1"; Owner := "docker";
     IsDummy := false; VolumePath := "C:\\root"; Devices := [];
     IgnoreFlushesDuringBoot := false; LayerFolderPath := "C:\\layers\\top";
     Layers := []; ProcessorWeight := 0; HostName := "host";
     MappedDirectories := []; SandboxPath := ""; HvPartition := false |}.

(** The container [newContainer] builds for it. *)
Definition new_c1 : container := newContainer "c1" (Process_ (spec_with None)).

(** A runtime on TP4 whose every creation attempt fails with [e]. *)
Definition tp4_always (e : error) (r : option error) : hcs :=
  {| IsTP4 := true; CreateComputeSystem := fun _ => Some e; start := r |}.

(** A runtime on TP4 whose first attempt fails with [e1] and whose later
    ones fail with [e2]. *)
Definition tp4_first_then (e1 e2 : error) (r : option error) : hcs :=
  {| IsTP4 := true;
     CreateComputeSystem :=
       fun n => match n with O => Some e1 | S _ => Some e2 end;
     start := r |}.

(** A runtime that creates at once and whose [container.start] answers [r]. *)
Definition creates_then (tp4 : bool) (r : option error) : hcs :=
  {| IsTP4 := tp4; CreateComputeSystem := fun _ => None; start := r |}.

(** Names are taken for their own GUID text. *)
Definition no_guid (s : string) : string + error := inl s.

(** [Create] with the path functions and the GUID lookup left trivial. *)
Definition Create0 : hcs -> string -> Spec -> list event * option error :=
  Create (fun s => s) (fun s => s) no_guid.

(** One failed creation attempt on the retried path, as the trace shows it. *)
Definition attempt (id : string) (cu : containerInit) (i : Z) : list event :=
  [CallCreateComputeSystem id cu; WarnTP4RetryHack i 4; Sleep 50].

(** A shim whose every call fails with access denied. *)
Definition all_calls_fail : hcs_signal :=
  {| TerminateComputeSystem := Some (HcsError 5);
     TerminateProcessInComputeSystem := Some (HcsError 5);
     ShutdownComputeSystem := Some (HcsError 5) |}.

Definition cont_c1 : container :=
  {| container_id := "c1"; friendlyName := "init";
     ociProcess := Process_ (spec_with None);
     processes := ∅; systemPid := 42 |}.

(** A client whose table holds "c1" and nothing else. *)
Definition client_c1 : client := {| containers := {["c1" := cont_c1]} |}.

End ClientVocabulary.

(** ** For the daemon *)

Section DaemonVocabulary.

Import daemon.

(** [e.State == libcontainerd.StateStart] *)
Definition is_start (e : StateInfo) : bool :=
  match state e with StateStart => true | _ => false end.

(** What [StateChanged] leaves in the container after a Start or Restore
    event, before the persist is tried. *)
Definition started (e : StateInfo) (c : Container) : Container :=
  set_HasBeenManuallyStopped false (SetRunning (si_Pid e) (is_start e) c).

Definition is_restart (we : answers * StateInfo) : Prop :=
  state we.2 = StateRestart.

(** The container as a Restart event finds it after [Reset] and the
    increment, which is how [SetRestarting] receives it. *)
Definition counted (c : Container) : Container :=
  set_RestartCount (GoInt.incr (RestartCount (Reset c))) (Reset c).

(** The container as a Restart event leaves it. *)
Definition restarted (e : StateInfo) (c : Container) : Container :=
  SetRestarting (platformConstructExitStatus e) (counted c).

Definition is_stdin_copy (t : task) : bool :=
  match t with CopyStdin _ => true | CopyOut _ _ => false end.

(** The output copies among the tasks [ts]. *)
Definition output_copies (ts : list task) : Z :=
  Z.of_nat (List.length (List.filter (fun t => negb (is_stdin_copy t)) ts)).

(** The pending-copy counter behind [o], 0 when [o] points nowhere. *)
Definition pending_of (d : Daemon) (o : owner) : Z :=
  match stream_of d o with
  | Some s => pending s
  | None => 0
  end.

Definition Z_of_bool (b : bool) : Z := if b then 1 else 0.

(** Whose stream configuration [AttachStreams] resolves for [id]: that of
    the container registered under [id], else that of the exec session the
    daemon's exec store holds under [id]. *)
Definition stream_owner (d : Daemon) (id : string) : option owner :=
  match containers d !! id with
  | Some _ => Some (OfContainer id)
  | None =>
      match getExecConfig d id with
      | Some (p, _) => Some (OfExec p)
      | None => None
      end
  end.

(** *** Inputs *)

(** A stopped container "c1" with no stdin source; [tty] is its
    [Config.Tty]. *)
Definition container_c1 (tty : bool) : Container :=
  {| ID := "c1"; Running := false; Restarting := false; Paused := false;
     Pid := 0; ExitCode := 0; FreshStart := false; RestartCount := 0;
     HasBeenManuallyStopped := false; Tty := tty; ExecCommands := ∅;
     StreamConfig_ := {| has_stdin := false; pending := 0 |} |}.

(** The same container with a stdin source. *)
Definition container_c1_stdin : Container :=
  set_StreamConfig {| has_stdin := true; pending := 0 |} (container_c1 false).

(** A daemon that holds the container [c] under "c1" and nothing else. *)
Definition daemon_of (c : Container) : Daemon :=
  {| containers := {["c1" := c]}; execs := ∅; execCommands := ∅; disk := ∅ |}.

Definition all_fine : answers :=
  {| ToDisk := None; CloseStreams := None; StartLogging := None |}.

Definition logging_fails : answers :=
  {| ToDisk := None; CloseStreams := None;
     StartLogging := Some (ErrOther "failed to initialize logging driver") |}.

Definition disk_fails : answers :=
  {| ToDisk := Some (ErrOther "disk full"); CloseStreams := None;
     StartLogging := None |}.

Definition all_pipes : IOPipe :=
  {| Stdin := true; Stdout := true; Stderr := true |}.

Definition stdin_only : IOPipe :=
  {| Stdin := true; Stdout := false; Stderr := false |}.

Definition event_of (s : State) (code pid : Z) (process : string) : StateInfo :=
  {| state := s; si_ExitCode := code; si_Pid := pid; ProcessID := process |}.

(** Three Restart events, the second with a persist that fails. *)
Definition three_restarts : list (answers * StateInfo) :=
  [(all_fine, event_of StateRestart 1 0 "");
   (disk_fails, event_of StateRestart 2 0 "");
   (all_fine, event_of StateRestart 137 0 "")].

End DaemonVocabulary.

(** ** For the helpers and the host configuration *)

Section HelperVocabulary.

(** The byte [a] occurs in [s]. *)
Fixpoint occurs (a : ascii) (s : string) : bool :=
  match s with
  | EmptyString => false
  | String b s' => Ascii.eqb b a || occurs a s'
  end.

(** How often the byte [a] occurs in [s]. *)
Fixpoint count_byte (a : ascii) (s : string) : nat :=
  match s with
  | EmptyString => O
  | String b s' => ((if Ascii.eqb b a then 1 else 0) + count_byte a s')%nat
  end.

(** An environment entry as the daemon writes it. *)
Definition entry (kv : string * string) : string := kv.1 +:+ "=" +:+ kv.2.

(** Neither a name nor a value of [m] holds an equals sign. *)
Definition plain (m : gmap string string) : Prop :=
  forall k v, m !! k = Some v -> occurs "=" k = false /\ occurs "=" v = false.

(** A mapping whose fields are [uint32] values and whose range of container
    ids neither is empty nor runs past the largest [uint32]. *)
Definition well_formed (m : utils_linux.IDMapping) : Prop :=
  0 <= utils_linux.HostID m < 2 ^ 32 /\
  0 <= utils_linux.ContainerID m /\
  0 < utils_linux.Size m /\
  utils_linux.ContainerID m + utils_linux.Size m <= 2 ^ 32.

Definition is_init (p : utils_linux.Process) : bool :=
  String.eqb (utils_linux.Pid p) libcontainerd.initFriendlyName.

(** *** Inputs *)

Definition environment : gmap string string :=
  {["PATH" := "C:\\Windows"; "TEMP" := "C:\\Temp"]}.

(** An escaping that puts every argument in brackets. *)
Definition bracket (s : string) : string := "[" +:+ s +:+ "]".

Definition root_to_1000 : utils_linux.IDMapping :=
  {| utils_linux.HostID := 1000; utils_linux.ContainerID := 0;
     utils_linux.Size := 65536 |}.

Definition high_ids : utils_linux.IDMapping :=
  {| utils_linux.HostID := 200000; utils_linux.ContainerID := 70000;
     utils_linux.Size := 1000 |}.

(** The container ids from [ContainerID] up to [ContainerID + Size - 1]. *)
Definition in_range_of (m : utils_linux.IDMapping) (id : Z) : Prop :=
  utils_linux.ContainerID m <= id < utils_linux.ContainerID m + utils_linux.Size m.

End HelperVocabulary.

(** ** For the timestamps and the host configuration *)

Section ConfigVocabulary.

Import runconfig.

(** The fields that Windows does not support, in the order of their
    declaration, each with whether [hc] has it set; for the three modes,
    whether the mode is not valid. *)
Definition unsupported_on_windows (IpcMode_Valid PidMode_Valid UTSMode_Valid :
  string -> bool) (hc : HostConfig) : list (string * bool) :=
  [("Memory", negb (Memory hc =? 0));
   ("MemoryReservation", negb (MemoryReservation hc =? 0));
   ("MemorySwap", negb (MemorySwap hc =? 0));
   ("KernelMemory", negb (KernelMemory hc =? 0));
   ("CPUPeriod", negb (CPUPeriod hc =? 0));
   ("CpusetCpus", negb (String.eqb (CpusetCpus hc) ""));
   ("CpusetMems", negb (String.eqb (CpusetMems hc) ""));
   ("CPUQuota", negb (CPUQuota hc =? 0));
   ("BlkioWeight", negb (BlkioWeight hc =? 0));
   ("OomKillDisable", OomKillDisable hc);
   ("MemorySwappiness",
     match MemorySwappiness hc with Some v => 0 <? v | None => false end);
   ("Privileged", Privileged hc);
   ("Links", someNonEmpty (Links hc));
   ("PublishAllPorts", PublishAllPorts hc);
   ("DNS", someNonEmpty (DNS hc));
   ("DNSOptions", someNonEmpty (DNSOptions hc));
   ("DNSSearch", someNonEmpty (DNSSearch hc));
   ("ExtraHosts", someNonEmpty (ExtraHosts hc));
   ("Devices", (0 <? List.length (Devices hc))%nat);
   ("IpcMode", negb (IpcMode_Valid (IpcMode hc)));
   ("PidMode", negb (PidMode_Valid (PidMode hc)));
   ("UTSMode", negb (UTSMode_Valid (UTSMode hc)));
   ("CapAdd", is_some (CapAdd hc));
   ("CapDrop", is_some (CapDrop hc));
   ("GroupAdd", is_some (GroupAdd hc));
   ("SecurityOpt", someNonEmpty (SecurityOpt hc));
   ("ReadonlyRootfs", ReadonlyRootfs hc);
   ("Ulimits", (0 <? List.length (Ulimits hc))%nat);
   ("CgroupParent", negb (String.eqb (CgroupParent hc) ""))].

(** The first pair of [l] whose flag is set. *)
Fixpoint first_set (l : list (string * bool)) : option string :=
  match l with
  | [] => None
  | (name, b) :: rest => if b then Some name else first_set rest
  end.

(** A host configuration with nothing set. *)
Definition empty_config : HostConfig :=
  {| Binds := []; ContainerIDFile := ""; Memory := 0; MemoryReservation := 0;
     MemorySwap := 0; KernelMemory := 0; CPUShares := 0; CPUPeriod := 0;
     CpusetCpus := ""; CpusetMems := ""; CPUQuota := 0; BlkioWeight := 0;
     OomKillDisable := false; MemorySwappiness := None; Privileged := false;
     PortBindings := []; Links := []; PublishAllPorts := false; DNS := [];
     DNSOptions := []; DNSSearch := []; ExtraHosts := []; VolumesFrom := [];
     Devices := []; NetworkMode := ""; IpcMode := ""; PidMode := "";
     UTSMode := ""; CapAdd := None; CapDrop := None; GroupAdd := None;
     RestartPolicy_ := {| Name := ""; MaximumRetryCount := 0 |};
     SecurityOpt := []; ReadonlyRootfs := false; Ulimits := [];
     LogConfig_ := {| Type_ := ""; Config := ∅ |}; CgroupParent := "";
     ConsoleSize := (0, 0); VolumeDriver := ""; Isolation := "" |}.

(** Every mode is valid. *)
Definition any_mode (n : string) : bool := true.

(** [hc1] has every field of [hc] but, possibly, the network mode. *)
Definition same_but_NetworkMode (hc hc1 : HostConfig) : Prop :=
  Binds hc1 = Binds hc /\
  ContainerIDFile hc1 = ContainerIDFile hc /\
  Memory hc1 = Memory hc /\
  MemoryReservation hc1 = MemoryReservation hc /\
  MemorySwap hc1 = MemorySwap hc /\
  KernelMemory hc1 = KernelMemory hc /\
  CPUShares hc1 = CPUShares hc /\
  CPUPeriod hc1 = CPUPeriod hc /\
  CpusetCpus hc1 = CpusetCpus hc /\
  CpusetMems hc1 = CpusetMems hc /\
  CPUQuota hc1 = CPUQuota hc /\
  BlkioWeight hc1 = BlkioWeight hc /\
  OomKillDisable hc1 = OomKillDisable hc /\
  MemorySwappiness hc1 = MemorySwappiness hc /\
  Privileged hc1 = Privileged hc /\
  PortBindings hc1 = PortBindings hc /\
  Links hc1 = Links hc /\
  PublishAllPorts hc1 = PublishAllPorts hc /\
  DNS hc1 = DNS hc /\
  DNSOptions hc1 = DNSOptions hc /\
  DNSSearch hc1 = DNSSearch hc /\
  ExtraHosts hc1 = ExtraHosts hc /\
  VolumesFrom hc1 = VolumesFrom hc /\
  Devices hc1 = Devices hc /\
  IpcMode hc1 = IpcMode hc /\
  PidMode hc1 = PidMode hc /\
  UTSMode hc1 = UTSMode hc /\
  CapAdd hc1 = CapAdd hc /\
  CapDrop hc1 = CapDrop hc /\
  GroupAdd hc1 = GroupAdd hc /\
  RestartPolicy_ hc1 = RestartPolicy_ hc /\
  SecurityOpt hc1 = SecurityOpt hc /\
  ReadonlyRootfs hc1 = ReadonlyRootfs hc /\
  Ulimits hc1 = Ulimits hc /\
  LogConfig_ hc1 = LogConfig_ hc /\
  CgroupParent hc1 = CgroupParent hc /\
  ConsoleSize hc1 = ConsoleSize hc /\
  VolumeDriver hc1 = VolumeDriver hc /\
  Isolation hc1 = Isolation hc.

Section Tables.

Variable IpcMode_Valid PidMode_Valid UTSMode_Valid : string -> bool.

(** What each field gives off Windows. *)
Definition off_windows (hc : HostConfig)
  : list (string * option field_error) :=
  [("Binds", None); ("ContainerIDFile", None); ("Memory", None);
   ("MemoryReservation", None); ("MemorySwap", None); ("KernelMemory", None);
   ("CPUShares", None); ("CPUPeriod", None); ("CpusetCpus", None);
   ("CpusetMems", None); ("CPUQuota", None); ("BlkioWeight", None);
   ("OomKillDisable", None); ("MemorySwappiness", None); ("Privileged", None);
   ("PortBindings", None); ("Links", None); ("PublishAllPorts", None);
   ("DNS", None); ("DNSOptions", None); ("DNSSearch", None);
   ("ExtraHosts", None); ("VolumesFrom", None); ("Devices", None);
   ("NetworkMode", None);
   ("IpcMode",
     if negb (IpcMode_Valid (IpcMode hc)) then Some ErrInvalidIPCMode else None);
   ("PidMode",
     if negb (PidMode_Valid (PidMode hc)) then Some ErrInvalidPIDMode else None);
   ("UTSMode",
     if negb (UTSMode_Valid (UTSMode hc)) then Some ErrInvalidUTSMode else None);
   ("CapAdd", None); ("CapDrop", None); ("GroupAdd", None);
   ("RestartPolicy", None); ("SecurityOpt", None); ("ReadonlyRootfs", None);
   ("Ulimits", None); ("LogConfig", None); ("CgroupParent", None);
   ("ConsoleSize", None); ("VolumeDriver", None);
   ("Isolation",
     if negb (IsolationLevel_IsDefault (Isolation hc))
     then Some (ErrPopulated "Isolation") else None)].

(** What each field gives on Windows. *)
Definition on_windows (hc : HostConfig) : list (string * bool) :=
  [("Binds", false); ("ContainerIDFile", false);
   ("Memory", negb (Memory hc =? 0));
   ("MemoryReservation", negb (MemoryReservation hc =? 0));
   ("MemorySwap", negb (MemorySwap hc =? 0));
   ("KernelMemory", negb (KernelMemory hc =? 0));
   ("CPUShares", false);
   ("CPUPeriod", negb (CPUPeriod hc =? 0));
   ("CpusetCpus", negb (String.eqb (CpusetCpus hc) ""));
   ("CpusetMems", negb (String.eqb (CpusetMems hc) ""));
   ("CPUQuota", negb (CPUQuota hc =? 0));
   ("BlkioWeight", negb (BlkioWeight hc =? 0));
   ("OomKillDisable", OomKillDisable hc);
   ("MemorySwappiness",
     match MemorySwappiness hc with Some v => 0 <? v | None => false end);
   ("Privileged", Privileged hc);
   ("PortBindings", false);
   ("Links", someNonEmpty (Links hc));
   ("PublishAllPorts", PublishAllPorts hc);
   ("DNS", someNonEmpty (DNS hc));
   ("DNSOptions", someNonEmpty (DNSOptions hc));
   ("DNSSearch", someNonEmpty (DNSSearch hc));
   ("ExtraHosts", someNonEmpty (ExtraHosts hc));
   ("VolumesFrom", false);
   ("Devices", (0 <? List.length (Devices hc))%nat);
   ("NetworkMode", false);
   ("IpcMode", negb (IpcMode_Valid (IpcMode hc)));
   ("PidMode", negb (PidMode_Valid (PidMode hc)));
   ("UTSMode", negb (UTSMode_Valid (UTSMode hc)));
   ("CapAdd", is_some (CapAdd hc));
   ("CapDrop", is_some (CapDrop hc));
   ("GroupAdd", is_some (GroupAdd hc));
   ("RestartPolicy", false);
   ("SecurityOpt", someNonEmpty (SecurityOpt hc));
   ("ReadonlyRootfs", ReadonlyRootfs hc);
   ("Ulimits", (0 <? List.length (Ulimits hc))%nat);
   ("LogConfig", false);
   ("CgroupParent", negb (String.eqb (CgroupParent hc) ""));
   ("ConsoleSize", false); ("VolumeDriver", false); ("Isolation", false)].

End Tables.

End ConfigVocabulary.

(** ** For the lock and the exec sessions *)

Section LockVocabulary.

Import daemon.

(** The events under which [StateChanged] takes the container's lock. *)
Definition takes_lock (s : State) : bool :=
  match s with
  | StateExit | StateRestart | StateExitProcess => true
  | _ => false
  end.

Definition is_lock_event (ev : event) : bool :=
  match ev with Lock _ | Unlock _ => true | _ => false end.

Definition is_ToDisk_call (ev : event) : bool :=
  match ev with CallToDisk _ => true | _ => false end.

(** The exec configuration as [StateChanged] leaves it at its exit. *)
Definition exited (code : Z) (ec : ExecConfig) : ExecConfig :=
  {| ec_ID := ec_ID ec; ec_ExitCode := Some code; ec_Running := false;
     ec_StreamConfig := ec_StreamConfig ec |}.

(** The exec configuration with the pending-copy counter of its stream
    configuration moved up by [n], and nothing else changed. *)
Definition pending_up (n : Z) (ec : ExecConfig) : ExecConfig :=
  {| ec_ID := ec_ID ec; ec_ExitCode := ec_ExitCode ec;
     ec_Running := ec_Running ec;
     ec_StreamConfig :=
       {| has_stdin := has_stdin (ec_StreamConfig ec);
          pending := pending (ec_StreamConfig ec) + n |} |}.

(** *** Inputs *)

Definition exec_e1 : ExecConfig :=
  {| ec_ID := "e1"; ec_ExitCode := None; ec_Running := true;
     ec_StreamConfig := {| has_stdin := false; pending := 0 |} |}.

(** "c1" running the exec session "e1", which the daemon's store holds as
    well, at address 1. *)
Definition daemon_with_exec : Daemon :=
  {| containers :=
       {["c1" := set_ExecCommands {["e1" := 1%positive]} (container_c1 false)]};
     execs := {[1%positive := exec_e1]};
     execCommands := {["e1" := 1%positive]};
     disk := ∅ |}.

End LockVocabulary.

(** ** For the payload and the traces of the client *)

Section PayloadVocabulary.

Import windowsoci libcontainerd.

(** A port binding of the payload that the runtime can take. *)
Definition valid_binding (pb : portBinding) : Prop :=
  (Protocol pb = "TCP" \/ Protocol pb = "UDP") /\
  0 <= InternalPort pb <= 65535 /\ 0 <= ExternalPort pb <= 65535.

(** The port bindings of all network devices of a payload. *)
Definition payload_bindings (cu : containerInit) : list portBinding :=
  List.concat (List.map (fun dev => nat_PortBindings (Nat (Connection dev)))
                 (Devices cu)).

(** The host bindings of all container ports of a map. *)
Definition host_bindings (m : PortMap) : list PortBinding :=
  List.concat (List.map snd m).

Definition is_client_lock_event (ev : event) : bool :=
  match ev with CallLock _ | CallUnlock _ => true | _ => false end.

Definition is_start_call (ev : event) : bool :=
  match ev with CallStart _ => true | _ => false end.

(** A failed attempt with a retried code, or none at all. *)
Definition retried (o : option error) : Prop :=
  exists Err, o = Some (HcsError Err) /\ retriedCode Err = true.

(** *** Inputs *)

(** A runtime on TP4 whose first two attempts fail with ERROR_NOT_FOUND and
    whose third succeeds. *)
Definition tp4_third_time : hcs :=
  {| IsTP4 := true;
     CreateComputeSystem :=
       fun n => match n with
                | O | S O => Some (HcsError ERROR_NOT_FOUND)
                | _ => None
                end;
     start := None |}.

(** A GUID lookup that knows every name but "broken". *)
Definition guid_but_broken (s : string) : string + error :=
  if String.eqb s "broken" then inr (ErrOther "not a layer") else inl s.

Definition spec_with_layers (paths : list string) : Spec :=
  {| Root_ := {| Path := "C:\\root" |};
     Windows_ := {| FirstStart := false; LayerFolder := "C:\\layers\\top";
                    LayerPaths := paths; Resources_ := None;
                    HvRuntime_ := None; Networking_ := None |};
     Hostname := "host";
     Mounts := [];
     Process_ := {| Terminal := false; Args := ["cmd"]; Env := [];
                    Cwd := "C:\\" |} |}.

End PayloadVocabulary.

(** * Properties *)

(** ** Integers and strings *)

Lemma wrap_in_range z : GoInt.in_range z -> GoInt.wrap z = z.
Proof.
  unfold GoInt.in_range, GoInt.min_int, GoInt.max_int, GoInt.wrap.
  intros Hz. rewrite Z.mod_small; lia.
Qed.

Lemma incr_below_max x :
  GoInt.min_int <= x < GoInt.max_int -> GoInt.incr x = x + 1.
Proof.
  intros Hx. unfold GoInt.incr. apply wrap_in_range.
  unfold GoInt.in_range, GoInt.min_int, GoInt.max_int in *. lia.
Qed.

Lemma incr_at_max : GoInt.incr GoInt.max_int = GoInt.min_int.
Proof. reflexivity. Qed.

Example Atoi_8080 : strconv.Atoi "8080" = inl 8080.
Proof. reflexivity. Qed.

Example Atoi_signed :
  strconv.Atoi "-1" = inl (-1) /\ strconv.Atoi "+80" = inl 80.
Proof. split; reflexivity. Qed.

Example Atoi_bad :
  strconv.Atoi "" = inr ErrSyntax /\ strconv.Atoi "8x" = inr ErrSyntax /\
  strconv.Atoi "9223372036854775808" = inr ErrRange /\
  strconv.Atoi "-9223372036854775808" = inl GoInt.min_int.
Proof. repeat split; reflexivity. Qed.

Example port_80_tcp :
  nat_port.Proto "80/tcp" = "tcp" /\ nat_port.Port "80/tcp" = "80".
Proof. split; reflexivity. Qed.

Example ToUpper_tcp : strings.ToUpper "tCp" = "TCP".
Proof. reflexivity. Qed.

Lemma length_0_empty (s : string) :
  (String.length s =? 0)%nat = true <-> s = "".
Proof.
  destruct s; simpl; split; intros H; try reflexivity; discriminate.
Qed.

Lemma port_outside_not_in_range s : port_outside s -> ~ port_in_range s.
Proof.
  intros (n & Hn & Hout) (n' & Hn' & Hin).
  rewrite Hn in Hn'. injection Hn' as <-. lia.
Qed.

(** ** [Create]: port bindings *)

Section PortBindings.

Import windowsoci libcontainerd.

Lemma hostBindingsLoop_accepts i proto v : forall pbs pbs',
  hostBindingsLoop i proto v pbs = inl pbs' -> Forall (binding_ok i) v.
Proof.
  induction v as [|v2 rest IH]; intros pbs pbs' Hrun; [constructor|].
  simpl in Hrun.
  destruct (String.length (HostIP v2) =? 0)%nat eqn:Hip; simpl in Hrun;
    [|discriminate].
  destruct (strconv.Atoi (HostPort v2)) as [ePort|] eqn:He; [|discriminate].
  destruct (strconv.Atoi (nat_port.Port i)) as [iPort|] eqn:Hi; [|discriminate].
  destruct ((iPort <? 0) || (65535 <? iPort) || (ePort <? 0) || (65535 <? ePort))
    eqn:Hrange; [discriminate|].
  apply orb_false_elim in Hrange as [Hrange He2].
  apply orb_false_elim in Hrange as [Hrange He1].
  apply orb_false_elim in Hrange as [Hi1 Hi2].
  constructor; [|eapply IH; eassumption].
  split; [|split].
  - by apply length_0_empty.
  - exists ePort. split; [done | lia].
  - exists iPort. split; [done | lia].
Qed.

Lemma portBindingsLoop_accepts m : forall pbs pbs',
  portBindingsLoop m pbs = inl pbs' -> Forall entry_ok m.
Proof.
  induction m as [|[i v] rest IH]; intros pbs pbs' Hrun; [constructor|].
  simpl in Hrun.
  destruct (negb (String.eqb (strings.ToUpper (nat_port.Proto i)) "TCP") &&
            negb (String.eqb (strings.ToUpper (nat_port.Proto i)) "UDP"))
    eqn:Hproto; [discriminate|].
  destruct (1 <? List.length v)%nat eqn:Hlen; [discriminate|].
  destruct (hostBindingsLoop i (strings.ToUpper (nat_port.Proto i)) v pbs)
    as [pbs1|] eqn:Hinner; [|discriminate].
  constructor; [|eapply IH; eassumption].
  split; [|split]; simpl.
  - apply andb_false_iff in Hproto as [H|H]; apply negb_false_iff in H;
      apply String.eqb_eq in H; [by left | by right].
  - apply Nat.ltb_ge in Hlen. exact Hlen.
  - eapply hostBindingsLoop_accepts; eassumption.
Qed.

(** A map with an entry the loops refuse makes [Create] return an error
    before it calls the runtime. *)
Lemma Create_rejects fsplit fdir guid h id spec n iv :
  Networking_ (Windows_ spec) = Some n ->
  In iv (PortBindings n) ->
  ~ entry_ok iv ->
  exists e, Create fsplit fdir guid h id spec = ([], Some e).
Proof.
  intros Hn Hin Hbad. unfold Create, buildConfiguration.
  destruct (layersLoop fsplit guid _ []) as [layers|e]; [|by eexists].
  rewrite Hn. unfold networkDevice.
  destruct (portBindingsLoop (PortBindings n) []) as [pbs|e] eqn:Hloop;
    [|by eexists].
  exfalso. apply Hbad.
  apply portBindingsLoop_accepts in Hloop.
  rewrite Forall_forall in Hloop. apply Hloop.
  by apply list_elem_of_In.
Qed.

Lemma rejected_of_bad_entry spec i v :
  maps_port spec i v -> ~ entry_ok (i, v) -> rejected spec.
Proof.
  intros (n & Hn & Hin) Hbad fsplit fdir guid h id.
  eapply Create_rejects; eassumption.
Qed.

Lemma binding_8080_to_80_tcp :
  portBindingsLoop [("80/tcp", [{| HostIP := ""; HostPort := "8080" |}])] [] =
  inl [{| Protocol := "TCP"; InternalPort := 80; ExternalPort := 8080 |}].
Proof. vm_compute. reflexivity. Qed.

Lemma retryLoop_first_call h id cu n i err :
  exists tr x,
    retryLoop h id cu (S n) i err = (CallCreateComputeSystem id cu :: tr, x).
Proof.
  simpl. destruct (CreateComputeSystem h i) as [e|]; [|by eexists _, _].
  destruct (retryLoop h id cu n (S i) (Some e)) as [tr x] eqn:Hrest.
  destruct e as [Err| | | | | | | | | | |]; try destruct (retriedCode Err);
    rewrite ?Hrest; by eexists _, _.
Qed.

(** Once the payload is built, the first thing [Create] does is to hand it
    to [CreateComputeSystem]. *)
Lemma Create_first_call fsplit fdir guid h id spec cu :
  buildConfiguration fsplit fdir guid id spec = inl cu ->
  exists tr,
    (Create fsplit fdir guid h id spec).1 = CallCreateComputeSystem id cu :: tr.
Proof.
  intros Hcu. unfold Create. rewrite Hcu.
  destruct (IsTP4 h); cbn [negb].
  - destruct (retryLoop_first_call h id cu 4 0 None) as (tr & x & Hrun).
    change maxAttempts with 5%nat. rewrite Hrun.
    destruct x as [e|e]; [by eexists|].
    destruct (startContainer h id spec e) as [tr' r]. by eexists.
  - destruct (CreateComputeSystem h 0); [by eexists|].
    destruct (startContainer h id spec None) as [tr' r]. by eexists.
Qed.

(** C8: port-binding validation in [Create].  A container port whose
    protocol is neither TCP nor UDP (in any letter case) is rejected; so is
    a container port with more than one host binding, a binding with a
    non-empty host IP, and a binding whose container port or host port is a
    number outside 0..65535.  The single binding of host port "8080" to
    container port "80/tcp" becomes the payload entry
    {Protocol: "TCP", InternalPort: 80, ExternalPort: 8080}, which is what
    [Create] hands to [CreateComputeSystem]. *)
Theorem C8_port_binding_validation :
  (forall spec i v,
      maps_port spec i v -> ~ known_protocol i -> rejected spec) /\
  (forall spec i v,
      maps_port spec i v -> (1 < List.length v)%nat -> rejected spec) /\
  (forall spec i v v2,
      maps_port spec i v -> In v2 v -> HostIP v2 <> "" -> rejected spec) /\
  (forall spec i v v2,
      maps_port spec i v -> In v2 v ->
      port_outside (nat_port.Port i) \/ port_outside (HostPort v2) ->
      rejected spec) /\
  (forall fsplit fdir guid h id spec n layers,
      Networking_ (Windows_ spec) = Some n ->
      PortBindings n = [("80/tcp", [{| HostIP := ""; HostPort := "8080" |}])] ->
      layersLoop fsplit guid (LayerPaths (Windows_ spec)) [] = inl layers ->
      exists cu dev tr,
        buildConfiguration fsplit fdir guid id spec = inl cu /\
        Devices cu = [dev] /\
        nat_PortBindings (Nat (Connection dev)) =
          [{| Protocol := "TCP"; InternalPort := 80; ExternalPort := 8080 |}] /\
        (Create fsplit fdir guid h id spec).1 =
          CallCreateComputeSystem id cu :: tr).
Proof.
  split; [|split; [|split; [|split]]].
  - intros spec i v Hmap Hproto. eapply rejected_of_bad_entry; [exact Hmap|].
    intros (Hok & _). exact (Hproto Hok).
  - intros spec i v Hmap Hlen. eapply rejected_of_bad_entry; [exact Hmap|].
    intros (_ & Hle & _). simpl in Hle. lia.
  - intros spec i v v2 Hmap Hin Hip.
    eapply rejected_of_bad_entry; [exact Hmap|].
    intros (_ & _ & Hall). simpl in Hall. rewrite Forall_forall in Hall.
    apply list_elem_of_In in Hin. destruct (Hall _ Hin) as (Hempty & _).
    exact (Hip Hempty).
  - intros spec i v v2 Hmap Hin Hout.
    eapply rejected_of_bad_entry; [exact Hmap|].
    intros (_ & _ & Hall). simpl in Hall. rewrite Forall_forall in Hall.
    apply list_elem_of_In in Hin. destruct (Hall _ Hin) as (_ & He & Hi).
    destruct Hout as [Hout|Hout];
      apply port_outside_not_in_range in Hout; tauto.
  - intros fsplit fdir guid h id spec n layers Hn Hpb Hlayers.
    assert (Hcu : exists cu dev,
               buildConfiguration fsplit fdir guid id spec = inl cu /\
               Devices cu = [dev] /\
               nat_PortBindings (Nat (Connection dev)) =
                 [{| Protocol := "TCP"; InternalPort := 80;
                     ExternalPort := 8080 |}]).
    { unfold buildConfiguration, networkDevice.
      rewrite Hlayers, Hn, Hpb, binding_8080_to_80_tcp.
      eexists _, _. split; [reflexivity|]. split; reflexivity. }
    destruct Hcu as (cu & dev & Hcu & Hdev & Hpbs).
    destruct (Create_first_call fsplit fdir guid h id spec cu Hcu) as (tr & Htr).
    by exists cu, dev, tr.
Qed.

(** C8 at five maps: an unknown protocol, two host ports, a host IP, a host
    port above 65535, and the binding of 8080 to "80/tcp". *)
Lemma C8_port_binding_validation_witness :
  rejected (spec_with (nat_with [("53/sctp", [])])) /\
  rejected (spec_with (nat_with
              [("80/tcp", [binding "" "8080"; binding "" "8081"])])) /\
  rejected (spec_with (nat_with [("80/tcp", [binding "10.0.0.1" "8080"])])) /\
  rejected (spec_with (nat_with [("80/tcp", [binding "" "65536"])])) /\
  exists cu dev tr,
    buildConfiguration (fun s => s) (fun s => s) no_guid "c1"
      (spec_with (nat_with [("80/tcp", [binding "" "8080"])])) = inl cu /\
    Devices cu = [dev] /\
    nat_PortBindings (Nat (Connection dev)) =
      [{| Protocol := "TCP"; InternalPort := 80; ExternalPort := 8080 |}] /\
    (Create (fun s => s) (fun s => s) no_guid (creates_then false None) "c1"
       (spec_with (nat_with [("80/tcp", [binding "" "8080"])]))).1 =
      CallCreateComputeSystem "c1" cu :: tr.
Proof.
  destruct C8_port_binding_validation as (Hproto & Hmany & Hip & Hrange & Hok).
  split; [|split; [|split; [|split]]].
  - apply (Hproto _ "53/sctp" []).
    + eexists. split; [reflexivity | left; reflexivity].
    + intros [H|H]; discriminate.
  - apply (Hmany _ "80/tcp" [binding "" "8080"; binding "" "8081"]).
    + eexists. split; [reflexivity | left; reflexivity].
    + simpl. lia.
  - apply (Hip _ "80/tcp" [binding "10.0.0.1" "8080"] (binding "10.0.0.1" "8080")).
    + eexists. split; [reflexivity | left; reflexivity].
    + left. reflexivity.
    + discriminate.
  - apply (Hrange _ "80/tcp" [binding "" "65536"] (binding "" "65536")).
    + eexists. split; [reflexivity | left; reflexivity].
    + left. reflexivity.
    + right. exists 65536. split; [reflexivity | lia].
  - eapply Hok; reflexivity.
Defined.

End PortBindings.

(** ** [Create]: the TP4 retry loop and the deferred delete *)

Section CreateRetry.

Import windowsoci libcontainerd.

Variable fsplit fdir : string -> string.
Variable guid : string -> string + error.

(** While every attempt fails with a retried code the loop runs all its
    rounds, each one a creation call, the warning and the 50ms sleep, and
    is left at the bottom with the last error in [err]. *)
Lemma retryLoop_all_retried h id cu : forall n i err,
  (forall k, (i <= k < i + n)%nat ->
     exists Err, CreateComputeSystem h k = Some (HcsError Err) /\
                 retriedCode Err = true) ->
  exists tr err',
    retryLoop h id cu n i err = (tr, FellOut err') /\
    List.length (List.filter is_create_call tr) = n /\
    List.length (List.filter is_sleep tr) = n /\
    (n <> O -> err' = CreateComputeSystem h (i + n - 1)%nat).
Proof.
  induction n as [|n IH]; intros i err Hall.
  - exists [], err. split; [reflexivity|]. split; [reflexivity|].
    split; [reflexivity | congruence].
  - destruct (Hall i) as (Err & Hcall & Hcode); [lia|].
    destruct (IH (S i) (Some (HcsError Err)))
      as (tr & err' & Hrun & Hlen & Hsleep & Hlast).
    { intros k Hk. apply Hall. lia. }
    simpl. rewrite Hcall, Hcode, Hrun.
    eexists _, _. split; [reflexivity|].
    split; [simpl; by rewrite Hlen|]. split; [simpl; by rewrite Hsleep|].
    intros _. destruct n as [|n].
    + simpl in Hrun. injection Hrun as <- <-.
      rewrite <- Hcall. f_equal. lia.
    + rewrite Hlast by lia. f_equal. lia.
Qed.

(** An attempt that fails with an [HcsError] outside the retried codes ends
    the loop by its [return err], provided the attempts before it were
    retried ones. *)
Lemma retryLoop_aborts h id cu Err : forall n i err j,
  (j < n)%nat ->
  (forall k, (i <= k < i + j)%nat ->
     exists Err', CreateComputeSystem h k = Some (HcsError Err') /\
                  retriedCode Err' = true) ->
  CreateComputeSystem h (i + j) = Some (HcsError Err) ->
  retriedCode Err = false ->
  exists tr,
    retryLoop h id cu n i err = (tr, Returned (HcsError Err)) /\
    List.length (List.filter is_create_call tr) = S j.
Proof.
  induction n as [|n IH]; intros i err j Hj Hbefore Hcall Hcode; [lia|].
  destruct j as [|j].
  - rewrite Nat.add_0_r in Hcall. simpl. rewrite Hcall, Hcode.
    eexists. split; reflexivity.
  - destruct (Hbefore i) as (Err' & Hcall' & Hcode'); [lia|].
    destruct (IH (S i) (Some (HcsError Err')) j) as (tr & Hrun & Hlen);
      [lia | | | exact Hcode |].
    { intros k Hk. apply Hbefore. lia. }
    { rewrite <- Hcall. f_equal. lia. }
    simpl. rewrite Hcall', Hcode', Hrun.
    eexists. split; [reflexivity|]. simpl. by rewrite Hlen.
Qed.

(** On TP4, with a payload that builds and five attempts that all fail with
    retried codes, [Create] makes exactly five creation calls and sleeps
    five times, then goes on to [container.start()] and returns what that
    returns; the deferred function deletes the container. *)
Lemma Create_TP4_exhausted h id spec cu :
  IsTP4 h = true ->
  buildConfiguration fsplit fdir guid id spec = inl cu ->
  (forall k, (k < maxAttempts)%nat ->
     exists Err, CreateComputeSystem h k = Some (HcsError Err) /\
                 retriedCode Err = true) ->
  exists tr,
    Create fsplit fdir guid h id spec =
      (tr ++ [CallStart (newContainer id (Process_ spec));
              CallDeleteContainer id], start h) /\
    List.length (List.filter is_create_call tr) = maxAttempts /\
    List.length (List.filter is_sleep tr) = maxAttempts.
Proof.
  intros Htp4 Hcu Hall.
  destruct (retryLoop_all_retried h id cu maxAttempts 0 None)
    as (tr & err' & Hrun & Hlen & Hsleep & Hlast).
  { intros k Hk. apply Hall. lia. }
  destruct (Hall 4%nat) as (Err & Hcall & _); [unfold maxAttempts; lia|].
  specialize (Hlast ltac:(discriminate)).
  change (0 + maxAttempts - 1)%nat with 4%nat in Hlast.
  rewrite Hcall in Hlast. subst err'.
  exists tr. split; [|split; [exact Hlen | exact Hsleep]].
  unfold Create. rewrite Hcu, Htp4. cbn [negb]. rewrite Hrun. reflexivity.
Qed.

(** On TP4, an attempt that fails with an [HcsError] outside the retried
    codes ends [Create] at once: it returns that error, and the creation
    calls made are that attempt and the retried ones before it. *)
Lemma Create_TP4_aborts h id spec cu Err j :
  IsTP4 h = true ->
  buildConfiguration fsplit fdir guid id spec = inl cu ->
  (j < maxAttempts)%nat ->
  (forall k, (k < j)%nat ->
     exists Err', CreateComputeSystem h k = Some (HcsError Err') /\
                  retriedCode Err' = true) ->
  CreateComputeSystem h j = Some (HcsError Err) ->
  retriedCode Err = false ->
  exists tr,
    Create fsplit fdir guid h id spec = (tr, Some (HcsError Err)) /\
    List.length (List.filter is_create_call tr) = S j.
Proof.
  intros Htp4 Hcu Hj Hbefore Hcall Hcode.
  destruct (retryLoop_aborts h id cu Err maxAttempts 0 None j)
    as (tr & Hrun & Hlen); [exact Hj | | exact Hcall | exact Hcode |].
  { intros k Hk. apply Hbefore. lia. }
  exists tr. split; [|exact Hlen].
  unfold Create. rewrite Hcu, Htp4. cbn [negb]. by rewrite Hrun.
Qed.

(** Off TP4, [Create] never calls [deleteContainer]. *)
Lemma Create_no_delete_off_TP4 h id spec :
  IsTP4 h = false ->
  List.filter is_delete_call (Create fsplit fdir guid h id spec).1 = [].
Proof.
  intros Htp4. unfold Create.
  destruct (buildConfiguration fsplit fdir guid id spec); [|reflexivity].
  rewrite Htp4. cbn [negb]. destruct (CreateComputeSystem h 0); reflexivity.
Qed.

End CreateRetry.

Section CreateAtInputs.

Import windowsoci libcontainerd.

(** The retried path at a first attempt that fails with ERROR_NOT_FOUND and
    a second that fails with access denied: two creation calls, and the
    second error is returned. *)
Lemma Create_TP4_aborts_witness :
  exists tr,
    Create0 (tp4_first_then (HcsError ERROR_NOT_FOUND) (HcsError 5) None)
      "c1" (spec_with None) = (tr, Some (HcsError 5)) /\
    List.length (List.filter is_create_call tr) = 2%nat.
Proof.
  apply (Create_TP4_aborts (fun s => s) (fun s => s) no_guid
           (tp4_first_then (HcsError ERROR_NOT_FOUND) (HcsError 5) None)
           "c1" (spec_with None) cu1 5 1).
  - reflexivity.
  - reflexivity.
  - unfold maxAttempts. lia.
  - intros k Hk. exists ERROR_NOT_FOUND.
    destruct k as [|k]; [split; reflexivity | lia].
  - reflexivity.
  - reflexivity.
Defined.

(** An error that is no [HcsError] is neither returned nor slept on: the
    loop goes straight to the next attempt, and after the fifth [Create]
    goes on as it does after five retried codes. *)
Example Create_TP4_other_error : forall r : option error,
  Create0 (tp4_always (ErrOther "unexpected") r) "c1" (spec_with None) =
  ([CallCreateComputeSystem "c1" cu1; CallCreateComputeSystem "c1" cu1;
    CallCreateComputeSystem "c1" cu1; CallCreateComputeSystem "c1" cu1;
    CallCreateComputeSystem "c1" cu1;
    CallStart new_c1; CallDeleteContainer "c1"], r).
Proof. intros r. vm_compute. reflexivity. Qed.

(** C1: on the TP4 path, with every creation attempt failing with the
    retried code ERROR_NOT_FOUND, [Create] makes five creation calls, each
    followed by the warning and a 50ms sleep, and then does not return the
    last creation error: it goes on to [container.start()] and returns what
    that returns, [r], success included. *)
Theorem C1_exhausted_retries_fall_through : forall r : option error,
  Create0 (tp4_always (HcsError ERROR_NOT_FOUND) r) "c1" (spec_with None) =
  (attempt "c1" cu1 0 ++ attempt "c1" cu1 1 ++ attempt "c1" cu1 2 ++
   attempt "c1" cu1 3 ++ attempt "c1" cu1 4 ++
   [CallStart new_c1; CallDeleteContainer "c1"],
   r).
Proof. intros r. vm_compute. reflexivity. Qed.

(** C2: creation succeeds, on TP4 or off it, and [container.start()] fails
    with [e]: [Create] returns [e] and the trace ends with the call of
    [start]; it holds no call of [deleteContainer]. *)
Theorem C2_failed_start_is_not_compensated : forall (tp4 : bool) (e : error),
  Create0 (creates_then tp4 (Some e)) "c1" (spec_with None) =
  ([CallCreateComputeSystem "c1" cu1; CallStart new_c1], Some e).
Proof. intros [] e; vm_compute; reflexivity. Qed.

End CreateAtInputs.

(** ** [Signal] *)

Section SignalClaim.

Import libcontainerd.

(** C3: [Signal] on an id the client's table does not hold returns the
    not-found error and calls nothing in the runtime.  On an id it holds,
    the force-kill signal makes exactly one terminate-container call and no
    other runtime call; any other signal makes exactly one signal-process
    call and then exactly one shutdown call, whatever the first one
    answered; and in both cases [Signal] returns nil, whatever the runtime
    calls answered. *)
Theorem C3_signal_semantics :
  forall (h : hcs_signal) (c : client) (id : string) (sig : Z),
    (containers c !! id = None ->
       (Signal h c id sig).2 = Some (ErrNotFound id) /\
       hcs_calls (Signal h c id sig).1 = []) /\
    (forall cont, containers c !! id = Some cont ->
       (Signal h c id sig).2 = None /\
       (sig = SIGKILL ->
          hcs_calls (Signal h c id sig).1 =
            [CallTerminateComputeSystem id TimeoutInfinite
               (killContext sig (systemPid cont))]) /\
       (sig <> SIGKILL ->
          hcs_calls (Signal h c id sig).1 =
            [CallTerminateProcessInComputeSystem id (systemPid cont);
             CallShutdownComputeSystem id TimeoutInfinite
               (killContext sig (systemPid cont))])).
Proof.
  intros h c id sig. split.
  - intros Habsent. unfold Signal, getContainer. rewrite Habsent. by split.
  - intros cont Hcont. unfold Signal, getContainer. rewrite Hcont.
    split; [reflexivity|]. split; intros Hsig.
    + apply Z.eqb_eq in Hsig. rewrite Hsig. cbn [fst].
      destruct (TerminateComputeSystem h); reflexivity.
    + apply Z.eqb_neq in Hsig. rewrite Hsig. cbn [fst].
      destruct (TerminateProcessInComputeSystem h),
        (ShutdownComputeSystem h); reflexivity.
Qed.

(** C3 at a table that holds "c1" with pid 42: signal 15, then signal 9,
    with every runtime call failing; and signal 9 for an unknown id. *)
Lemma C3_signal_semantics_witness :
  ((Signal all_calls_fail client_c1 "c1" 15).2 = None /\
   hcs_calls (Signal all_calls_fail client_c1 "c1" 15).1 =
     [CallTerminateProcessInComputeSystem "c1" 42;
      CallShutdownComputeSystem "c1" TimeoutInfinite "kill: sig=15 pid=42"]) /\
  ((Signal all_calls_fail client_c1 "c1" 9).2 = None /\
   hcs_calls (Signal all_calls_fail client_c1 "c1" 9).1 =
     [CallTerminateComputeSystem "c1" TimeoutInfinite "kill: sig=9 pid=42"]) /\
  (Signal all_calls_fail client_c1 "c2" 9).2 = Some (ErrNotFound "c2").
Proof.
  pose proof (C3_signal_semantics all_calls_fail client_c1 "c1" 15) as [_ H15].
  pose proof (C3_signal_semantics all_calls_fail client_c1 "c1" 9) as [_ H9].
  pose proof (C3_signal_semantics all_calls_fail client_c1 "c2" 9) as [Habs _].
  destruct (H15 cont_c1) as (Hr15 & _ & Hc15); [reflexivity|].
  destruct (H9 cont_c1) as (Hr9 & Hc9 & _); [reflexivity|].
  destruct Habs as [Hr _]; [reflexivity|].
  split; [split|split; [split|]].
  - exact Hr15.
  - apply Hc15. discriminate.
  - exact Hr9.
  - apply Hc9. reflexivity.
  - exact Hr.
Defined.

End SignalClaim.

(** ** [StateChanged] *)

Section StateChangedClaims.

Import daemon.

Variable GOOS : string.

Lemma lookup_store id c d : containers (store id c d) !! id = Some c.
Proof. unfold store. simpl. apply lookup_insert_eq. Qed.

Lemma containers_persist w id c d :
  containers (persist w id c d) = containers d.
Proof. unfold persist. by destruct (ToDisk w). Qed.

Lemma disk_persist_ok w id c d :
  ToDisk w = None -> disk (persist w id c d) !! id = Some c.
Proof. intros Hw. unfold persist. rewrite Hw. simpl. apply lookup_insert_eq. Qed.

(** C9: an OOM event for a registered container.  Built for Windows,
    [StateChanged] returns an error and does nothing else; built for any
    other platform it logs the engine-level event "oom" for the container
    and returns nil.  The daemon's state is the same afterwards in both
    cases. *)
Theorem C9_oom_event :
  forall (w : answers) (d : Daemon) (id : string) (e : StateInfo)
         (c : Container),
    containers d !! id = Some c ->
    state e = StateOOM ->
    (GOOS = "windows" ->
       StateChanged GOOS w d id e = (d, [], Some ErrOOMOnWindows)) /\
    (GOOS <> "windows" ->
       StateChanged GOOS w d id e = (d, [LogContainerEvent c "oom" []], None)).
Proof.
  intros w d id e c Hc He. unfold StateChanged. rewrite Hc, He.
  split; intros Hos.
  - apply String.eqb_eq in Hos. by rewrite Hos.
  - apply String.eqb_neq in Hos. by rewrite Hos.
Qed.

(** C6: an ExitProcess event whose process id the container's exec table
    does not hold.  [StateChanged] takes and releases the container's lock,
    logs the warning in between, and returns nil; the daemon's state, with
    every container and every exec configuration in it, is what it was. *)
Theorem C6_stale_exit_process :
  forall (w : answers) (d : Daemon) (id : string) (e : StateInfo)
         (c : Container),
    containers d !! id = Some c ->
    state e = StateExitProcess ->
    ExecCommands c !! ProcessID e = None ->
    StateChanged GOOS w d id e =
      (d, [Lock id; WarnIgnoringExitProcess e; Unlock id], None).
Proof.
  intros w d id e c Hc He Habsent. unfold StateChanged.
  rewrite Hc, He. unfold ExecCommands_Get. by rewrite Habsent.
Qed.

(** The Start and Restore branch, by the answer of [ToDisk]. *)
Lemma StateChanged_start w d id e c :
  containers d !! id = Some c ->
  state e = StateStart \/ state e = StateRestore ->
  StateChanged GOOS w d id e =
    match ToDisk w with
    | Some err =>
        (store id (Reset (started e c)) d,
         [CallSetRunning c (si_Pid e) (is_start e); CallToDisk (started e c);
          CallReset (started e c)],
         Some err)
    | None =>
        (persist w id (started e c) (store id (started e c) d),
         [CallSetRunning c (si_Pid e) (is_start e); CallToDisk (started e c)],
         None)
    end.
Proof.
  intros Hc He. unfold StateChanged, started, is_start. rewrite Hc.
  destruct He as [He|He]; rewrite He; reflexivity.
Qed.

(** C5: a Start or Restore event for a registered container.  The pid of
    the event is recorded and the container marked running, then [ToDisk]
    is called on it.  If the persist succeeds, [StateChanged] returns nil
    with the container running and stored.  If it fails, [Reset] is called
    before the error is returned, and the container is then not running.  So
    the container is running on return only if the persist succeeded. *)
Theorem C5_start_persists_or_rolls_back :
  forall (w : answers) (d : Daemon) (id : string) (e : StateInfo)
         (c : Container),
    containers d !! id = Some c ->
    state e = StateStart \/ state e = StateRestore ->
    let c2 := started e c in
    let r := StateChanged GOOS w d id e in
    Running c2 = true /\ Pid c2 = si_Pid e /\
    (ToDisk w = None ->
       r.2 = None /\
       r.1.2 = [CallSetRunning c (si_Pid e) (is_start e); CallToDisk c2] /\
       containers r.1.1 !! id = Some c2 /\
       disk r.1.1 !! id = Some c2) /\
    (forall err, ToDisk w = Some err ->
       r.2 = Some err /\
       r.1.2 = [CallSetRunning c (si_Pid e) (is_start e); CallToDisk c2;
                CallReset c2] /\
       containers r.1.1 !! id = Some (Reset c2) /\
       Running (Reset c2) = false /\
       disk r.1.1 = disk d) /\
    (forall c', containers r.1.1 !! id = Some c' -> Running c' = true ->
       ToDisk w = None /\ disk r.1.1 !! id = Some c').
Proof.
  intros w d id e c Hc He c2 r.
  pose proof (StateChanged_start w d id e c Hc He) as Hr.
  fold c2 r in Hr. clearbody r. subst r.
  split; [reflexivity|]. split; [reflexivity|].
  destruct (ToDisk w) as [err|] eqn:Hw; cbn [fst snd].
  - split; [discriminate|]. split.
    + intros err' [= <-].
      split; [reflexivity|]. split; [reflexivity|].
      split; [apply lookup_store|]. split; reflexivity.
    + intros c' Hc'. rewrite lookup_store in Hc'. injection Hc' as <-.
      discriminate.
  - split.
    + intros _. split; [reflexivity|]. split; [reflexivity|]. split.
      * rewrite containers_persist. apply lookup_store.
      * by apply disk_persist_ok.
    + split; [discriminate|].
      intros c' Hc' _. split; [reflexivity|].
      rewrite containers_persist, lookup_store in Hc'. injection Hc' as <-.
      by apply disk_persist_ok.
Qed.

(** The Restart branch. *)
Lemma StateChanged_restart w d id e c :
  containers d !! id = Some c ->
  state e = StateRestart ->
  StateChanged GOOS w d id e =
    (persist w id (restarted e c) (store id (restarted e c) d),
     [Lock id; CallReset c;
      CallSetRestarting (counted c) (platformConstructExitStatus e);
      LogContainerEvent (restarted e c) "die" (exitAttributes e);
      CallToDisk (restarted e c); Unlock id],
     ToDisk w).
Proof. intros Hc He. unfold StateChanged. by rewrite Hc, He. Qed.

Lemma RestartCount_restarted e c :
  RestartCount (restarted e c) = GoInt.incr (RestartCount c).
Proof. reflexivity. Qed.

Lemma handle_snoc d id evs w e :
  handle GOOS d id (evs ++ [(w, e)]) =
  (StateChanged GOOS w (handle GOOS d id evs) id e).1.1.
Proof.
  revert d. induction evs as [|[w' e'] evs IH]; intros d; [reflexivity|].
  simpl. apply IH.
Qed.

(** Restart events only: the count in memory goes up by one per event as
    long as it stays within [int]. *)
Lemma handle_restarts evs : forall d id c,
  containers d !! id = Some c ->
  Forall is_restart evs ->
  0 <= RestartCount c ->
  RestartCount c + Z.of_nat (List.length evs) <= GoInt.max_int ->
  exists c',
    containers (handle GOOS d id evs) !! id = Some c' /\
    RestartCount c' = RestartCount c + Z.of_nat (List.length evs).
Proof.
  induction evs as [|[w e] evs IH]; intros d id c Hc Hall Hlo Hhi.
  - exists c. simpl. split; [exact Hc | lia].
  - apply Forall_cons in Hall as [He Hall]. unfold is_restart in He.
    simpl in He. simpl List.length in *.
    assert (Hincr : GoInt.incr (RestartCount c) = RestartCount c + 1).
    { apply incr_below_max. unfold GoInt.min_int, GoInt.max_int in *. lia. }
    simpl. rewrite (StateChanged_restart w d id e c Hc He). cbn [fst].
    destruct (IH (persist w id (restarted e c) (store id (restarted e c) d))
                id (restarted e c)) as (c' & Hc' & Hcount).
    + rewrite containers_persist. apply lookup_store.
    + exact Hall.
    + rewrite RestartCount_restarted, Hincr. lia.
    + rewrite RestartCount_restarted, Hincr. lia.
    + exists c'. split; [exact Hc'|].
      rewrite Hcount, RestartCount_restarted, Hincr. lia.
Qed.

(** At the largest [int] the increment wraps: the Restart event leaves the
    smallest [int] as the count. *)
Lemma restart_count_wraps w d id e c :
  containers d !! id = Some c ->
  state e = StateRestart ->
  RestartCount c = GoInt.max_int ->
  exists c',
    containers (StateChanged GOOS w d id e).1.1 !! id = Some c' /\
    RestartCount c' = GoInt.min_int.
Proof.
  intros Hc He Hmax. rewrite (StateChanged_restart w d id e c Hc He).
  exists (restarted e c). cbn [fst]. split.
  - rewrite containers_persist. apply lookup_store.
  - rewrite RestartCount_restarted, Hmax. apply incr_at_max.
Qed.

(** C4: Restart events for one container whose count starts at 0, no more
    of them than an [int] counts.  When event number [j + 1] is handled
    (index [j] from 0), the count is incremented first: [SetRestarting] is
    called on a container whose count is already [j + 1], and only then is
    [ToDisk] called, on a container that is marked restarting and whose
    count is [j + 1].  That container is what memory holds afterwards, and
    what the disk holds if the persist succeeded. *)
Theorem C4_restart_count_persisted :
  forall (d : Daemon) (id : string) (c : Container)
         (evs : list (answers * StateInfo)) (j : nat)
         (w : answers) (e : StateInfo),
    containers d !! id = Some c ->
    RestartCount c = 0 ->
    Forall is_restart evs ->
    Z.of_nat (List.length evs) <= GoInt.max_int ->
    evs !! j = Some (w, e) ->
    let dj := handle GOOS d id (take j evs) in
    let r := StateChanged GOOS w dj id e in
    exists cj,
      containers dj !! id = Some cj /\
      r.1.2 = [Lock id; CallReset cj;
               CallSetRestarting (counted cj) (platformConstructExitStatus e);
               LogContainerEvent (restarted e cj) "die" (exitAttributes e);
               CallToDisk (restarted e cj); Unlock id] /\
      RestartCount (counted cj) = Z.of_nat j + 1 /\
      RestartCount (restarted e cj) = Z.of_nat j + 1 /\
      Restarting (restarted e cj) = true /\
      handle GOOS d id (take (S j) evs) = r.1.1 /\
      containers r.1.1 !! id = Some (restarted e cj) /\
      r.2 = ToDisk w /\
      (ToDisk w = None -> disk r.1.1 !! id = Some (restarted e cj)).
Proof.
  intros d id c evs j w e Hc H0 Hall Hlen Hj dj r.
  pose proof (lookup_lt_Some _ _ _ Hj) as Hlt.
  assert (He : state e = StateRestart).
  { rewrite Forall_forall in Hall.
    apply (Hall (w, e)). eapply list_elem_of_lookup_2. exact Hj. }
  destruct (handle_restarts (take j evs) d id c) as (cj & Hcj & Hcount).
  - exact Hc.
  - by apply Forall_take.
  - lia.
  - rewrite length_take. unfold GoInt.max_int in *. lia.
  - rewrite length_take, H0 in Hcount.
    replace (j `min` List.length evs)%nat with j in Hcount by lia.
    assert (Hincr : GoInt.incr (RestartCount cj) = Z.of_nat j + 1).
    { rewrite incr_below_max; unfold GoInt.min_int, GoInt.max_int in *; lia. }
    exists cj. subst r.
    rewrite (take_S_r _ _ _ Hj), handle_snoc. fold dj.
    rewrite (StateChanged_restart w dj id e cj Hcj He). cbn [fst snd].
    split; [exact Hcj|]. split; [reflexivity|]. split; [exact Hincr|].
    split; [rewrite RestartCount_restarted; exact Hincr|].
    split; [reflexivity|]. split; [reflexivity|].
    split; [rewrite containers_persist; apply lookup_store|].
    split; [reflexivity|].
    intros Hw. by apply disk_persist_ok.
Qed.

End StateChangedClaims.

(** ** [AttachStreams] *)

Section AttachStreamsClaims.

Import daemon.

Lemma stream_of_Add d o n s :
  stream_of d o = Some s ->
  stream_of (Add o n d) o =
    Some {| has_stdin := has_stdin s; pending := pending s + n |}.
Proof.
  intros Hs. unfold Add. rewrite Hs.
  destruct o as [id|p]; simpl in *.
  - rewrite lookup_alter_eq.
    destruct (containers d !! id) as [c|]; [|discriminate]. reflexivity.
  - rewrite lookup_alter_eq.
    destruct (execs d !! p) as [ec|]; [|discriminate]. reflexivity.
Qed.

Lemma pending_of_Add d o n s :
  stream_of d o = Some s -> pending_of (Add o n d) o = pending_of d o + n.
Proof.
  intros Hs. unfold pending_of. by rewrite (stream_of_Add d o n s Hs), Hs.
Qed.

(** [wire] moves the counter by one for each of the two output pipes that is
    there, and by nothing else. *)
Lemma wire_pending d o s c iop :
  stream_of d o = Some s ->
  is_Some (stream_of (wire d o s c iop).1.1 o) /\
  pending_of (wire d o s c iop).1.1 o =
    pending_of d o + Z_of_bool (Stdout iop) + Z_of_bool (Stderr iop).
Proof.
  intros Hs. unfold wire.
  destruct (if has_stdin s then _ else _) as [ev_in t_in].
  pose proof (stream_of_Add d o 1 s Hs) as Hs1.
  destruct (Stdout iop), (Stderr iop); cbn [fst snd Z_of_bool].
  - split; [by rewrite (stream_of_Add _ o 1 _ Hs1)|].
    rewrite (pending_of_Add _ o 1 _ Hs1), (pending_of_Add _ o 1 _ Hs). lia.
  - split; [by rewrite Hs1|]. rewrite (pending_of_Add _ o 1 _ Hs). lia.
  - split; [by rewrite Hs1|]. rewrite (pending_of_Add _ o 1 _ Hs). lia.
  - split; [by rewrite Hs | lia].
Qed.

Lemma wire_tasks d o s c iop :
  (wire d o s c iop).2 =
    (if has_stdin s && Stdin iop then [CopyStdin o] else []) ++
    (if Stdout iop then [CopyOut o to_stdout] else []) ++
    (if Stderr iop then [CopyOut o to_stderr] else []).
Proof.
  unfold wire.
  destruct (has_stdin s), (Stdin iop), c as [c|]; try destruct (Tty c);
    destruct (Stdout iop), (Stderr iop); reflexivity.
Qed.

Lemma wire_events d o s c iop :
  (wire d o s c iop).1.2 =
    match c with
    | Some c' =>
        if negb (has_stdin s) && negb (Tty c') && Stdin iop
        then [StdinClose] else []
    | None => []
    end.
Proof.
  unfold wire.
  destruct (has_stdin s), (Stdin iop), c as [c|]; try destruct (Tty c);
    destruct (Stdout iop), (Stderr iop); reflexivity.
Qed.

(** The container path past [StartLogging]. *)
Lemma AttachStreams_container w d id iop c :
  containers d !! id = Some c ->
  StartLogging w = None ->
  AttachStreams w d id iop =
    ((wire d (OfContainer id) (StreamConfig_ c) (Some c) iop).1.1,
     CallStartLogging c ::
       (wire d (OfContainer id) (StreamConfig_ c) (Some c) iop).1.2,
     (wire d (OfContainer id) (StreamConfig_ c) (Some c) iop).2,
     None).
Proof.
  intros Hc Hlog. unfold AttachStreams. rewrite Hc, Hlog.
  by destruct (wire d (OfContainer id) (StreamConfig_ c) (Some c) iop)
    as [[d' evs] ts].
Qed.

(** A call of [AttachStreams] that returns nil has got to the wiring, with
    [s] resolved to the stream configuration of a container or of an exec
    session. *)
Lemma AttachStreams_wires w d id iop :
  (AttachStreams w d id iop).2 = None ->
  exists o s c,
    stream_owner d id = Some o /\
    stream_of d o = Some s /\
    (AttachStreams w d id iop).1.1.1 = (wire d o s c iop).1.1 /\
    (AttachStreams w d id iop).1.2 = (wire d o s c iop).2.
Proof.
  unfold AttachStreams, stream_owner.
  destruct (containers d !! id) as [c|] eqn:Hc.
  - destruct (StartLogging w) as [e|] eqn:Hlog; [discriminate|]. intros _.
    exists (OfContainer id), (StreamConfig_ c), (Some c).
    destruct (wire d (OfContainer id) (StreamConfig_ c) (Some c) iop)
      as [[d' evs] ts] eqn:Hwire.
    simpl. rewrite Hc. split; [reflexivity|]. split; [reflexivity|].
    split; reflexivity.
  - destruct (getExecConfig d id) as [[p ec]|] eqn:Hec; [|discriminate].
    intros _. exists (OfExec p), (ec_StreamConfig ec), None.
    destruct (wire d (OfExec p) (ec_StreamConfig ec) None iop)
      as [[d' evs] ts] eqn:Hwire.
    simpl. unfold getExecConfig in Hec.
    destruct (execCommands d !! id) as [p'|]; [|discriminate]. simpl in Hec.
    destruct (execs d !! p') as [ec'|] eqn:Hp'; [|discriminate].
    simpl in Hec. injection Hec as -> ->. rewrite Hp'.
    split; [reflexivity|]. split; [reflexivity|]. split; reflexivity.
Qed.

(** A call of [AttachStreams] that returns an error has got to no wiring:
    it has started nothing and has left every stream configuration, of a
    container or of an exec session, as it was. *)
Lemma AttachStreams_fails w d id iop e :
  (AttachStreams w d id iop).2 = Some e ->
  (AttachStreams w d id iop).1.2 = [] /\
  (forall o, stream_of (AttachStreams w d id iop).1.1.1 o = stream_of d o) /\
  (e = ErrNoSuchExecOrContainer id \/ StartLogging w = Some e).
Proof.
  unfold AttachStreams.
  destruct (containers d !! id) as [c|] eqn:Hc.
  - destruct (StartLogging w) as [e'|] eqn:Hlog.
    + intros [= ->]. cbn [fst snd]. split; [reflexivity|].
      split; [|by right].
      intros [id'|p]; [|reflexivity]. unfold stream_of, store. simpl.
      destruct (decide (id' = id)) as [->|Hne].
      * by rewrite lookup_insert_eq, Hc.
      * by rewrite lookup_insert_ne.
    + destruct (wire d (OfContainer id) (StreamConfig_ c) (Some c) iop)
        as [[d' evs] ts]. discriminate.
  - destruct (getExecConfig d id) as [[p ec]|].
    + destruct (wire d (OfExec p) (ec_StreamConfig ec) None iop)
        as [[d' evs] ts]. discriminate.
    + intros [= <-]. cbn [fst snd]. split; [reflexivity|].
      split; [reflexivity | by left].
Qed.

Lemma finish_out_copy id copy_err o dir d s :
  stream_of d o = Some s ->
  pending_of (finish id copy_err (CopyOut o dir) d).1 o = pending_of d o - 1.
Proof.
  intros Hs. simpl. unfold Done. rewrite (pending_of_Add _ _ _ _ Hs). lia.
Qed.

Lemma output_copies_app ts1 ts2 :
  output_copies (ts1 ++ ts2) = output_copies ts1 + output_copies ts2.
Proof.
  unfold output_copies. rewrite List.filter_app, length_app. lia.
Qed.

Lemma output_copies_cons t ts :
  output_copies (t :: ts) =
    (if is_stdin_copy t then 0 else 1) + output_copies ts.
Proof.
  unfold output_copies. simpl. destruct (is_stdin_copy t); simpl; lia.
Qed.

(** One goroutine of [o] ending: the counter behind [o] goes down with the
    number of output copies still running. *)
Lemma ends_pending id o x y :
  ends id x y ->
  Forall (fun t => task_owner t = o) x.2 ->
  is_Some (stream_of x.1 o) ->
  Forall (fun t => task_owner t = o) y.2 /\
  is_Some (stream_of y.1 o) /\
  pending_of y.1 o - output_copies y.2 = pending_of x.1 o - output_copies x.2.
Proof.
  intros Hstep Hown [s Hs]. destruct Hstep as [d ts1 ts2 t copy_err].
  cbn [fst snd] in *.
  apply Forall_app in Hown as [Hown1 Hown2].
  apply Forall_cons in Hown2 as [Ht Hown2].
  split; [by apply Forall_app|].
  rewrite !output_copies_app, output_copies_cons.
  destruct t as [o'|o' dir]; simpl in Ht; subst o'.
  - simpl. split; [by eexists | lia].
  - split.
    + simpl. unfold Done. rewrite (stream_of_Add _ _ _ _ Hs). by eexists.
    + rewrite (finish_out_copy id copy_err o dir d s Hs). simpl. lia.
Qed.

Lemma goroutines_pending id o x y :
  rtc (ends id) x y ->
  Forall (fun t => task_owner t = o) x.2 ->
  is_Some (stream_of x.1 o) ->
  pending_of y.1 o - output_copies y.2 = pending_of x.1 o - output_copies x.2.
Proof.
  induction 1 as [x|x y z Hstep Hrest IH]; intros Hown Hs; [reflexivity|].
  destruct (ends_pending id o x y Hstep Hown Hs) as (Hown' & Hs' & Heq).
  rewrite IH by assumption. exact Heq.
Qed.

Lemma goroutines_owned id o x y :
  rtc (ends id) x y ->
  Forall (fun t => task_owner t = o) x.2 ->
  is_Some (stream_of x.1 o) ->
  Forall (fun t => task_owner t = o) y.2 /\ is_Some (stream_of y.1 o).
Proof.
  induction 1 as [x|x y z Hstep Hrest IH]; intros Hown Hs; [by split|].
  destruct (ends_pending id o x y Hstep Hown Hs) as (Hown' & Hs' & _).
  by apply IH.
Qed.

(** However the goroutines of a call of [AttachStreams] interleave, the
    pending-copy counter of the stream configuration resolved for the id,
    which is there before the call and at every later point, stays above
    its value before the call by the number of output copies still
    running; the stdin copy is not in that number. *)
Lemma pending_counts_output_copies w d id iop y :
  (AttachStreams w d id iop).2 = None ->
  rtc (ends id)
    ((AttachStreams w d id iop).1.1.1, (AttachStreams w d id iop).1.2) y ->
  exists o,
    stream_owner d id = Some o /\
    is_Some (stream_of d o) /\
    is_Some (stream_of y.1 o) /\
    Forall (fun t => task_owner t = o) y.2 /\
    pending_of y.1 o = pending_of d o + output_copies y.2.
Proof.
  intros Hr Hrun.
  destruct (AttachStreams_wires w d id iop Hr)
    as (o & s & c & Ho & Hs & Hd & Hts).
  rewrite Hd, Hts in Hrun.
  destruct (wire_pending d o s c iop Hs) as [Hsome Hcount].
  exists o. split; [exact Ho|]. split; [by eexists|].
  assert (Hown : Forall (fun t => task_owner t = o) (wire d o s c iop).2).
  { rewrite wire_tasks.
    destruct (has_stdin s && Stdin iop), (Stdout iop), (Stderr iop);
      repeat constructor. }
  destruct (goroutines_owned id o _ y Hrun Hown Hsome) as (Hown' & Hsome').
  split; [exact Hsome'|]. split; [exact Hown'|].
  assert (Hinv : pending_of y.1 o - output_copies y.2 =
                 pending_of (wire d o s c iop).1.1 o -
                 output_copies (wire d o s c iop).2).
  { apply (goroutines_pending id o _ y Hrun); [exact Hown | exact Hsome]. }
  rewrite Hcount, wire_tasks in Hinv.
  destruct (has_stdin s && Stdin iop), (Stdout iop), (Stderr iop);
    rewrite ?output_copies_app, ?output_copies_cons in Hinv;
    change (output_copies []) with 0 in Hinv;
    cbn [is_stdin_copy Z_of_bool] in Hinv; lia.
Qed.

End AttachStreamsClaims.

Section AttachStreamsTheorems.

Import daemon.

(** C7, as the code has it: [AttachStreams] on a container.  If its stream
    configuration has no stdin source and the logging starts, the call
    returns nil and starts no stdin copy; without a pseudo-terminal a stdin
    pipe that the runtime handed over is closed within the call, and with a
    pseudo-terminal, or without a stdin pipe, nothing is closed.  If the
    logging does not start, the call resets the container and returns the
    error of the logging, whatever the pipes, the stdin source and the
    pseudo-terminal: it closes nothing and starts nothing. *)
Theorem C7_stdin_closing_policy :
  forall (w : answers) (d : Daemon) (id : string) (iop : IOPipe)
         (c : Container),
    containers d !! id = Some c ->
    let r := AttachStreams w d id iop in
    (has_stdin (StreamConfig_ c) = false -> StartLogging w = None ->
       r.2 = None /\
       List.filter is_stdin_copy r.1.2 = [] /\
       (Tty c = false -> Stdin iop = true ->
          r.1.1.2 = [CallStartLogging c; StdinClose]) /\
       (Tty c = false -> Stdin iop = false ->
          r.1.1.2 = [CallStartLogging c]) /\
       (Tty c = true -> r.1.1.2 = [CallStartLogging c])) /\
    (forall e, StartLogging w = Some e ->
       r = (store id (Reset c) d, [CallStartLogging c; CallReset c], [],
            Some e) /\
       ~ In StdinClose r.1.1.2 /\ r.1.2 = []).
Proof.
  intros w d id iop c Hc r. subst r. split.
  - intros Hin Hlog.
    rewrite (AttachStreams_container w d id iop c Hc Hlog). cbn [fst snd].
    rewrite wire_tasks, wire_events, Hin. cbn [andb negb app].
    split; [reflexivity|]. split; [|split; [|split]].
    + by destruct (Stdout iop), (Stderr iop).
    + intros Htty Hpipe. by rewrite Htty, Hpipe.
    + intros Htty Hpipe. by rewrite Htty, Hpipe.
    + intros Htty. by rewrite Htty.
  - intros e Hlog. unfold AttachStreams. rewrite Hc, Hlog. cbn [fst snd].
    split; [reflexivity|]. split; [|reflexivity].
    intros [H|[H|[]]]; discriminate.
Qed.

(** C7 at "c1" with all three pipes: closed without a pseudo-terminal, left
    alone with one, and left alone when the logging does not start. *)
Lemma C7_stdin_closing_policy_witness :
  (AttachStreams all_fine (daemon_of (container_c1 false)) "c1" all_pipes).1.1.2 =
    [CallStartLogging (container_c1 false); StdinClose] /\
  (AttachStreams all_fine (daemon_of (container_c1 true)) "c1" all_pipes).1.1.2 =
    [CallStartLogging (container_c1 true)] /\
  (AttachStreams logging_fails (daemon_of (container_c1 false)) "c1" all_pipes).1.1.2 =
    [CallStartLogging (container_c1 false); CallReset (container_c1 false)].
Proof.
  destruct (C7_stdin_closing_policy all_fine (daemon_of (container_c1 false))
              "c1" all_pipes (container_c1 false)) as [Hno_tty _];
    [reflexivity|].
  destruct (C7_stdin_closing_policy all_fine (daemon_of (container_c1 true))
              "c1" all_pipes (container_c1 true)) as [Htty _];
    [reflexivity|].
  destruct (C7_stdin_closing_policy logging_fails
              (daemon_of (container_c1 false)) "c1" all_pipes
              (container_c1 false)) as [_ Hfails];
    [reflexivity|].
  destruct (Hno_tty eq_refl eq_refl) as (_ & _ & Hclosed & _).
  destruct (Htty eq_refl eq_refl) as (_ & _ & _ & _ & Hopen).
  destruct (Hfails _ eq_refl) as (Hr & _).
  split; [exact (Hclosed eq_refl eq_refl)|]. split; [exact (Hopen eq_refl)|].
  exact (f_equal (fun r => r.1.1.2) Hr).
Defined.

(** C7 as stated fails: a container without stdin source and without
    pseudo-terminal, a stdin pipe from the runtime, and a logging sink that
    does not start.  [AttachStreams] returns the logging error after
    [Reset]; the stdin pipe has not been closed and no task is left that
    would close it. *)
Lemma C7_stdin_left_open_when_logging_fails :
  containers (daemon_of (container_c1 false)) !! "c1" =
    Some (container_c1 false) /\
  has_stdin (StreamConfig_ (container_c1 false)) = false /\
  Tty (container_c1 false) = false /\
  Stdin all_pipes = true /\
  (AttachStreams logging_fails (daemon_of (container_c1 false)) "c1" all_pipes).2 =
    Some (ErrOther "failed to initialize logging driver") /\
  (AttachStreams logging_fails (daemon_of (container_c1 false)) "c1" all_pipes).1.1.2 =
    [CallStartLogging (container_c1 false); CallReset (container_c1 false)] /\
  (AttachStreams logging_fails (daemon_of (container_c1 false)) "c1" all_pipes).1.2 = [] /\
  ~ In StdinClose
      (AttachStreams logging_fails (daemon_of (container_c1 false)) "c1" all_pipes).1.1.2.
Proof.
  split; [reflexivity|]. split; [reflexivity|]. split; [reflexivity|].
  split; [reflexivity|]. split; [reflexivity|]. split; [reflexivity|].
  split; [reflexivity|].
  change (~ In StdinClose [CallStartLogging (container_c1 false);
                           CallReset (container_c1 false)]).
  intros [H|[H|[]]]; discriminate.
Qed.

(** C10, as the code has it.  A call of [AttachStreams] that returns nil
    has resolved the stream configuration of the container registered
    under the id, or else of the exec session stored under it, and has
    moved its pending-copy counter up by one for the stdout pipe and by one
    for the stderr pipe, each if it is there.  The tasks it started are the
    stdin copy (with a stdin source and a stdin pipe) and one output copy
    per pipe.  A stdin copy that ends leaves the daemon, counter included,
    as it is; an output copy that ends moves the counter down by one.  With
    only a stdin pipe and a counter at zero, the counter is still zero on
    return while the stdin copy runs.  A call that returns an error has
    started no task and has moved no counter, of any container or exec
    session. *)
Theorem C10_pending_counter :
  forall (w : answers) (d : Daemon) (id : string) (iop : IOPipe),
    let r := AttachStreams w d id iop in
    (r.2 = None ->
     exists o s,
       stream_owner d id = Some o /\
       stream_of d o = Some s /\
       pending_of r.1.1.1 o =
         pending_of d o + Z_of_bool (Stdout iop) + Z_of_bool (Stderr iop) /\
       r.1.2 =
         (if has_stdin s && Stdin iop then [CopyStdin o] else []) ++
         (if Stdout iop then [CopyOut o to_stdout] else []) ++
         (if Stderr iop then [CopyOut o to_stderr] else []) /\
       (forall d1 id1 copy_err,
          (finish id1 copy_err (CopyStdin o) d1).1 = d1) /\
       (forall d1 id1 copy_err dir s1,
          stream_of d1 o = Some s1 ->
          pending_of (finish id1 copy_err (CopyOut o dir) d1).1 o =
            pending_of d1 o - 1) /\
       (has_stdin s = true -> Stdin iop = true ->
        Stdout iop = false -> Stderr iop = false -> pending_of d o = 0 ->
          pending_of r.1.1.1 o = 0 /\ r.1.2 = [CopyStdin o])) /\
    (forall e, r.2 = Some e ->
       r.1.2 = [] /\
       (forall o, pending_of r.1.1.1 o = pending_of d o) /\
       (e = ErrNoSuchExecOrContainer id \/ StartLogging w = Some e)).
Proof.
  intros w d id iop r. subst r. split.
  - intros Hr.
    destruct (AttachStreams_wires w d id iop Hr)
      as (o & s & c & Ho & Hs & Hd & Hts).
    destruct (wire_pending d o s c iop Hs) as [_ Hcount].
    exists o, s. rewrite Hd, Hts, wire_tasks, Hcount.
    split; [exact Ho|]. split; [exact Hs|]. split; [reflexivity|].
    split; [reflexivity|]. split; [reflexivity|]. split.
    + intros d1 id1 copy_err dir s1 Hs1. by eapply finish_out_copy.
    + intros Hin Hpipe Hout Herr Hzero.
      rewrite Hin, Hpipe, Hout, Herr, Hzero. split; reflexivity.
  - intros e He.
    destruct (AttachStreams_fails w d id iop e He) as (Hts & Hsame & Hwhich).
    split; [exact Hts|]. split; [|exact Hwhich].
    intros o. unfold pending_of. by rewrite Hsame.
Qed.

(** C10 at "c1" with all three pipes: the counter of "c1" goes from 0 to 2;
    with a stdin source and only a stdin pipe it stays at 0 while the stdin
    copy runs; and with a logging that does not start it stays at 0 and
    nothing runs. *)
Lemma C10_pending_counter_witness :
  pending_of
    (AttachStreams all_fine (daemon_of (container_c1 false)) "c1" all_pipes).1.1.1
    (OfContainer "c1") = 2 /\
  (pending_of
     (AttachStreams all_fine (daemon_of container_c1_stdin) "c1" stdin_only).1.1.1
     (OfContainer "c1") = 0 /\
   (AttachStreams all_fine (daemon_of container_c1_stdin) "c1" stdin_only).1.2 =
     [CopyStdin (OfContainer "c1")]) /\
  (pending_of
     (AttachStreams logging_fails (daemon_of (container_c1 false)) "c1"
        all_pipes).1.1.1
     (OfContainer "c1") = 0 /\
   (AttachStreams logging_fails (daemon_of (container_c1 false)) "c1"
      all_pipes).1.2 = []).
Proof.
  destruct (C10_pending_counter all_fine (daemon_of (container_c1 false))
              "c1" all_pipes) as [Hall _].
  destruct (C10_pending_counter all_fine (daemon_of container_c1_stdin)
              "c1" stdin_only) as [Hstdin _].
  destruct (C10_pending_counter logging_fails (daemon_of (container_c1 false))
              "c1" all_pipes) as [_ Hfails].
  destruct (Hall eq_refl) as (o1 & s1 & Ho1 & _ & Hcount1 & _).
  destruct (Hstdin eq_refl) as (o2 & s2 & Ho2 & Hs2 & _ & _ & _ & _ & Hzero).
  destruct (Hfails _ eq_refl) as (Hts & Hsame & _).
  injection Ho1 as <-. injection Ho2 as <-.
  injection Hs2 as <-.
  split; [exact Hcount1|]. split; [exact (Hzero eq_refl eq_refl eq_refl eq_refl eq_refl)|].
  split; [exact (Hsame (OfContainer "c1")) | exact Hts].
Defined.

(** C10 as stated fails: the runtime hands over a stdout and a stderr pipe
    for a registered container, the logging sink does not start, and
    [AttachStreams] returns with the counter where it was and no copy
    started. *)
Lemma C10_no_increment_when_logging_fails :
  Stdout all_pipes = true /\ Stderr all_pipes = true /\
  stream_of (daemon_of (container_c1 false)) (OfContainer "c1") =
    Some {| has_stdin := false; pending := 0 |} /\
  (AttachStreams logging_fails (daemon_of (container_c1 false)) "c1" all_pipes).2 =
    Some (ErrOther "failed to initialize logging driver") /\
  (AttachStreams logging_fails (daemon_of (container_c1 false)) "c1" all_pipes).1.2 = [] /\
  pending_of
    (AttachStreams logging_fails (daemon_of (container_c1 false)) "c1" all_pipes).1.1.1
    (OfContainer "c1") = 0.
Proof.
  split; [reflexivity|]. split; [reflexivity|]. split; [reflexivity|].
  split; [reflexivity|]. split; [reflexivity|]. vm_compute. reflexivity.
Qed.

End AttachStreamsTheorems.

(** ** The claims about the daemon at concrete inputs *)

Section DaemonWitnesses.

Import daemon.

(** C4 at three Restart events on "c1": the third one persists the count 3. *)
Lemma C4_restart_count_persisted_witness :
  exists c3,
    disk (handle "windows" (daemon_of (container_c1 false)) "c1" three_restarts)
      !! "c1" = Some c3 /\
    RestartCount c3 = 3 /\ Restarting c3 = true.
Proof.
  destruct (C4_restart_count_persisted "windows"
              (daemon_of (container_c1 false)) "c1" (container_c1 false)
              three_restarts 2 all_fine (event_of StateRestart 137 0 ""))
    as (cj & _ & _ & _ & Hcount & Hflag & Hafter & _ & _ & Hdisk).
  - reflexivity.
  - reflexivity.
  - repeat constructor.
  - simpl. unfold GoInt.max_int. lia.
  - reflexivity.
  - exists (restarted (event_of StateRestart 137 0 "") cj).
    change (take 3 three_restarts) with three_restarts in Hafter.
    rewrite Hafter. split; [|split].
    + apply Hdisk. reflexivity.
    + exact Hcount.
    + exact Hflag.
Defined.

(** C5 at a Start event with pid 4242 on "c1", with a persist that fails:
    the error comes back and the container is not running. *)
Lemma C5_start_persists_or_rolls_back_witness :
  (StateChanged "windows" disk_fails (daemon_of (container_c1 false)) "c1"
     (event_of StateStart 0 4242 "")).2 = Some (ErrOther "disk full") /\
  exists c',
    containers
      (StateChanged "windows" disk_fails (daemon_of (container_c1 false)) "c1"
         (event_of StateStart 0 4242 "")).1.1 !! "c1" = Some c' /\
    Running c' = false.
Proof.
  destruct (C5_start_persists_or_rolls_back "windows" disk_fails
              (daemon_of (container_c1 false)) "c1"
              (event_of StateStart 0 4242 "") (container_c1 false))
    as (_ & _ & _ & Hfail & _).
  - reflexivity.
  - left. reflexivity.
  - destruct (Hfail (ErrOther "disk full")) as (Hr & _ & Hc & Hrun & _);
      [reflexivity|].
    split; [exact Hr|]. eexists. split; [exact Hc | exact Hrun].
Defined.

(** C6 at an ExitProcess event for the exec "e9", which "c1" does not hold. *)
Lemma C6_stale_exit_process_witness :
  StateChanged "linux" all_fine (daemon_of (container_c1 false)) "c1"
    (event_of StateExitProcess 1 0 "e9") =
  (daemon_of (container_c1 false),
   [Lock "c1"; WarnIgnoringExitProcess (event_of StateExitProcess 1 0 "e9");
    Unlock "c1"],
   None).
Proof.
  apply (C6_stale_exit_process "linux" all_fine (daemon_of (container_c1 false))
           "c1" (event_of StateExitProcess 1 0 "e9") (container_c1 false));
    reflexivity.
Defined.

(** C9 at an OOM event for "c1", on Windows and on Linux. *)
Lemma C9_oom_event_witness :
  StateChanged "windows" all_fine (daemon_of (container_c1 false)) "c1"
    (event_of StateOOM 0 0 "") =
    (daemon_of (container_c1 false), [], Some ErrOOMOnWindows) /\
  StateChanged "linux" all_fine (daemon_of (container_c1 false)) "c1"
    (event_of StateOOM 0 0 "") =
    (daemon_of (container_c1 false),
     [LogContainerEvent (container_c1 false) "oom" []], None).
Proof.
  split.
  - apply (C9_oom_event "windows" all_fine (daemon_of (container_c1 false))
             "c1" (event_of StateOOM 0 0 "") (container_c1 false));
      reflexivity.
  - apply (C9_oom_event "linux" all_fine (daemon_of (container_c1 false))
             "c1" (event_of StateOOM 0 0 "") (container_c1 false));
      [reflexivity | reflexivity | discriminate].
Defined.

(** The goroutines of "c1" with all three pipes, after the stdout copy has
    ended: the counter of "c1" is 1, for the stderr copy still running. *)
Lemma pending_counts_output_copies_witness :
  pending_of
    (finish "c1" None (CopyOut (OfContainer "c1") to_stdout)
       (AttachStreams all_fine (daemon_of (container_c1 false))
          "c1" all_pipes).1.1.1).1
    (OfContainer "c1") = 1.
Proof.
  destruct (pending_counts_output_copies all_fine
              (daemon_of (container_c1 false)) "c1" all_pipes
              ((finish "c1" None (CopyOut (OfContainer "c1") to_stdout)
                  (AttachStreams all_fine (daemon_of (container_c1 false))
                     "c1" all_pipes).1.1.1).1,
               [CopyOut (OfContainer "c1") to_stderr]))
    as (o & Ho & _ & _ & _ & Hcount).
  - reflexivity.
  - apply rtc_once.
    exact (ends_task "c1"
             (AttachStreams all_fine (daemon_of (container_c1 false))
                "c1" all_pipes).1.1.1
             [] [CopyOut (OfContainer "c1") to_stderr]
             (CopyOut (OfContainer "c1") to_stdout) None).
  - injection Ho as <-. exact Hcount.
Defined.

End DaemonWitnesses.

(** ** [setupEnvironmentVariables] and [ArgsFromSlice] *)

Section EnvironmentAndArguments.

Import utils_windows.

Lemma SplitByte_free sep s :
  occurs sep s = false -> strings.SplitByte s sep = [s].
Proof.
  induction s as [|b s IH]; intros Hfree; [reflexivity|].
  simpl in *. apply orb_false_elim in Hfree as [Hb Hs].
  rewrite Hb, (IH Hs). reflexivity.
Qed.

Lemma SplitByte_cut sep k v :
  occurs sep k = false ->
  strings.SplitByte (k +:+ String sep v) sep = k :: strings.SplitByte v sep.
Proof.
  induction k as [|b k IH]; intros Hfree; simpl in *.
  - by rewrite Ascii.eqb_refl.
  - apply orb_false_elim in Hfree as [Hb Hk]. rewrite Hb, (IH Hk). reflexivity.
Qed.

Lemma SplitByte_length sep s :
  List.length (strings.SplitByte s sep) = S (count_byte sep s).
Proof.
  induction s as [|b s IH]; [reflexivity|]. simpl.
  destruct (Ascii.eqb b sep); simpl; [by rewrite IH|].
  destruct (strings.SplitByte s sep); simpl in *; lia.
Qed.

Lemma addVariable_entry r k v :
  occurs "=" k = false -> occurs "=" v = false ->
  addVariable r (entry (k, v)) = <[k := v]> r.
Proof.
  intros Hk Hv. unfold addVariable, entry. cbn [fst snd].
  change ("=" +:+ v) with (String "=" v).
  by rewrite (SplitByte_cut "=" k v Hk), (SplitByte_free "=" v Hv).
Qed.

Lemma addVariable_malformed r s :
  count_byte "=" s <> 1%nat -> addVariable r s = r.
Proof.
  intros Hcount. unfold addVariable.
  pose proof (SplitByte_length "=" s) as Hlen.
  destruct (strings.SplitByte s "=") as [|k [|v [|x l]]]; try reflexivity.
  simpl in Hlen. lia.
Qed.

(** An entry with exactly one equals sign sets its name to its value, over
    whatever an earlier entry gave it; an entry with no equals sign, or with
    more than one, is passed over. *)
Theorem setupEnvironmentVariables_snoc :
  forall (a : list string) (s : string),
    (count_byte "=" s <> 1%nat ->
       setupEnvironmentVariables (a ++ [s]) = setupEnvironmentVariables a) /\
    (forall k v,
       s = entry (k, v) -> occurs "=" k = false -> occurs "=" v = false ->
       setupEnvironmentVariables (a ++ [s]) =
         <[k := v]> (setupEnvironmentVariables a)).
Proof.
  intros a s. unfold setupEnvironmentVariables. rewrite fold_left_app. simpl.
  split.
  - intros Hcount. by apply addVariable_malformed.
  - intros k v -> Hk Hv. by apply addVariable_entry.
Qed.

Lemma setup_entries (l : list (string * string)) : forall r,
  Forall (fun kv => occurs "=" kv.1 = false /\ occurs "=" kv.2 = false) l ->
  fold_left addVariable (entry <$> l) r =
  fold_left (fun r kv => <[kv.1 := kv.2]> r) l r.
Proof.
  induction l as [|[k v] l IH]; intros r Hplain; [reflexivity|].
  apply Forall_cons in Hplain as [[Hk Hv] Hplain]. simpl in Hk, Hv.
  cbn [fmap list_fmap fold_left]. fold (fmap (M:=list) entry l).
  rewrite (addVariable_entry r k v Hk Hv). by apply IH.
Qed.

(** The variables of a map whose names and values hold no equals sign,
    written out as entries in any order the map lists them and read back,
    are that map. *)
Theorem setupEnvironmentVariables_round_trip :
  forall m : gmap string string,
    plain m ->
    setupEnvironmentVariables (entry <$> map_to_list m) = m.
Proof.
  intros m Hplain. unfold setupEnvironmentVariables.
  rewrite setup_entries.
  - rewrite <- fold_left_rev_right.
    change (fold_right (fun (y : string * string) (x : gmap string string) =>
                          <[y.1 := y.2]> x) ∅ (rev (map_to_list m)))
      with (list_to_map (M:=gmap string string) (rev (map_to_list m))).
    replace (rev (map_to_list m)) with (reverse (map_to_list m))
      by (unfold reverse; symmetry; apply rev_alt).
    rewrite <- (list_to_map_to_list m) at 2.
    apply list_to_map_proper.
    + rewrite fmap_reverse, reverse_Permutation.
      apply NoDup_fst_map_to_list.
    + apply reverse_Permutation.
  - apply Forall_forall. intros [k v] Hin.
    apply elem_of_map_to_list in Hin. exact (Hplain k v Hin).
Qed.

Lemma setupEnvironmentVariables_round_trip_witness :
  setupEnvironmentVariables (entry <$> map_to_list environment) = environment.
Proof.
  apply setupEnvironmentVariables_round_trip.
  intros k v Hkv. unfold environment in Hkv.
  apply lookup_insert_Some in Hkv as [[<- <-]|[_ Hkv]]; [by split|].
  apply lookup_singleton_Some in Hkv as [<- <-]. by split.
Defined.

Lemma append_assoc_string (a b c : string) : (a +:+ b) +:+ c = a +:+ b +:+ c.
Proof.
  induction a as [|x a IH]; [reflexivity|].
  change (String x ((a +:+ b) +:+ c) = String x (a +:+ b +:+ c)).
  by rewrite IH.
Qed.

Lemma escapeLoop_fold (EscapeArg : string -> string) args : forall i s,
  escapeLoop EscapeArg (S i) args s =
  fold_left (fun acc x => acc +:+ " " +:+ x) (EscapeArg <$> args) s.
Proof.
  induction args as [|a args IH]; intros i s; [reflexivity|].
  cbn [escapeLoop Nat.eqb negb fmap list_fmap fold_left].
  fold (fmap (M:=list) EscapeArg args).
  rewrite IH, append_assoc_string. reflexivity.
Qed.

(** Arguments that are not yet escaped come out as if each had been escaped
    first and the results passed on as escaped: one space between two
    arguments, none at either end; no argument gives the empty string. *)
Theorem ArgsFromSlice_escapes_then_joins :
  forall (EscapeArg : string -> string) (args : list string),
    ArgsFromSlice EscapeArg args false =
      ArgsFromSlice EscapeArg (EscapeArg <$> args) true /\
    ArgsFromSlice EscapeArg args true = strings.Join args " " /\
    ArgsFromSlice EscapeArg [] false = "".
Proof.
  intros EscapeArg args. split; [|split; reflexivity].
  unfold ArgsFromSlice, strings.Join.
  destruct args as [|a args]; [reflexivity|].
  cbn [escapeLoop Nat.eqb negb fmap list_fmap].
  fold (fmap (M:=list) EscapeArg args).
  by rewrite escapeLoop_fold.
Qed.

End EnvironmentAndArguments.

(** ** [hostIDFromMap], [getRootIDs] and [systemPid] *)

Section RootIDs.

Import utils_linux.

Lemma covers_well_formed m id :
  well_formed m -> 0 <= id < 2 ^ 32 ->
  covers m id = true <-> in_range_of m id.
Proof.
  intros (HH & HC & HS & Hsum) Hid. unfold covers, in_range_of, u32.
  rewrite Zminus_mod_idemp_l.
  rewrite (Z.mod_small (ContainerID m + Size m - 1)) by lia.
  rewrite andb_true_iff, !Z.leb_le. lia.
Qed.

Lemma hostIDFromMap_skip id l1 l2 :
  Forall (fun m => covers m id = false) l1 ->
  hostIDFromMap id (l1 ++ l2) = hostIDFromMap id l2.
Proof.
  induction l1 as [|m l1 IH]; intros Hskip; [reflexivity|].
  apply Forall_cons in Hskip as [Hm Hskip]. simpl. rewrite Hm. by apply IH.
Qed.

Lemma Forall_not_covered id l :
  0 <= id < 2 ^ 32 ->
  Forall well_formed l ->
  Forall (fun m => ~ in_range_of m id) l ->
  Forall (fun m => covers m id = false) l.
Proof.
  intros Hid Hwf Hout. induction l as [|m l IH]; [constructor|].
  apply Forall_cons in Hwf as [Hm Hwf]. apply Forall_cons in Hout as [Hnot Hout].
  constructor; [|by apply IH].
  destruct (covers m id) eqn:Hc; [|reflexivity].
  apply (covers_well_formed m id Hm Hid) in Hc. contradiction.
Qed.

(** The first mapping whose range holds the id decides: the id is moved by
    as much as that mapping moves its first id, within [uint32].  Mappings
    after it are not looked at. *)
Theorem hostIDFromMap_first_cover :
  forall (id : Z) (l1 : list IDMapping) (m : IDMapping) (l2 : list IDMapping),
    0 <= id < 2 ^ 32 ->
    Forall well_formed (l1 ++ [m]) ->
    Forall (fun m' => ~ in_range_of m' id) l1 ->
    in_range_of m id ->
    hostIDFromMap id (l1 ++ m :: l2) = u32 (HostID m + (id - ContainerID m)) /\
    (HostID m + (id - ContainerID m) < 2 ^ 32 ->
       hostIDFromMap id (l1 ++ m :: l2) = HostID m + (id - ContainerID m)).
Proof.
  intros id l1 m l2 Hid Hwf Hout Hin.
  apply Forall_app in Hwf as [Hwf1 Hwfm].
  apply Forall_cons in Hwfm as [Hm _].
  assert (Hrun : hostIDFromMap id (l1 ++ m :: l2) =
                 u32 (HostID m + (id - ContainerID m))).
  { rewrite hostIDFromMap_skip by (by apply Forall_not_covered).
    simpl. apply (covers_well_formed m id Hm Hid) in Hin. rewrite Hin.
    unfold u32. rewrite Zminus_mod_idemp_l. f_equal. lia. }
  split; [exact Hrun|].
  intros Hfit. rewrite Hrun. unfold u32. apply Z.mod_small.
  destruct Hm as (HH & _). unfold in_range_of in Hin. lia.
Qed.

Lemma hostIDFromMap_first_cover_witness :
  hostIDFromMap 70005 [root_to_1000; high_ids; root_to_1000] = 200005.
Proof.
  apply (hostIDFromMap_first_cover 70005 [root_to_1000] high_ids [root_to_1000]).
  - lia.
  - repeat constructor; simpl; lia.
  - constructor; [|constructor]. unfold in_range_of. simpl. lia.
  - unfold in_range_of. simpl. lia.
  - simpl. lia.
Defined.

(** An id that no mapping holds comes out as 0, which is also what a
    mapping of the id to the host's root gives. *)
Theorem hostIDFromMap_uncovered :
  forall (id : Z) (mp : list IDMapping),
    0 <= id < 2 ^ 32 ->
    Forall well_formed mp ->
    Forall (fun m => ~ in_range_of m id) mp ->
    hostIDFromMap id mp = 0.
Proof.
  intros id mp Hid Hwf Hout.
  rewrite <- (app_nil_r mp), hostIDFromMap_skip; [reflexivity|].
  by apply Forall_not_covered.
Qed.

Lemma hostIDFromMap_uncovered_witness :
  hostIDFromMap 66000 [root_to_1000; high_ids] = 0.
Proof.
  apply hostIDFromMap_uncovered.
  - lia.
  - repeat constructor; simpl; lia.
  - repeat constructor; unfold in_range_of; simpl; lia.
Defined.

(** A mapping of size 0 that starts at container id 0 holds every id: its
    last id, [0 + 0 - 1], wraps to the largest [uint32]. *)
Theorem hostIDFromMap_empty_mapping_at_zero :
  forall (id : Z) (m : IDMapping) (rest : list IDMapping),
    0 <= id < 2 ^ 32 ->
    ContainerID m = 0 ->
    Size m = 0 ->
    hostIDFromMap id (m :: rest) = u32 (HostID m + id).
Proof.
  intros id m rest Hid HC HS. simpl. unfold covers. rewrite HC, HS.
  change (u32 (u32 (0 + 0) - 1)) with (2 ^ 32 - 1).
  replace (0 <=? id) with true by (symmetry; apply Z.leb_le; lia).
  replace (id <=? 2 ^ 32 - 1) with true by (symmetry; apply Z.leb_le; lia).
  simpl. unfold u32. rewrite Z.sub_0_r. apply Z.mod_mod. lia.
Qed.

Lemma hostIDFromMap_empty_mapping_at_zero_witness :
  hostIDFromMap 7
    [{| HostID := 1000; ContainerID := 0; Size := 0 |}; root_to_1000] = 1007.
Proof.
  apply (hostIDFromMap_empty_mapping_at_zero 7
           {| HostID := 1000; ContainerID := 0; Size := 0 |} [root_to_1000]);
    [lia | reflexivity | reflexivity].
Defined.

Lemma hasUserns_In namespaces :
  hasUserns namespaces = true <-> In UserNamespace namespaces.
Proof.
  induction namespaces as [|ns rest IH]; simpl; [split; [discriminate | tauto]|].
  destruct (String.eqb ns UserNamespace) eqn:Hns.
  - apply String.eqb_eq in Hns. split; [by left | done].
  - apply String.eqb_neq in Hns. rewrite IH. split; [by right|].
    intros [Heq|Hin]; [contradiction | exact Hin].
Qed.

(** [getRootIDs] never fails.  Without a user namespace both ids are 0,
    whatever the mapping tables hold; with one, they are what the tables
    give for container id 0. *)
Theorem getRootIDs_user_namespace :
  forall s : LinuxSpec,
    (getRootIDs s).2 = None /\
    (~ In UserNamespace (Namespaces s) -> getRootIDs s = (0, 0, None)) /\
    (In UserNamespace (Namespaces s) ->
       getRootIDs s =
         (hostIDFromMap 0 (UIDMappings s), hostIDFromMap 0 (GIDMappings s),
          None)).
Proof.
  intros s. unfold getRootIDs.
  destruct (hasUserns (Namespaces s)) eqn:Hns; simpl.
  - apply hasUserns_In in Hns. split; [reflexivity|]. split; [tauto | done].
  - split; [reflexivity|]. split; [done|].
    intros Hin. apply hasUserns_In in Hin. congruence.
Qed.

Lemma systemPidLoop_no_init ps : forall pid,
  Forall (fun p => is_init p = false) ps -> systemPidLoop ps pid = pid.
Proof.
  induction ps as [|p ps IH]; intros pid Hno; [reflexivity|].
  apply Forall_cons in Hno as [Hp Hno]. simpl.
  unfold is_init in Hp. rewrite Hp. by apply IH.
Qed.

Lemma systemPidLoop_app l1 l2 pid :
  systemPidLoop (l1 ++ l2) pid = systemPidLoop l2 (systemPidLoop l1 pid).
Proof.
  revert pid. induction l1 as [|p l1 IH]; intros pid; [reflexivity|].
  simpl. apply IH.
Qed.

(** The system pid of a container is that of its last process named as the
    init process, and 0 if it has none. *)
Theorem systemPid_last_init :
  forall c : Container,
    (Forall (fun p => is_init p = false) (Processes c) -> systemPid c = 0) /\
    (forall l1 p l2,
       Processes c = l1 ++ p :: l2 ->
       is_init p = true ->
       Forall (fun p' => is_init p' = false) l2 ->
       systemPid c = SystemPid p).
Proof.
  intros c. unfold systemPid. split.
  - intros Hno. by apply systemPidLoop_no_init.
  - intros l1 p l2 -> Hp Hno. rewrite systemPidLoop_app. simpl.
    unfold is_init in Hp. rewrite Hp. by apply systemPidLoop_no_init.
Qed.

End RootIDs.

(** ** [Chtimes] *)

Section Timestamps.

Import system.

Lemma maxTime_positive timespec64 : 0 < maxTime timespec64.
Proof. destruct timespec64; vm_compute; reflexivity. Qed.

Lemma clamp_spec timespec64 t :
  0 <= clamp timespec64 t <= maxTime timespec64 /\
  (0 <= t <= maxTime timespec64 -> clamp timespec64 t = t) /\
  (t < 0 \/ maxTime timespec64 < t -> clamp timespec64 t = 0).
Proof.
  pose proof (maxTime_positive timespec64) as Hmax.
  unfold clamp. change (Unix 0 0) with 0.
  destruct (t <? 0) eqn:Hlo; [apply Z.ltb_lt in Hlo | apply Z.ltb_ge in Hlo];
    destruct (maxTime timespec64 <? t) eqn:Hhi;
    [apply Z.ltb_lt in Hhi | apply Z.ltb_ge in Hhi
    |apply Z.ltb_lt in Hhi | apply Z.ltb_ge in Hhi]; simpl; lia.
Qed.

(** [os.Chtimes] is always called, for the same file, with both times
    between the Unix epoch and the largest time of the platform.  A time in
    that range is passed on as it is; a time before the epoch or after the
    largest time is replaced by the epoch.  What [os.Chtimes] answers is
    returned. *)
Theorem Chtimes_clamps_to_epoch :
  forall (timespec64 : bool) (os_Chtimes : option error) (name : string)
         (atime mtime : Time),
    let r := Chtimes timespec64 os_Chtimes name atime mtime in
    r.2 = os_Chtimes /\ call_name r.1 = name /\
    0 <= call_atime r.1 <= maxTime timespec64 /\
    0 <= call_mtime r.1 <= maxTime timespec64 /\
    (0 <= atime <= maxTime timespec64 -> call_atime r.1 = atime) /\
    (0 <= mtime <= maxTime timespec64 -> call_mtime r.1 = mtime) /\
    (atime < 0 \/ maxTime timespec64 < atime -> call_atime r.1 = 0) /\
    (mtime < 0 \/ maxTime timespec64 < mtime -> call_mtime r.1 = 0).
Proof.
  intros timespec64 os_Chtimes name atime mtime r. subst r. simpl.
  destruct (clamp_spec timespec64 atime) as (Ha1 & Ha2 & Ha3).
  destruct (clamp_spec timespec64 mtime) as (Hm1 & Hm2 & Hm3).
  tauto.
Qed.

End Timestamps.

(** ** Modes and restart policies *)

Section Modes.

Import runconfig.

Lemma SplitN2_free sep s :
  occurs sep s = false -> strings.SplitN2 s sep = [s].
Proof.
  induction s as [|b s IH]; intros Hfree; [reflexivity|].
  simpl in *. apply orb_false_elim in Hfree as [Hb Hs].
  rewrite Hb, (IH Hs). reflexivity.
Qed.

Lemma SplitN2_cut sep p q :
  occurs sep p = false ->
  strings.SplitN2 (p +:+ String sep q) sep = [p; q].
Proof.
  induction p as [|b p IH]; intros Hfree; simpl in *.
  - by rewrite Ascii.eqb_refl.
  - apply orb_false_elim in Hfree as [Hb Hp]. rewrite Hb, (IH Hp). reflexivity.
Qed.

(** An IPC mode is exactly one of private, host and container. *)
Theorem IpcMode_is_one_of_three :
  forall n : string,
    (IpcMode_IsPrivate n, IpcMode_IsHost n, IpcMode_IsContainer n) =
      (true, false, false) \/
    (IpcMode_IsPrivate n, IpcMode_IsHost n, IpcMode_IsContainer n) =
      (false, true, false) \/
    (IpcMode_IsPrivate n, IpcMode_IsHost n, IpcMode_IsContainer n) =
      (false, false, true).
Proof.
  intros n. unfold IpcMode_IsPrivate.
  destruct (IpcMode_IsHost n) eqn:Hhost.
  - apply String.eqb_eq in Hhost. subst n. right. left. reflexivity.
  - destruct (IpcMode_IsContainer n); [right; right | left]; reflexivity.
Qed.

(** A mode is cut at its first colon only: what follows it is the name
    [Container] returns, colons included, and the mode counts as a
    container mode exactly if what precedes it is "container".  A mode
    without a colon names no container. *)
Theorem IpcMode_Container_after_first_colon :
  forall p q : string,
    occurs ":" p = false ->
    IpcMode_Container (p +:+ ":" +:+ q) = q /\
    IpcMode_IsContainer (p +:+ ":" +:+ q) = String.eqb p "container" /\
    IpcMode_Container p = "" /\
    IpcMode_IsContainer p = false.
Proof.
  intros p q Hfree. unfold IpcMode_Container, IpcMode_IsContainer.
  change (":" +:+ q) with (String ":" q).
  rewrite (SplitN2_cut ":" p q Hfree), (SplitN2_free ":" p Hfree).
  by repeat split.
Qed.

Lemma IpcMode_Container_after_first_colon_witness :
  IpcMode_Container "container:web:1" = "web:1" /\
  IpcMode_IsContainer "container:web:1" = true /\
  IpcMode_Container "host" = "" /\ IpcMode_IsContainer "host" = false.
Proof.
  destruct (IpcMode_Container_after_first_colon "container" "web:1")
    as (H1 & H2 & _); [reflexivity|].
  destruct (IpcMode_Container_after_first_colon "host" "")
    as (_ & _ & H3 & H4); [reflexivity|].
  split; [exact H1|]. split; [exact H2|]. split; [exact H3 | exact H4].
Defined.

(** At most one of the four restart policies holds of a policy, and none
    holds of the policy with the empty name. *)
Theorem RestartPolicy_at_most_one :
  forall rp : RestartPolicy,
    (Z.b2z (IsNone rp) + Z.b2z (IsAlways rp) + Z.b2z (IsOnFailure rp) +
     Z.b2z (IsUnlessStopped rp) <= 1) /\
    (Name rp = "" ->
       IsNone rp = false /\ IsAlways rp = false /\ IsOnFailure rp = false /\
       IsUnlessStopped rp = false).
Proof.
  intros rp. unfold IsNone, IsAlways, IsOnFailure, IsUnlessStopped. split.
  - destruct (String.eqb (Name rp) "no") eqn:H1;
      [apply String.eqb_eq in H1; rewrite H1; vm_compute; discriminate|].
    destruct (String.eqb (Name rp) "always") eqn:H2;
      [apply String.eqb_eq in H2; rewrite H2; vm_compute; discriminate|].
    destruct (String.eqb (Name rp) "on-failure") eqn:H3;
      [apply String.eqb_eq in H3; rewrite H3; vm_compute; discriminate|].
    destruct (String.eqb (Name rp) "unless-stopped"); vm_compute; discriminate.
  - intros ->. by repeat split.
Qed.

Lemma lower_upper_byte a :
  strings.lower_byte (strings.upper_byte a) = strings.lower_byte a.
Proof. destruct a as [[] [] [] [] [] [] [] []]; vm_compute; reflexivity. Qed.

Lemma ToLower_ToUpper s :
  strings.ToLower (strings.ToUpper s) = strings.ToLower s.
Proof.
  induction s as [|a s IH]; [reflexivity|].
  simpl. by rewrite lower_upper_byte, IH.
Qed.

Lemma upper_lower_byte a :
  strings.upper_byte (strings.lower_byte a) = strings.upper_byte a.
Proof. destruct a as [[] [] [] [] [] [] [] []]; vm_compute; reflexivity. Qed.

Lemma ToUpper_ToLower s :
  strings.ToUpper (strings.ToLower s) = strings.ToUpper s.
Proof.
  induction s as [|a s IH]; [reflexivity|].
  simpl. by rewrite upper_lower_byte, IH.
Qed.

Lemma ToLower_default i :
  strings.ToLower i = "default" <-> strings.ToUpper i = "DEFAULT".
Proof.
  split; intros H.
  - rewrite <- ToUpper_ToLower, H. reflexivity.
  - rewrite <- ToLower_ToUpper, H. reflexivity.
Qed.

(** An isolation level is the default one exactly if it is empty or reads
    "default" when the case of its letters is left aside, that is, if its
    upper-case form is "DEFAULT".  So "default", "Default", "DEFAULT" and
    the empty level are default levels and "hyperv" is not; and a level,
    its upper-case form and its lower-case form are all three default
    levels or none of them is. *)
Theorem IsolationLevel_IsDefault_any_case :
  forall i : string,
    (IsolationLevel_IsDefault i = true <->
       i = "" \/ strings.ToUpper i = "DEFAULT") /\
    IsolationLevel_IsDefault (strings.ToUpper i) = IsolationLevel_IsDefault i /\
    IsolationLevel_IsDefault (strings.ToLower i) = IsolationLevel_IsDefault i /\
    IsolationLevel_IsDefault "default" = true /\
    IsolationLevel_IsDefault "Default" = true /\
    IsolationLevel_IsDefault "DEFAULT" = true /\
    IsolationLevel_IsDefault "" = true /\
    IsolationLevel_IsDefault "hyperv" = false.
Proof.
  intros i.
  assert (Hiff : forall j,
    IsolationLevel_IsDefault j = true <->
      j = "" \/ strings.ToUpper j = "DEFAULT").
  { intros j. unfold IsolationLevel_IsDefault.
    rewrite orb_true_iff, !String.eqb_eq, ToLower_default. tauto. }
  assert (Hsame : forall j k,
    strings.ToUpper j = strings.ToUpper k -> (j = "" <-> k = "") ->
    IsolationLevel_IsDefault j = IsolationLevel_IsDefault k).
  { intros j k Hup Hempty. apply eq_true_iff_eq.
    rewrite !Hiff, Hup, Hempty. reflexivity. }
  split; [apply Hiff|]. split; [|split].
  - apply Hsame; [|by destruct i].
    by rewrite <- (ToUpper_ToLower (strings.ToUpper i)), ToLower_ToUpper,
      ToUpper_ToLower.
  - apply Hsame; [apply ToUpper_ToLower | by destruct i].
  - by repeat split.
Qed.

End Modes.

(** ** [validateHostConfigPlatformFields] and [SetDefaultNetModeIfBlank] *)

Section HostConfigValidation.

Import runconfig.

Variable GOOS : string.
Variable IpcMode_Valid PidMode_Valid UTSMode_Valid : string -> bool.

Local Abbreviation checkField' :=
  (checkField GOOS IpcMode_Valid PidMode_Valid UTSMode_Valid).
Local Abbreviation validateLoop' :=
  (validateLoop GOOS IpcMode_Valid PidMode_Valid UTSMode_Valid).
Local Abbreviation validate' :=
  (validateHostConfigPlatformFields GOOS IpcMode_Valid PidMode_Valid
     UTSMode_Valid).
Local Abbreviation off_windows' :=
  (off_windows IpcMode_Valid PidMode_Valid UTSMode_Valid).
Local Abbreviation on_windows' :=
  (on_windows IpcMode_Valid PidMode_Valid UTSMode_Valid).

(** The loop returns the first error that a field gives. *)
Lemma validateLoop_first hc (l : list (string * option field_error)) :
  Forall (fun p => checkField' hc p.1 = p.2) l ->
  validateLoop' hc (l.*1) =
    List.fold_right (fun o rest => match o with Some e => Some e | None => rest end)
      None (l.*2).
Proof.
  induction l as [|[name o] l IH]; intros Hl; [reflexivity|].
  apply Forall_cons in Hl as [Hname Hl]. simpl in Hname.
  cbn [fmap list_fmap fst snd validateLoop fold_right].
  fold (fmap (M:=list) (@fst string (option field_error)) l).
  fold (fmap (M:=list) (@snd string (option field_error)) l).
  rewrite Hname, (IH Hl). reflexivity.
Qed.

Lemma first_error_populated (l : list (string * bool)) :
  List.fold_right
    (fun (o : option field_error) rest =>
       match o with Some e => Some e | None => rest end)
    None
    ((fun p : string * bool =>
        if p.2 then Some (ErrPopulated p.1) else None) <$> l) =
  ErrPopulated <$> first_set l.
Proof.
  induction l as [|[name b] l IH]; [reflexivity|].
  cbn [fmap list_fmap fold_right first_set fst snd].
  destruct b; [reflexivity | exact IH].
Qed.

Lemma checkField_off_windows hc :
  String.eqb GOOS "windows" = false ->
  Forall (fun p => checkField' hc p.1 = p.2) (off_windows' hc).
Proof.
  intros Hos. unfold off_windows.
  repeat (constructor;
          [unfold checkField, populated, invalidMode; rewrite Hos;
           reflexivity|]).
  constructor.
Qed.

Lemma checkField_on_windows hc :
  String.eqb GOOS "windows" = true ->
  Forall (fun p : string * bool =>
            checkField' hc p.1 =
            if p.2 then Some (ErrPopulated p.1) else None)
    (on_windows' hc).
Proof.
  intros Hos. unfold on_windows.
  repeat (constructor;
          [unfold checkField, populated, invalidMode; rewrite Hos;
           cbn [fst snd negb andb];
           repeat match goal with
                  | |- context [if ?b then _ else _] =>
                      is_var b; destruct b
                  end;
           reflexivity|]).
  constructor.
Qed.

(** Off Windows every resource field is accepted whatever it holds: the
    only refusals are an invalid IPC, PID or UTS mode, looked at in that
    order, and then an isolation level that is not the default one. *)
Theorem validate_off_windows :
  forall hc : HostConfig,
    GOOS <> "windows" ->
    validate' hc =
      if negb (IpcMode_Valid (IpcMode hc)) then Some ErrInvalidIPCMode
      else if negb (PidMode_Valid (PidMode hc)) then Some ErrInvalidPIDMode
      else if negb (UTSMode_Valid (UTSMode hc)) then Some ErrInvalidUTSMode
      else if negb (IsolationLevel_IsDefault (Isolation hc))
           then Some (ErrPopulated "Isolation")
      else None.
Proof.
  intros hc Hos. apply String.eqb_neq in Hos.
  unfold validateHostConfigPlatformFields.
  change fields with ((off_windows' hc).*1).
  rewrite (validateLoop_first hc _ (checkField_off_windows hc Hos)).
  unfold off_windows. cbn [fmap list_fmap snd fold_right].
  destruct (negb (IpcMode_Valid (IpcMode hc))); [reflexivity|].
  destruct (negb (PidMode_Valid (PidMode hc))); [reflexivity|].
  destruct (negb (UTSMode_Valid (UTSMode hc))); [reflexivity|].
  destruct (negb (IsolationLevel_IsDefault (Isolation hc))); reflexivity.
Qed.

(** On Windows the validation refuses a configuration exactly if it sets a
    field that Windows does not support, and the error names the first such
    field in the order of the declaration of [HostConfig].  [Links], [DNS],
    [DNSOptions], [DNSSearch], [ExtraHosts] and [SecurityOpt] count as set
    only if they hold a non-empty string, [Devices] and [Ulimits] if they
    are not empty, [CapAdd], [CapDrop] and [GroupAdd] if they are not nil, a
    memory swappiness only if it is above 0, and a mode if it is not valid;
    no isolation level is refused. *)
Theorem validate_on_windows :
  forall hc : HostConfig,
    GOOS = "windows" ->
    validate' hc =
      ErrPopulated <$>
        first_set
          (unsupported_on_windows IpcMode_Valid PidMode_Valid UTSMode_Valid hc).
Proof.
  intros hc Hos. apply String.eqb_eq in Hos.
  unfold validateHostConfigPlatformFields.
  change fields with ((on_windows' hc).*1).
  replace ((on_windows' hc).*1) with
    (((fun p : string * bool =>
         (p.1, if p.2 then Some (ErrPopulated p.1) else None)) <$>
        on_windows' hc).*1)
    by (rewrite <- list_fmap_compose; reflexivity).
  rewrite validateLoop_first.
  - rewrite <- list_fmap_compose.
    change (snd ∘ _) with
      (fun p : string * bool => if p.2 then Some (ErrPopulated p.1) else None).
    rewrite first_error_populated. reflexivity.
  - apply Forall_fmap. exact (checkField_on_windows hc Hos).
Qed.

(** The [default] branch of the switch is never taken: every field of
    [HostConfig] has a case of its own, so no configuration is refused as
    unrecognised. *)
Theorem validate_never_unrecognised :
  forall (hc : HostConfig) (name : string),
    validate' hc <> Some (ErrUnrecognised name).
Proof.
  intros hc name. unfold validateHostConfigPlatformFields.
  destruct (String.eqb GOOS "windows") eqn:Hos.
  - change fields with ((on_windows' hc).*1).
    replace ((on_windows' hc).*1) with
      (((fun p : string * bool =>
           (p.1, if p.2 then Some (ErrPopulated p.1) else None)) <$>
          on_windows' hc).*1)
      by (rewrite <- list_fmap_compose; reflexivity).
    rewrite validateLoop_first
      by (apply Forall_fmap; exact (checkField_on_windows hc Hos)).
    rewrite <- list_fmap_compose.
    change (snd ∘ _) with
      (fun p : string * bool => if p.2 then Some (ErrPopulated p.1) else None).
    rewrite first_error_populated.
    by destruct (first_set (on_windows' hc)).
  - change fields with ((off_windows' hc).*1).
    rewrite (validateLoop_first hc _ (checkField_off_windows hc Hos)).
    unfold off_windows. cbn [fmap list_fmap snd fold_right].
    destruct (negb (IpcMode_Valid (IpcMode hc))); [discriminate|].
    destruct (negb (PidMode_Valid (PidMode hc))); [discriminate|].
    destruct (negb (UTSMode_Valid (UTSMode hc))); [discriminate|].
    destruct (negb (IsolationLevel_IsDefault (Isolation hc))); discriminate.
Qed.

Lemma checkField_set_NetworkMode n hc name :
  checkField' (set_NetworkMode n hc) name = checkField' hc name.
Proof. reflexivity. Qed.

Lemma validateLoop_set_NetworkMode n hc names :
  validateLoop' (set_NetworkMode n hc) names = validateLoop' hc names.
Proof.
  induction names as [|name names IH]; [reflexivity|].
  simpl. by rewrite checkField_set_NetworkMode, IH.
Qed.

(** [SetDefaultNetModeIfBlank] keeps nil as nil, leaves a configuration
    with a network mode as it is and gives "default" to one without, every
    other field staying as it is.  Its result never has a blank network
    mode, a second application changes nothing, and the validation answers
    for the result what it answers for the configuration it was given. *)
Theorem SetDefaultNetModeIfBlank_fills_blank_only :
  forall hc : HostConfig,
    SetDefaultNetModeIfBlank None = None /\
    (NetworkMode hc <> "" -> SetDefaultNetModeIfBlank (Some hc) = Some hc) /\
    (exists hc1 : HostConfig,
       (SetDefaultNetModeIfBlank (Some hc) = Some hc1) /\
       (same_but_NetworkMode hc hc1) /\
       (NetworkMode hc1 <> "") /\
       (NetworkMode hc = "" -> NetworkMode hc1 = "default") /\
       (SetDefaultNetModeIfBlank (Some hc1) = Some hc1) /\
       (validate' hc1 = validate' hc)).
Proof.
  intros hc. split; [reflexivity|]. unfold SetDefaultNetModeIfBlank. split.
  - intros Hmode. apply String.eqb_neq in Hmode. by rewrite Hmode.
  - destruct (String.eqb (NetworkMode hc) "") eqn:Hmode.
    + apply String.eqb_eq in Hmode.
      exists (set_NetworkMode "default" hc).
      split; [reflexivity|]. split; [by repeat split|].
      split; [discriminate|].
      split; [reflexivity|]. split; [reflexivity|].
      apply validateLoop_set_NetworkMode.
    + exists hc. split; [reflexivity|]. split; [by repeat split|].
      split; [by apply String.eqb_neq|].
      split; [intros Hblank; apply String.eqb_neq in Hmode; contradiction|].
      split; [by rewrite Hmode | reflexivity].
Qed.

End HostConfigValidation.

Section HostConfigWitnesses.

Import runconfig.

(** On Linux a configuration with resource limits passes, and one with the
    isolation level "hyperv" does not. *)
Lemma validate_off_windows_witness :
  validateHostConfigPlatformFields "linux" any_mode any_mode any_mode
    empty_config = None.
Proof.
  rewrite (validate_off_windows "linux" any_mode any_mode any_mode empty_config)
    by discriminate.
  reflexivity.
Defined.

(** On Windows the empty configuration passes. *)
Lemma validate_on_windows_witness :
  validateHostConfigPlatformFields "windows" any_mode any_mode any_mode
    empty_config = None.
Proof.
  rewrite (validate_on_windows "windows" any_mode any_mode any_mode empty_config)
    by reflexivity.
  reflexivity.
Defined.

End HostConfigWitnesses.

(** ** [StateChanged]: every branch *)

Section StateChangedBranches.

Import daemon.

Variable GOOS : string.

Lemma lookup_store_ne id id' c d :
  id' <> id -> containers (store id c d) !! id' = containers d !! id'.
Proof. intros Hne. unfold store. simpl. by apply lookup_insert_ne. Qed.

Lemma execCommands_persist w id c d :
  execCommands (persist w id c d) = execCommands d.
Proof. unfold persist. by destruct (ToDisk w). Qed.

(** An id that is not registered: [StateChanged] returns the no-such-
    container error for every event, and [AttachStreams] the no-such-exec-
    or-container error if the exec store does not hold the id either.
    Neither calls anything nor changes anything. *)
Theorem unknown_id_is_an_error :
  forall (w : answers) (d : Daemon) (id : string),
    containers d !! id = None ->
    (forall e, StateChanged GOOS w d id e =
                 (d, [], Some (ErrNoSuchContainer id))) /\
    (forall iop,
       execCommands d !! id = None ->
       AttachStreams w d id iop =
         (d, [], [], Some (ErrNoSuchExecOrContainer id))).
Proof.
  intros w d id Hnone. split.
  - intros e. unfold StateChanged. by rewrite Hnone.
  - intros iop Hexec. unfold AttachStreams, getExecConfig.
    by rewrite Hnone, Hexec.
Qed.

(** The result of [StateChanged] for a registered container and an event
    other than Exit is the daemon with that container rewritten, possibly
    an exec object rewritten, and possibly the disk written. *)
Lemma StateChanged_shape w d id e c :
  containers d !! id = Some c ->
  state e <> StateExit ->
  exists c' execs' disk',
    (StateChanged GOOS w d id e).1.1 =
      {| containers := <[id := c']> (containers d); execs := execs';
         execCommands := execCommands d; disk := disk' |}.
Proof.
  intros Hc Hne. unfold StateChanged. rewrite Hc.
  assert (Hsame : d = {| containers := <[id := c]> (containers d);
                         execs := execs d; execCommands := execCommands d;
                         disk := disk d |}).
  { rewrite (insert_id _ _ _ Hc). by destruct d. }
  revert Hne. destruct (state e); intros Hne; cbn [fst].
  - destruct (ToDisk w) eqn:Hw; cbn [fst];
      unfold persist, store, set_containers, set_disk; rewrite ?Hw;
      by eexists _, _, _.
  - destruct (ToDisk w) eqn:Hw; cbn [fst];
      unfold persist, store, set_containers, set_disk; rewrite ?Hw;
      by eexists _, _, _.
  - by destruct Hne.
  - destruct (ExecCommands_Get d c (ProcessID e)) as [[p ec]|]; cbn [fst].
    + unfold store, set_containers, set_execs. by eexists _, _, _.
    + exists c, (execs d), (disk d). exact Hsame.
  - unfold persist, store, set_containers, set_disk.
    destruct (ToDisk w); by eexists _, _, _.
  - destruct (String.eqb GOOS "windows"); exists c, (execs d), (disk d);
      exact Hsame.
  - unfold store, set_containers. by eexists _, _, _.
  - unfold store, set_containers. by eexists _, _, _.
Qed.

(** For every event but Exit, whose branch hands the container to
    [daemon.Cleanup], and whatever [ToDisk] and the others answer,
    [StateChanged] for one id leaves every other container as it is,
    registers and unregisters no container, and leaves the daemon's own
    exec store as it is. *)
Theorem StateChanged_touches_one_container :
  forall (w : answers) (d : Daemon) (id : string) (e : StateInfo),
    state e <> StateExit ->
    let d' := (StateChanged GOOS w d id e).1.1 in
    (forall id', id' <> id -> containers d' !! id' = containers d !! id') /\
    dom (containers d') = dom (containers d) /\
    execCommands d' = execCommands d.
Proof.
  intros w d id e Hstate d'. subst d'.
  destruct (containers d !! id) as [c|] eqn:Hc.
  - destruct (StateChanged_shape w d id e c Hc Hstate)
      as (c' & execs' & disk' & ->).
    cbn [containers execCommands]. split; [|split; [|reflexivity]].
    + intros id' Hne. by apply lookup_insert_ne.
    + rewrite dom_insert_L. apply subseteq_union_1_L, singleton_subseteq_l.
      by apply elem_of_dom_2 in Hc.
  - unfold StateChanged. rewrite Hc. by repeat split.
Qed.

(** [StateChanged] takes the container's lock for Exit, Restart and
    ExitProcess events, as its first action, and releases it as its last,
    whatever happens in between; for Start, Restore, Pause, Resume and OOM
    events it neither takes nor releases a lock. *)
Theorem StateChanged_lock_discipline :
  forall (w : answers) (d : Daemon) (id : string) (e : StateInfo)
         (c : Container),
    containers d !! id = Some c ->
    let tr := (StateChanged GOOS w d id e).1.2 in
    (takes_lock (state e) = true ->
       exists body,
         tr = Lock id :: body ++ [Unlock id] /\
         List.filter is_lock_event body = []) /\
    (takes_lock (state e) = false -> List.filter is_lock_event tr = []).
Proof.
  intros w d id e c Hc tr. subst tr. unfold StateChanged. rewrite Hc.
  destruct (state e); cbn [takes_lock fst snd];
    (split; [intros Hlock; try discriminate Hlock
            |intros Hlock; try discriminate Hlock]).
  - by destruct (ToDisk w).
  - by destruct (ToDisk w).
  - eexists [_; _; _; _; _; _]. split; reflexivity.
  - destruct (ExecCommands_Get d c (ProcessID e)) as [[p ec]|]; cbn [fst snd].
    + destruct (CloseStreams w).
      * eexists [_; _; _]. split; reflexivity.
      * eexists [_; _]. split; reflexivity.
    + eexists [_]. split; reflexivity.
  - eexists [_; _; _; _]. split; reflexivity.
  - by destruct (String.eqb GOOS "windows").
  - reflexivity.
  - reflexivity.
Qed.

(** The ExitProcess branch for an exec session that the container holds. *)
Lemma StateChanged_exit_process w d id e c p ec :
  containers d !! id = Some c ->
  state e = StateExitProcess ->
  ExecCommands c !! ProcessID e = Some p ->
  execs d !! p = Some ec ->
  StateChanged GOOS w d id e =
    (store id (set_ExecCommands (delete (ec_ID ec) (ExecCommands c)) c)
       (set_execs (<[p := exited (si_ExitCode e) ec]> (execs d)) d),
     [Lock id; ExecWait p; CallCloseStreams p] ++
     match CloseStreams w with
     | Some err => [ErrorCloseStreams (ID c) err]
     | None => []
     end ++ [Unlock id],
     None).
Proof.
  intros Hc He Hp Hec. unfold StateChanged, ExecCommands_Get.
  rewrite Hc, He, Hp. simpl. rewrite Hec. reflexivity.
Qed.

(** The exit of an exec session that the container holds.  [StateChanged]
    returns nil even if closing the streams failed.  The session leaves the
    container's table, but any key of the daemon's own store that points to
    it still finds it, now with the exit code recorded and not running. *)
Theorem exited_exec_stays_inspectable :
  forall (w : answers) (d : Daemon) (id : string) (e : StateInfo)
         (c : Container) (p : ptr) (ec : ExecConfig),
    containers d !! id = Some c ->
    state e = StateExitProcess ->
    ExecCommands c !! ProcessID e = Some p ->
    execs d !! p = Some ec ->
    let r := StateChanged GOOS w d id e in
    r.2 = None /\
    (exists c',
       containers r.1.1 !! id = Some c' /\
       ExecCommands c' = delete (ec_ID ec) (ExecCommands c)) /\
    (forall k, execCommands d !! k = Some p ->
       getExecConfig r.1.1 k = Some (p, exited (si_ExitCode e) ec)) /\
    ec_ExitCode (exited (si_ExitCode e) ec) = Some (si_ExitCode e) /\
    ec_Running (exited (si_ExitCode e) ec) = false.
Proof.
  intros w d id e c p ec Hc He Hp Hec r. subst r.
  rewrite (StateChanged_exit_process w d id e c p ec Hc He Hp Hec).
  cbn [fst snd]. split; [reflexivity|]. split; [|split].
  - eexists. split; [apply lookup_store | reflexivity].
  - intros k Hk. unfold getExecConfig. simpl. rewrite Hk. simpl.
    by rewrite lookup_insert_eq.
  - split; reflexivity.
Qed.

(** A second ExitProcess event for the same session, stored under its own
    id, finds nothing: it is answered with the warning and nil, and changes
    nothing. *)
Theorem repeated_exit_process_is_stale :
  forall (w w2 : answers) (d : Daemon) (id : string) (e : StateInfo)
         (c : Container) (p : ptr) (ec : ExecConfig),
    containers d !! id = Some c ->
    state e = StateExitProcess ->
    ExecCommands c !! ProcessID e = Some p ->
    execs d !! p = Some ec ->
    ec_ID ec = ProcessID e ->
    let d1 := (StateChanged GOOS w d id e).1.1 in
    StateChanged GOOS w2 d1 id e =
      (d1, [Lock id; WarnIgnoringExitProcess e; Unlock id], None).
Proof.
  intros w w2 d id e c p ec Hc He Hp Hec Hid d1. subst d1.
  rewrite (StateChanged_exit_process w d id e c p ec Hc He Hp Hec).
  cbn [fst]. unfold StateChanged at 1. rewrite lookup_store, He.
  unfold ExecCommands_Get. cbn [ExecCommands set_ExecCommands].
  rewrite Hid, lookup_delete_eq. reflexivity.
Qed.

(** Pause and Resume write the paused flag and nothing else of the
    container, log "pause" and "unpause", persist nothing and return nil:
    after a Pause and a Resume the container is as it was, but for a paused
    flag that is off. *)
Theorem pause_then_resume :
  forall (w1 w2 : answers) (d : Daemon) (id : string) (e1 e2 : StateInfo)
         (c : Container),
    containers d !! id = Some c ->
    state e1 = StatePause ->
    state e2 = StateResume ->
    let r1 := StateChanged GOOS w1 d id e1 in
    let r2 := StateChanged GOOS w2 r1.1.1 id e2 in
    r1 = (store id (set_Paused true c) d,
          [LogContainerEvent (set_Paused true c) "pause" []], None) /\
    r2.2 = None /\
    r2.1.2 = [LogContainerEvent (set_Paused false c) "unpause" []] /\
    containers r2.1.1 !! id = Some (set_Paused false c) /\
    disk r2.1.1 = disk d.
Proof.
  intros w1 w2 d id e1 e2 c Hc He1 He2 r1 r2.
  assert (Hr1 : r1 = (store id (set_Paused true c) d,
                      [LogContainerEvent (set_Paused true c) "pause" []], None)).
  { subst r1. unfold StateChanged. by rewrite Hc, He1. }
  split; [exact Hr1|]. subst r2. rewrite Hr1. cbn [fst].
  unfold StateChanged. rewrite lookup_store, He2. cbn [fst snd].
  split; [reflexivity|]. split; [reflexivity|].
  split; [apply lookup_store | reflexivity].
Qed.

End StateChangedBranches.

Section StateChangedBranchWitnesses.

Import daemon.

Lemma unknown_id_is_an_error_witness :
  StateChanged "linux" all_fine (daemon_of (container_c1 false)) "c2"
    (event_of StatePause 0 0 "") =
    (daemon_of (container_c1 false), [], Some (ErrNoSuchContainer "c2")) /\
  AttachStreams all_fine (daemon_of (container_c1 false)) "c2" all_pipes =
    (daemon_of (container_c1 false), [], [],
     Some (ErrNoSuchExecOrContainer "c2")).
Proof.
  destruct (unknown_id_is_an_error "linux" all_fine
              (daemon_of (container_c1 false)) "c2") as [Hstate Hattach].
  - reflexivity.
  - split; [apply Hstate | apply Hattach; reflexivity].
Defined.

Lemma StateChanged_lock_discipline_witness :
  List.filter is_lock_event
    (StateChanged "linux" all_fine (daemon_of (container_c1 false)) "c1"
       (event_of StateStart 0 4242 "")).1.2 = [] /\
  exists body,
    (StateChanged "linux" disk_fails (daemon_of (container_c1 false)) "c1"
       (event_of StateExit 3 0 "")).1.2 = Lock "c1" :: body ++ [Unlock "c1"].
Proof.
  split.
  - apply (StateChanged_lock_discipline "linux" all_fine
             (daemon_of (container_c1 false)) "c1"
             (event_of StateStart 0 4242 "") (container_c1 false));
      reflexivity.
  - destruct (StateChanged_lock_discipline "linux" disk_fails
                (daemon_of (container_c1 false)) "c1"
                (event_of StateExit 3 0 "") (container_c1 false))
      as [Hlock _]; [reflexivity|].
    destruct (Hlock eq_refl) as (body & Htr & _). by exists body.
Defined.

Lemma exited_exec_stays_inspectable_witness :
  getExecConfig
    (StateChanged "linux" all_fine daemon_with_exec "c1"
       (event_of StateExitProcess 3 0 "e1")).1.1 "e1" =
    Some (1%positive, exited 3 exec_e1) /\
  exists c',
    containers
      (StateChanged "linux" all_fine daemon_with_exec "c1"
         (event_of StateExitProcess 3 0 "e1")).1.1 !! "c1" = Some c' /\
    ExecCommands c' !! "e1" = None.
Proof.
  destruct (exited_exec_stays_inspectable "linux" all_fine daemon_with_exec
              "c1" (event_of StateExitProcess 3 0 "e1")
              (set_ExecCommands {["e1" := 1%positive]} (container_c1 false))
              1%positive exec_e1)
    as (_ & (c' & Hc' & Htable) & Hstore & _); try reflexivity.
  split; [apply Hstore; reflexivity|].
  exists c'. split; [exact Hc'|]. rewrite Htable. apply lookup_delete_eq.
Defined.

Lemma repeated_exit_process_is_stale_witness :
  (StateChanged "linux" all_fine
     (StateChanged "linux" all_fine daemon_with_exec "c1"
        (event_of StateExitProcess 3 0 "e1")).1.1
     "c1" (event_of StateExitProcess 3 0 "e1")).1.2 =
  [Lock "c1"; WarnIgnoringExitProcess (event_of StateExitProcess 3 0 "e1");
   Unlock "c1"].
Proof.
  rewrite (repeated_exit_process_is_stale "linux" all_fine all_fine
             daemon_with_exec "c1" (event_of StateExitProcess 3 0 "e1")
             (set_ExecCommands {["e1" := 1%positive]} (container_c1 false))
             1%positive exec_e1); reflexivity.
Defined.

Lemma pause_then_resume_witness :
  exists c',
    containers
      (StateChanged "linux" all_fine
         (StateChanged "linux" all_fine (daemon_of (container_c1 false)) "c1"
            (event_of StatePause 0 0 "")).1.1
         "c1" (event_of StateResume 0 0 "")).1.1 !! "c1" = Some c' /\
    Paused c' = false.
Proof.
  destruct (pause_then_resume "linux" all_fine all_fine
              (daemon_of (container_c1 false)) "c1"
              (event_of StatePause 0 0 "") (event_of StateResume 0 0 "")
              (container_c1 false))
    as (_ & _ & _ & Hc & _); try reflexivity.
  eexists. split; [exact Hc | reflexivity].
Defined.

(** An ExitProcess event for the session "e1" of "c1": the daemon's own
    store still holds it, and "c1" is still the one container. *)
Lemma StateChanged_touches_one_container_witness :
  execCommands
    (StateChanged "linux" all_fine daemon_with_exec "c1"
       (event_of StateExitProcess 0 0 "e1")).1.1 = {["e1" := 1%positive]} /\
  dom (containers
         (StateChanged "linux" all_fine daemon_with_exec "c1"
            (event_of StateExitProcess 0 0 "e1")).1.1) =
    dom (containers daemon_with_exec).
Proof.
  destruct (StateChanged_touches_one_container "linux" all_fine
              daemon_with_exec "c1" (event_of StateExitProcess 0 0 "e1"))
    as (_ & Hdom & Hstore); [discriminate|].
  split; [exact Hstore | exact Hdom].
Defined.

End StateChangedBranchWitnesses.

(** ** [AttachStreams]: the exec path and what is left alone *)

Section AttachStreamsFrame.

Import daemon.

(** [AttachStreams] for an exec session never fails, does not start the
    logging, and closes no stdin pipe itself, with or without a stdin
    source: a stdin pipe is closed only by the stdin copy, which runs only
    if the session has a stdin source. *)
Theorem AttachStreams_exec_session :
  forall (w : answers) (d : Daemon) (id : string) (iop : IOPipe)
         (p : ptr) (ec : ExecConfig),
    containers d !! id = None ->
    getExecConfig d id = Some (p, ec) ->
    let r := AttachStreams w d id iop in
    r.2 = None /\ r.1.1.2 = [] /\
    r.1.2 =
      (if has_stdin (ec_StreamConfig ec) && Stdin iop
       then [CopyStdin (OfExec p)] else []) ++
      (if Stdout iop then [CopyOut (OfExec p) to_stdout] else []) ++
      (if Stderr iop then [CopyOut (OfExec p) to_stderr] else []).
Proof.
  intros w d id iop p ec Hc Hec r. subst r.
  unfold AttachStreams. rewrite Hc, Hec.
  pose proof (wire_tasks d (OfExec p) (ec_StreamConfig ec) None iop) as Hts.
  pose proof (wire_events d (OfExec p) (ec_StreamConfig ec) None iop) as Hev.
  destruct (wire d (OfExec p) (ec_StreamConfig ec) None iop) as [[d' evs] ts].
  cbn [fst snd] in *. by rewrite Hts, Hev.
Qed.

Lemma AttachStreams_exec_session_witness :
  (AttachStreams logging_fails
     (set_containers ∅ daemon_with_exec) "e1" all_pipes).1.1.2 = [] /\
  (AttachStreams logging_fails
     (set_containers ∅ daemon_with_exec) "e1" all_pipes).2 = None.
Proof.
  destruct (AttachStreams_exec_session logging_fails
              (set_containers ∅ daemon_with_exec) "e1" all_pipes
              1%positive exec_e1) as (Hr & Hev & _); [reflexivity..|].
  split; [exact Hev | exact Hr].
Defined.

Lemma Add_exec p n d ec :
  execs d !! p = Some ec ->
  execs (Add (OfExec p) n d) !! p = Some (pending_up n ec) /\
  (forall p', p' <> p -> execs (Add (OfExec p) n d) !! p' = execs d !! p') /\
  containers (Add (OfExec p) n d) = containers d /\
  execCommands (Add (OfExec p) n d) = execCommands d /\
  disk (Add (OfExec p) n d) = disk d.
Proof.
  intros Hp. unfold Add. simpl. rewrite Hp. simpl.
  split; [by rewrite lookup_alter_eq, Hp|].
  split; [|by repeat split].
  intros p' Hne. by apply lookup_alter_ne.
Qed.

(** A call of [AttachStreams] for an exec session, where no logging is
    started, leaves the daemon as it is but for the pending-copy counter of
    that session, which goes up by one for each of the stdout and the
    stderr pipe that is there: the rest of the session, every other exec
    configuration, every container, both exec stores and the disk are
    untouched. *)
Theorem AttachStreams_writes_the_counter_only :
  forall (w : answers) (d : Daemon) (id : string) (iop : IOPipe)
         (p : ptr) (ec : ExecConfig),
    containers d !! id = None ->
    getExecConfig d id = Some (p, ec) ->
    let d' := (AttachStreams w d id iop).1.1.1 in
    execs d' !! p =
      Some (pending_up (Z_of_bool (Stdout iop) + Z_of_bool (Stderr iop)) ec) /\
    (forall p', p' <> p -> execs d' !! p' = execs d !! p') /\
    containers d' = containers d /\
    execCommands d' = execCommands d /\ disk d' = disk d.
Proof.
  intros w d id iop p ec Hc Hec d'. subst d'.
  assert (Hp : execs d !! p = Some ec).
  { unfold getExecConfig in Hec.
    destruct (execCommands d !! id) as [p'|]; [|discriminate]. simpl in Hec.
    destruct (execs d !! p') as [ec'|] eqn:Hp'; [|discriminate].
    simpl in Hec. by injection Hec as -> ->. }
  unfold AttachStreams. rewrite Hc, Hec. unfold wire.
  destruct (if has_stdin (ec_StreamConfig ec) then _ else _) as [ev_in t_in].
  destruct (Add_exec p 1 d ec Hp) as (Hp1 & Ho1 & Hc1 & Hx1 & Hd1).
  destruct (Add_exec p 1 (Add (OfExec p) 1 d) _ Hp1)
    as (Hp2 & Ho2 & Hc2 & Hx2 & Hd2).
  assert (Htwice : pending_up 1 (pending_up 1 ec) = pending_up (1 + 1) ec).
  { unfold pending_up. simpl. do 2 f_equal. lia. }
  assert (Hnone : ec = pending_up (0 + 0) ec).
  { destruct ec as [? ? ? [? ?]]. unfold pending_up. simpl. do 2 f_equal. lia. }
  destruct (Stdout iop), (Stderr iop); cbn [fst Z_of_bool].
  - rewrite Hp2, Htwice, Hc2, Hc1, Hx2, Hx1, Hd2, Hd1.
    split; [reflexivity|]. split; [|done].
    intros p' Hne. by rewrite Ho2, Ho1.
  - rewrite Hp1, Hc1, Hx1, Hd1. split; [reflexivity|]. by split.
  - rewrite Hp1, Hc1, Hx1, Hd1. split; [reflexivity|]. by split.
  - rewrite Hp, <- Hnone. by repeat split.
Qed.

Lemma AttachStreams_writes_the_counter_only_witness :
  execs
    (AttachStreams logging_fails (set_containers ∅ daemon_with_exec) "e1"
       all_pipes).1.1.1 !! 1%positive = Some (pending_up 2 exec_e1) /\
  containers
    (AttachStreams logging_fails (set_containers ∅ daemon_with_exec) "e1"
       all_pipes).1.1.1 = ∅.
Proof.
  destruct (AttachStreams_writes_the_counter_only logging_fails
              (set_containers ∅ daemon_with_exec) "e1" all_pipes
              1%positive exec_e1) as (Hp & _ & Hc & _); [reflexivity..|].
  split; [exact Hp | exact Hc].
Defined.

End AttachStreamsFrame.

(** ** [Create]: what is accepted, and what reaches the runtime *)

Section CreatePayload.

Import windowsoci libcontainerd.

Variable fsplit fdir : string -> string.
Variable guid : string -> string + error.

Lemma hostBindingsLoop_completes i proto v : forall pbs,
  Forall (binding_ok i) v ->
  exists new,
    hostBindingsLoop i proto v pbs = inl (pbs ++ new) /\
    List.length new = List.length v /\
    Forall (fun pb => Protocol pb = proto /\
                      0 <= InternalPort pb <= 65535 /\
                      0 <= ExternalPort pb <= 65535) new.
Proof.
  induction v as [|v2 rest IH]; intros pbs Hok.
  - exists []. simpl. rewrite app_nil_r. by repeat split.
  - apply Forall_cons in Hok as [(Hip & (e & He & Herange) & (n & Hn & Hnrange)) Hok].
    simpl. rewrite Hip, He, Hn. cbn [String.length Nat.eqb negb].
    replace ((n <? 0) || (65535 <? n) || (e <? 0) || (65535 <? e)) with false
      by (symmetry; rewrite !orb_false_iff, !Z.ltb_ge; lia).
    destruct (IH (pbs ++ [{| Protocol := proto; InternalPort := n;
                             ExternalPort := e |}]) Hok)
      as (new & Hrun & Hlen & Hall).
    exists ({| Protocol := proto; InternalPort := n; ExternalPort := e |} :: new).
    rewrite Hrun, <- app_assoc. split; [reflexivity|].
    split; [simpl; by rewrite Hlen|].
    constructor; [cbn; repeat split; lia | exact Hall].
Qed.

Lemma portBindingsLoop_completes m : forall pbs,
  Forall entry_ok m ->
  exists new,
    portBindingsLoop m pbs = inl (pbs ++ new) /\
    List.length new = List.length (host_bindings m) /\
    Forall valid_binding new.
Proof.
  induction m as [|[i v] rest IH]; intros pbs Hok.
  - exists []. simpl. rewrite app_nil_r. by repeat split.
  - apply Forall_cons in Hok as [(Hproto & Hlen & Hv) Hok]. simpl in *.
    assert (Hknown :
      negb (String.eqb (strings.ToUpper (nat_port.Proto i)) "TCP") &&
      negb (String.eqb (strings.ToUpper (nat_port.Proto i)) "UDP") = false).
    { destruct Hproto as [-> | ->]; reflexivity. }
    rewrite Hknown.
    replace (1 <? List.length v)%nat with false
      by (symmetry; apply Nat.ltb_ge; exact Hlen).
    destruct (hostBindingsLoop_completes i
                (strings.ToUpper (nat_port.Proto i)) v pbs Hv)
      as (new1 & Hrun1 & Hlen1 & Hall1).
    rewrite Hrun1.
    destruct (IH (pbs ++ new1) Hok) as (new2 & Hrun2 & Hlen2 & Hall2).
    exists (new1 ++ new2). rewrite Hrun2, <- app_assoc.
    split; [reflexivity|]. split.
    + unfold host_bindings in *. simpl. rewrite !length_app. lia.
    + apply Forall_app. split; [|exact Hall2].
      eapply Forall_impl; [exact Hall1|].
      intros pb (Hp & Hi & He). split; [|by split].
      rewrite Hp. exact Hproto.
Qed.

(** A specification whose layers resolve is turned into a payload exactly
    if every entry of its port map passes the checks of the two loops; a
    specification without networking section always is. *)
Theorem payload_built_iff_entries_ok :
  forall (id : string) (spec : Spec) (layers : list layer),
    layersLoop fsplit guid (LayerPaths (Windows_ spec)) [] = inl layers ->
    (exists cu, buildConfiguration fsplit fdir guid id spec = inl cu) <->
    match Networking_ (Windows_ spec) with
    | Some n => Forall entry_ok (PortBindings n)
    | None => True
    end.
Proof.
  intros id spec layers Hlayers. unfold buildConfiguration.
  rewrite Hlayers. destruct (Networking_ (Windows_ spec)) as [n|].
  - unfold networkDevice.
    destruct (portBindingsLoop (PortBindings n) []) as [pbs|e] eqn:Hloop.
    + split; [|by eexists]. intros _.
      eapply portBindingsLoop_accepts. exact Hloop.
    + split; [intros [cu Hcu]; discriminate Hcu|].
      intros Hok. destruct (portBindingsLoop_completes _ [] Hok) as (new & Hrun & _).
      rewrite Hrun in Hloop. discriminate Hloop.
  - split; [done | by eexists].
Qed.

(** Every port binding of a payload has the protocol TCP or UDP and both
    ports from 0 to 65535, and the payload has one port binding for each
    host binding of the port map. *)
Theorem payload_bindings_valid :
  forall (id : string) (spec : Spec) (cu : containerInit),
    buildConfiguration fsplit fdir guid id spec = inl cu ->
    Forall valid_binding (payload_bindings cu) /\
    List.length (payload_bindings cu) =
      match Networking_ (Windows_ spec) with
      | Some n => List.length (host_bindings (PortBindings n))
      | None => O
      end.
Proof.
  intros id spec cu. unfold buildConfiguration.
  destruct (layersLoop fsplit guid (LayerPaths (Windows_ spec)) [])
    as [layers|e]; [|discriminate].
  destruct (Networking_ (Windows_ spec)) as [n|].
  - unfold networkDevice.
    destruct (portBindingsLoop (PortBindings n) []) as [pbs|e] eqn:Hloop;
      [|discriminate].
    intros [= <-]. unfold payload_bindings. simpl. rewrite app_nil_r.
    pose proof (portBindingsLoop_accepts _ _ _ Hloop) as Hok.
    destruct (portBindingsLoop_completes _ [] Hok) as (new & Hrun & Hlen & Hall).
    rewrite Hrun in Hloop. injection Hloop as <-. simpl. by split.
  - intros [= <-]. unfold payload_bindings. simpl. by split.
Qed.

Lemma layersLoop_spec paths : forall acc,
  match layersLoop fsplit guid paths acc with
  | inl layers =>
      exists new,
        layers = acc ++ new /\
        List.map layer_Path new = paths /\
        Forall (fun l => guid (fsplit (layer_Path l)) = inl (ID l)) new
  | inr e =>
      exists l1 path l2,
        paths = l1 ++ path :: l2 /\
        guid (fsplit path) = inr e /\
        Forall (fun path' => exists g, guid (fsplit path') = inl g) l1
  end.
Proof.
  induction paths as [|path rest IH]; intros acc.
  - exists []. simpl. rewrite app_nil_r. by repeat split.
  - simpl. destruct (guid (fsplit path)) as [g|e] eqn:Hg.
    + specialize (IH (acc ++ [{| ID := g; layer_Path := path |}])).
      destruct (layersLoop fsplit guid rest _) as [layers|e].
      * destruct IH as (new & -> & Hpaths & Hall).
        exists ({| ID := g; layer_Path := path |} :: new).
        rewrite <- app_assoc. split; [reflexivity|].
        split; [simpl; by rewrite Hpaths|].
        constructor; [exact Hg | exact Hall].
      * destruct IH as (l1 & path' & l2 & -> & Hbad & Hgood).
        exists (path :: l1), path', l2. split; [reflexivity|].
        split; [exact Hbad|]. constructor; [by eexists | exact Hgood].
    + exists [], path, rest. by repeat split.
Qed.

(** The layers of a payload are the layer paths of the specification, in
    their order, each under the GUID of its file name.  A layer path whose
    file name has no GUID ends [Create] with the error of the first such
    path, before anything is asked of the runtime. *)
Theorem layers_in_order_or_first_error :
  forall (h : hcs) (id : string) (spec : Spec),
    (forall cu,
       buildConfiguration fsplit fdir guid id spec = inl cu ->
       List.map layer_Path (Layers cu) = LayerPaths (Windows_ spec) /\
       Forall (fun l => guid (fsplit (layer_Path l)) = inl (ID l))
         (Layers cu)) /\
    (forall l1 path l2 e,
       LayerPaths (Windows_ spec) = l1 ++ path :: l2 ->
       Forall (fun path' => exists g, guid (fsplit path') = inl g) l1 ->
       guid (fsplit path) = inr e ->
       Create fsplit fdir guid h id spec = ([], Some e)).
Proof.
  intros h id spec. split.
  - intros cu. unfold buildConfiguration.
    pose proof (layersLoop_spec (LayerPaths (Windows_ spec)) []) as Hl.
    destruct (layersLoop fsplit guid (LayerPaths (Windows_ spec)) [])
      as [layers|e]; [|discriminate].
    destruct Hl as (new & -> & Hpaths & Hall). simpl.
    destruct (match Networking_ (Windows_ spec) with
              | Some n => _ | None => _ end) as [devs|e]; [|discriminate].
    intros [= <-]. simpl. by split.
  - intros l1 path l2 e Hpaths Hgood Hbad.
    unfold Create, buildConfiguration.
    pose proof (layersLoop_spec (LayerPaths (Windows_ spec)) []) as Hl.
    destruct (layersLoop fsplit guid (LayerPaths (Windows_ spec)) [])
      as [layers|e'].
    + destruct Hl as (new & _ & Hmap & Hall). exfalso.
      rewrite Hpaths in Hmap.
      assert (Hin : In path (List.map layer_Path new)).
      { rewrite Hmap. apply in_or_app. right. by left. }
      apply in_map_iff in Hin as (l & Hl & Hin).
      rewrite Forall_forall in Hall.
      apply list_elem_of_In in Hin. specialize (Hall l Hin).
      rewrite Hl, Hbad in Hall. discriminate Hall.
    + destruct Hl as (l1' & path' & l2' & Hpaths' & Hbad' & Hgood').
      rewrite Hpaths in Hpaths'.
      assert (Hsame : l1 = l1' /\ path = path').
      { clear - Hpaths' Hgood Hgood' Hbad Hbad'.
        revert l1' Hpaths' Hgood'.
        induction l1 as [|x l1 IH]; intros [|y l1'] Heq Hgood'.
        - by injection Heq as -> _.
        - injection Heq as -> _. apply Forall_cons in Hgood' as [[g Hg] _].
          rewrite Hbad in Hg. discriminate Hg.
        - injection Heq as -> _. apply Forall_cons in Hgood as [[g Hg] _].
          rewrite Hbad' in Hg. discriminate Hg.
        - injection Heq as -> Heq.
          apply Forall_cons in Hgood as [_ Hgood].
          apply Forall_cons in Hgood' as [_ Hgood'].
          destruct (IH Hgood l1' Heq Hgood') as [-> ->]. by split. }
      destruct Hsame as [_ <-]. rewrite Hbad in Hbad'.
      by injection Hbad' as <-.
Qed.

Lemma retryLoop_bounds h id cu : forall n i err,
  let tr := (retryLoop h id cu n i err).1 in
  (List.length (List.filter is_create_call tr) <= n)%nat /\
  (List.length (List.filter is_sleep tr) <=
   List.length (List.filter is_create_call tr))%nat /\
  Forall (fun ev => is_create_call ev = true ->
                    ev = CallCreateComputeSystem id cu) tr /\
  Forall (fun ev => is_sleep ev = true -> ev = Sleep 50) tr /\
  List.filter is_start_call tr = [] /\ List.filter is_delete_call tr = [].
Proof.
  induction n as [|n IH]; intros i err; [simpl; by repeat split|].
  cbn zeta. cbn [retryLoop].
  destruct (CreateComputeSystem h i) as [e|]; [|simpl; split; [lia|];
    split; [lia|]; by repeat constructor].
  assert (Hplain : forall e',
    let tr' := (let '(tr, x) := retryLoop h id cu n (S i) (Some e') in
                (CallCreateComputeSystem id cu :: tr, x)).1 in
    (List.length (List.filter is_create_call tr') <= S n)%nat /\
    (List.length (List.filter is_sleep tr') <=
     List.length (List.filter is_create_call tr'))%nat /\
    Forall (fun ev => is_create_call ev = true ->
                      ev = CallCreateComputeSystem id cu) tr' /\
    Forall (fun ev => is_sleep ev = true -> ev = Sleep 50) tr' /\
    List.filter is_start_call tr' = [] /\ List.filter is_delete_call tr' = []).
  { intros e'. specialize (IH (S i) (Some e')). cbn zeta in IH.
    destruct (retryLoop h id cu n (S i) (Some e')) as [tr x].
    cbn [fst] in IH. destruct IH as (Hc & Hs & Hcu & Hsl & Hst & Hdel).
    simpl. split; [lia|]. split; [lia|].
    split; [by constructor|]. split; [by constructor|]. by split. }
  destruct e as [Err| | | | | | | | | | |]; try apply Hplain.
  destruct (retriedCode Err); [|simpl; split; [lia|]; split; [lia|];
    by repeat constructor].
  specialize (IH (S i) (Some (HcsError Err))). cbn zeta in IH.
  destruct (retryLoop h id cu n (S i) (Some (HcsError Err))) as [tr x].
  cbn [fst] in IH. destruct IH as (Hc & Hs & Hcu & Hsl & Hst & Hdel).
  simpl. split; [lia|]. split; [lia|].
  split; [constructor; [done|]; constructor; [done|]; by constructor|].
  split; [constructor; [done|]; constructor; [done|]; by constructor|].
  by split.
Qed.

(** Whatever the runtime answers, [Create] asks it to create the container
    at most five times on TP4 and at most once otherwise, every time with
    the same payload under the same id; it sleeps at most once per attempt,
    50ms each time, and calls [container.start()] at most once. *)
Theorem Create_attempts_are_bounded :
  forall (h : hcs) (id : string) (spec : Spec),
    let tr := (Create fsplit fdir guid h id spec).1 in
    (List.length (List.filter is_create_call tr) <=
     if IsTP4 h then maxAttempts else 1)%nat /\
    (List.length (List.filter is_sleep tr) <=
     List.length (List.filter is_create_call tr))%nat /\
    Forall (fun ev => is_sleep ev = true -> ev = Sleep 50) tr /\
    (List.length (List.filter is_start_call tr) <= 1)%nat /\
    (forall cu,
       buildConfiguration fsplit fdir guid id spec = inl cu ->
       Forall (fun ev => is_create_call ev = true ->
                         ev = CallCreateComputeSystem id cu) tr).
Proof.
  intros h id spec tr. subst tr. unfold Create.
  destruct (buildConfiguration fsplit fdir guid id spec) as [cu|e];
    [|simpl; split; [apply Nat.le_0_l|]; split; [lia|];
      split; [constructor|]; split; [lia|]; intros; constructor].
  destruct (IsTP4 h); cbn [negb].
  - pose proof (retryLoop_bounds h id cu maxAttempts 0 None) as Hb.
    cbn zeta in Hb.
    destruct (retryLoop h id cu maxAttempts 0 None) as [tr x].
    cbn [fst] in Hb. destruct Hb as (Hc & Hs & Hcu & Hsl & Hst & Hdel).
    destruct x as [e|e]; cbn [fst].
    + split; [exact Hc|]. split; [exact Hs|]. split; [exact Hsl|].
      split; [rewrite Hst; simpl; lia|]. by intros cu' [= <-].
    + unfold startContainer. cbn [fst].
      rewrite !List.filter_app, !length_app, Hst.
      assert (Htail : forall l,
        l = [] \/ l = [CallDeleteContainer id] ->
        List.filter is_create_call (CallStart (newContainer id (Process_ spec)) :: l) = [] /\
        List.filter is_sleep (CallStart (newContainer id (Process_ spec)) :: l) = [] /\
        List.length (List.filter is_start_call
          (CallStart (newContainer id (Process_ spec)) :: l)) = 1%nat /\
        Forall (fun ev => is_sleep ev = true -> ev = Sleep 50)
          (CallStart (newContainer id (Process_ spec)) :: l) /\
        Forall (fun ev => is_create_call ev = true ->
                          ev = CallCreateComputeSystem id cu)
          (CallStart (newContainer id (Process_ spec)) :: l)).
      { intros l [-> | ->]; simpl; by repeat constructor. }
      destruct (Htail (match e with Some _ => [CallDeleteContainer id]
                               | None => [] end))
        as (Ht1 & Ht2 & Ht3 & Ht4 & Ht5); [destruct e; tauto|].
      rewrite Ht1, Ht2, Ht3. simpl. rewrite !Nat.add_0_r.
      split; [exact Hc|]. split; [exact Hs|].
      split; [apply Forall_app; by split|]. split; [lia|].
      intros cu' [= <-]. apply Forall_app. by split.
  - destruct (CreateComputeSystem h 0); simpl.
    + split; [lia|]. split; [lia|]. split; [by repeat constructor|].
      split; [lia|]. intros cu' [= <-]. by repeat constructor.
    + split; [lia|]. split; [lia|]. split; [by repeat constructor|].
      split; [lia|]. intros cu' [= <-]. by repeat constructor.
Qed.

End CreatePayload.

Section CreatePayloadWitnesses.

Import windowsoci libcontainerd.

Lemma payload_built_iff_entries_ok_witness :
  exists cu,
    buildConfiguration (fun s => s) (fun s => s) no_guid "c1"
      (spec_with (nat_with [("53/udp", [binding "" "5353"]); ("80/tcp", [])]))
      = inl cu.
Proof.
  apply (payload_built_iff_entries_ok (fun s => s) (fun s => s) no_guid "c1"
           (spec_with (nat_with [("53/udp", [binding "" "5353"]);
                                 ("80/tcp", [])])) []);
    [reflexivity|].
  simpl. constructor; [|constructor; [|constructor]].
  - split; [right; reflexivity|]. split; [simpl; lia|].
    constructor; [|constructor].
    split; [reflexivity|].
    split; [exists 5353 | exists 53]; (split; [reflexivity | lia]).
  - split; [left; reflexivity|]. split; [simpl; lia | constructor].
Defined.

Lemma payload_bindings_valid_witness :
  exists cu,
    buildConfiguration (fun s => s) (fun s => s) no_guid "c1"
      (spec_with (nat_with [("53/udp", [binding "" "5353"]); ("80/tcp", [])]))
      = inl cu /\
    Forall valid_binding (payload_bindings cu) /\
    List.length (payload_bindings cu) = 1%nat.
Proof.
  eexists. split; [reflexivity|].
  match goal with
  | |- Forall _ (payload_bindings ?cu) /\ _ =>
      exact (payload_bindings_valid (fun s => s) (fun s => s) no_guid "c1"
               (spec_with (nat_with [("53/udp", [binding "" "5353"]);
                                     ("80/tcp", [])]))
               cu eq_refl)
  end.
Defined.

End CreatePayloadWitnesses.

(** ** [Create]: the first success, and the network device *)

Section CreateSuccess.

Import windowsoci libcontainerd.

Variable fsplit fdir : string -> string.
Variable guid : string -> string + error.

(** The first attempt that succeeds leaves the loop by its [break], with
    [err] nil, provided the attempts before it were retried ones. *)
Lemma retryLoop_succeeds h id cu : forall n i err j,
  (j < n)%nat ->
  (forall k, (i <= k < i + j)%nat -> retried (CreateComputeSystem h k)) ->
  CreateComputeSystem h (i + j) = None ->
  exists tr,
    retryLoop h id cu n i err = (tr, FellOut None) /\
    List.length (List.filter is_create_call tr) = S j /\
    List.length (List.filter is_sleep tr) = j /\
    List.filter is_delete_call tr = [] /\
    List.filter is_start_call tr = [].
Proof.
  induction n as [|n IH]; intros i err j Hj Hbefore Hcall; [lia|].
  destruct j as [|j].
  - rewrite Nat.add_0_r in Hcall. simpl. rewrite Hcall.
    eexists. by repeat split.
  - destruct (Hbefore i) as (Err' & Hcall' & Hcode'); [lia|].
    destruct (IH (S i) (Some (HcsError Err')) j)
      as (tr & Hrun & Hlen & Hsleep & Hdel & Hst); [lia | |  |].
    { intros k Hk. apply Hbefore. lia. }
    { rewrite <- Hcall. f_equal. lia. }
    simpl. rewrite Hcall', Hcode', Hrun.
    eexists. split; [reflexivity|]. simpl. rewrite Hlen, Hsleep.
    by repeat split.
Qed.

(** On TP4, the first creation attempt that succeeds ends the retries: when
    the j attempts before it failed with retried codes, [Create] has called
    [CreateComputeSystem] j+1 times and slept j times, then calls
    [container.start()] once and returns its answer; [deleteContainer] is
    not called. *)
Theorem Create_TP4_first_success :
  forall (h : hcs) (id : string) (spec : Spec) (cu : containerInit) (j : nat),
    IsTP4 h = true ->
    buildConfiguration fsplit fdir guid id spec = inl cu ->
    (j < maxAttempts)%nat ->
    (forall k, (k < j)%nat -> retried (CreateComputeSystem h k)) ->
    CreateComputeSystem h j = None ->
    exists tr,
      Create fsplit fdir guid h id spec =
        (tr ++ [CallStart (newContainer id (Process_ spec))], start h) /\
      List.length (List.filter is_create_call tr) = S j /\
      List.length (List.filter is_sleep tr) = j /\
      List.filter is_delete_call tr = [] /\
      List.filter is_start_call tr = [].
Proof.
  intros h id spec cu j Htp4 Hcu Hj Hbefore Hcall.
  destruct (retryLoop_succeeds h id cu maxAttempts 0 None j)
    as (tr & Hrun & Hrest); [exact Hj | | exact Hcall |].
  { intros k Hk. apply Hbefore. lia. }
  exists tr. split; [|exact Hrest].
  unfold Create. rewrite Hcu, Htp4. cbn [negb]. by rewrite Hrun.
Qed.

Lemma ReplaceByte_length s old new :
  String.length (strings.ReplaceByte s old new) = String.length s.
Proof. induction s as [|a s IH]; [reflexivity|]. simpl. by rewrite IH. Qed.

Lemma ReplaceByte_get old new : forall s k,
  String.get k (strings.ReplaceByte s old new) =
  match String.get k s with
  | Some a => Some (if Ascii.eqb a old then new else a)
  | None => None
  end.
Proof.
  induction s as [|a s IH]; intros k; [reflexivity|].
  destruct k as [|k]; [reflexivity|]. simpl. apply IH.
Qed.

(** A payload has one network device if the specification has a networking
    section and none otherwise.  The device is on the bridge of the
    specification; it carries a MAC address exactly if the specification
    gives a non-empty one, and then the address of the specification with
    every colon turned into a hyphen and every other byte as it is. *)
Theorem payload_network_device :
  forall (id : string) (spec : Spec) (cu : containerInit),
    buildConfiguration fsplit fdir guid id spec = inl cu ->
    match Networking_ (Windows_ spec) with
    | None => Devices cu = []
    | Some n =>
        exists dev,
          Devices cu = [dev] /\
          DeviceType dev = "Network" /\
          NetworkName (Connection dev) = Bridge n /\
          (Settings dev = None <-> MacAddress n = "") /\
          (forall st, Settings dev = Some st ->
             String.length (settings_MacAddress st) =
               String.length (MacAddress n) /\
             forall k,
               String.get k (settings_MacAddress st) =
               match String.get k (MacAddress n) with
               | Some a => Some (if Ascii.eqb a ":" then "-"%char else a)
               | None => None
               end)
    end.
Proof.
  intros id spec cu. unfold buildConfiguration.
  destruct (layersLoop fsplit guid (LayerPaths (Windows_ spec)) [])
    as [layers|e]; [|discriminate].
  destruct (Networking_ (Windows_ spec)) as [n|]; [|by intros [= <-]].
  unfold networkDevice.
  destruct (portBindingsLoop (PortBindings n) []) as [pbs|e]; [|discriminate].
  intros [= <-]. eexists. split; [reflexivity|]. cbn.
  split; [reflexivity|]. split; [reflexivity|].
  destruct (String.eqb_spec (MacAddress n) "") as [Hmac|Hmac].
  - cbn. split; [done|]. intros st Hst. discriminate Hst.
  - cbn. split; [split; [discriminate | done]|].
    intros st [= <-]. cbn.
    split; [apply ReplaceByte_length | apply ReplaceByte_get].
Qed.

End CreateSuccess.

Section CreateSuccessWitnesses.

Import windowsoci libcontainerd.

Lemma Create_TP4_first_success_witness :
  exists tr,
    Create0 tp4_third_time "c1" (spec_with None) =
      (tr ++ [CallStart new_c1], None) /\
    List.length (List.filter is_create_call tr) = 3%nat /\
    List.length (List.filter is_sleep tr) = 2%nat /\
    List.filter is_delete_call tr = [] /\
    List.filter is_start_call tr = [].
Proof.
  apply (Create_TP4_first_success (fun s => s) (fun s => s) no_guid
           tp4_third_time "c1" (spec_with None) cu1 2).
  - reflexivity.
  - reflexivity.
  - unfold maxAttempts. lia.
  - intros k Hk. exists ERROR_NOT_FOUND.
    destruct k as [|[|k]]; [split; reflexivity | split; reflexivity | lia].
  - reflexivity.
Defined.

Lemma payload_network_device_witness :
  exists cu dev,
    buildConfiguration (fun s => s) (fun s => s) no_guid "c1"
      (spec_with (Some {| Bridge := "nat"; MacAddress := "00:15:5d:01:02:03";
                          PortBindings := [] |})) = inl cu /\
    Devices cu = [dev] /\
    Settings dev = Some {| settings_MacAddress := "00-15-5d-01-02-03" |}.
Proof.
  eexists.
  match goal with
  | |- exists dev, _ = inl ?cu /\ _ =>
      pose proof (payload_network_device (fun s => s) (fun s => s) no_guid "c1"
                    (spec_with (Some {| Bridge := "nat";
                                        MacAddress := "00:15:5d:01:02:03";
                                        PortBindings := [] |}))
                    cu) as Hdev
  end.
  cbn [Networking_ Windows_ spec_with] in Hdev.
  destruct (Hdev eq_refl) as (dev & Hdevs & _).
  exists dev. split; [reflexivity|]. split; [exact Hdevs|].
  injection Hdevs as <-. reflexivity.
Defined.

End CreateSuccessWitnesses.

(** ** [Signal]: the lock *)

Section SignalLock.

Import libcontainerd.

(** On every path of [Signal], the early return of an unknown id included,
    the lock of the id is taken first and released last, and no other lock
    event lies between; for an unknown id nothing at all lies between. *)
Theorem Signal_holds_the_lock :
  forall (h : hcs_signal) (c : client) (id : string) (sig : Z),
    exists body,
      (Signal h c id sig).1 = CallLock id :: body ++ [CallUnlock id] /\
      List.filter is_client_lock_event body = [] /\
      (body = [] <-> containers c !! id = None).
Proof.
  intros h c id sig. unfold Signal, getContainer.
  destruct (containers c !! id) as [cont|].
  - cbn [fst]. eexists. split; [reflexivity|].
    destruct (sig =? SIGKILL).
    + destruct (TerminateComputeSystem h); cbn;
        (split; [reflexivity|]; split; discriminate).
    + destruct (TerminateProcessInComputeSystem h),
        (ShutdownComputeSystem h); cbn;
        (split; [reflexivity|]; split; discriminate).
  - exists []. split; [reflexivity|]. split; [reflexivity|]. by split.
Qed.

End SignalLock.
